(** * The Overcooked actor-critic model ([dizoo/overcooked/models/overcooked_vac.py])

    A shallow embedding of the two classes of the module, [ConvEncoder] and
    [VAC], and the properties of their constructors and forward modes.

    The Python code is object code over a tensor framework.  The embedding
    keeps that shape:
    - objects live in a heap and are reached through references, attributes
      are set one assignment at a time and may be missing;
    - every method is a computation in a state-and-exception monad over the
      interpreter's world (heap, random generator, standard output);
    - the tensor framework (torch) and the building blocks of the surrounding
      library (ding) are an interface, [Framework], of which the file gives
      one instance that computes with tensor shapes;
    - the buffers a module may hold besides its learned parameters are a
      second interface, [Buffered], over which the forward modes are read
      again for the statements on what a call leaves behind. *)

From Stdlib Require Import Ascii.
From stdpp Require Import functions gmap strings list pretty.

#[local] Set Warnings "-register-all".
#[local] Open Scope Z_scope.

(** ** Python preliminaries *)

(** The exceptions the module can raise or let through. *)
Inductive Exception :=
| IndexError
| KeyError (key : string)
| TypeError (what : string)
| AttributeError (name : string)
| AssertionError (msg : string)
| RuntimeError (msg : string).

Inductive Result (A : Type) :=
| Ok (a : A)
| Err (e : Exception).
Arguments Ok {A} a.
Arguments Err {A} e.

Definition is_ok {A} (r : Result A) : bool :=
  match r with Ok _ => true | Err _ => false end.

(** State and exceptions: a raised exception keeps the state reached so far,
    as a Python exception keeps the mutations made before it. *)
Definition M (S A : Type) : Type := S -> Result A * S.

Definition ret {S A} (a : A) : M S A := fun s => (Ok a, s).

Definition bind {S A B} (m : M S A) (k : A -> M S B) : M S B :=
  fun s => match m s with
           | (Ok a, s') => k a s'
           | (Err e, s') => (Err e, s')
           end.

Definition raise {S A} (e : Exception) : M S A := fun s => (Err e, s).

Definition lift {S A} (r : Result A) : M S A := fun s => (r, s).

Definition gets {S A} (f : S -> A) : M S A := fun s => (Ok (f s), s).

Definition modify {S} (f : S -> S) : M S unit := fun s => (Ok tt, f s).

Declare Scope py_scope.
Delimit Scope py_scope with py.
Notation "x <- c1 ;; c2" := (bind c1 (fun x => c2))
  (at level 100, c1 at next level, right associativity) : py_scope.
Notation "c1 ;; c2" := (bind c1 (fun _ => c2))
  (at level 100, right associativity) : py_scope.
#[local] Open Scope py_scope.

(** [assert cond, msg] *)
Definition py_assert {S} (cond : bool) (msg : string) : M S unit :=
  if cond then ret tt else raise (AssertionError msg).

(** [for x in xs: acc = body(x, acc)] *)
Fixpoint for_each {S A X} (xs : list X) (acc : A) (body : X -> A -> M S A) : M S A :=
  match xs with
  | [] => ret acc
  | x :: xs' => acc' <- body x acc ;; for_each xs' acc' body
  end.

Definition py_len {A} (l : list A) : Z := Z.of_nat (length l).

(** [l[i]], negative indices counted from the end. *)
Definition py_getitem {A} (l : list A) (i : Z) : Result A :=
  let j := if i <? 0 then i + py_len l else i in
  if j <? 0 then Err IndexError
  else match l !! Z.to_nat j with
       | Some a => Ok a
       | None => Err IndexError
       end.

Definition py_slice_bound (n i : Z) : Z :=
  if i <? 0 then Z.max 0 (i + n) else Z.min i n.

(** [l[start:stop]] *)
Definition py_slice {A} (l : list A) (start stop : Z) : list A :=
  let a := py_slice_bound (py_len l) start in
  let b := py_slice_bound (py_len l) stop in
  take (Z.to_nat (b - a)) (drop (Z.to_nat a) l).

(** [range(start, stop)] *)
Definition py_range (start stop : Z) : list Z := seqZ start (stop - start).

(** [len(set(l))] *)
Definition py_len_set (l : list Z) : Z :=
  Z.of_nat (size (list_to_set l : gset Z)).

(** [template.format(a, b, ...)] for templates whose only fields are [{}]. *)
Fixpoint py_format (template : string) (args : list string) : Result string :=
  match template with
  | EmptyString => Ok EmptyString
  | String "{"%char (String "}"%char rest) =>
      match args with
      | a :: args' =>
          match py_format rest args' with
          | Ok s => Ok (a +:+ s)
          | Err e => Err e
          end
      | [] => Err IndexError
      end
  | String c rest =>
      match py_format rest args with
      | Ok s => Ok (String c s)
      | Err e => Err e
      end
  end.

Definition py_join (sep : string) (parts : list string) : string :=
  match parts with
  | [] => EmptyString
  | p :: ps => fold_left (fun acc q => acc +:+ sep +:+ q) ps p
  end.

(** [repr(s)] of a string without quotes, backslashes or control characters
    (the only strings it is applied to are the names in [VAC.mode]). *)
Definition py_repr_str (s : string) : string := "'" +:+ s +:+ "'".

(** [str(l)] of a list of strings. *)
Definition py_str_list_str (l : list string) : string :=
  "[" +:+ py_join ", " (py_repr_str <$> l) +:+ "]".

(** An observation or action shape, [Union[int, SequenceType]]. *)
Inductive Shape :=
| SInt (n : Z)
| STuple (dims : list Z)
| SList (dims : list Z).

Definition isinstance_int (s : Shape) : bool :=
  match s with SInt _ => true | _ => false end.

Definition shape_len (s : Shape) : Result Z :=
  match s with
  | SInt _ => Err (TypeError "object of type 'int' has no len()")
  | STuple dims | SList dims => Ok (py_len dims)
  end.

Definition shape_getitem (s : Shape) (i : Z) : Result Z :=
  match s with
  | SInt _ => Err (TypeError "'int' object is not subscriptable")
  | STuple dims | SList dims => py_getitem dims i
  end.

(** Unpacking a shape into an argument list (a starred argument). *)
Definition shape_unpack (s : Shape) : Result (list Z) :=
  match s with
  | SInt _ => Err (TypeError "argument after * must be an iterable, not int")
  | STuple dims | SList dims => Ok dims
  end.

(** [str(s)] *)
Definition shape_str (s : Shape) : string :=
  match s with
  | SInt n => pretty n
  | STuple [d] => "(" +:+ pretty d +:+ ",)"
  | STuple dims => "(" +:+ py_join ", " (pretty <$> dims) +:+ ")"
  | SList dims => "[" +:+ py_join ", " (pretty <$> dims) +:+ "]"
  end.

(** ** Objects of the tensor framework *)

(** [activation: Optional[nn.Module]]: a module without parameters. *)
Inductive Activation :=
| ReLU
| Sigmoid
| Tanh
| OtherActivation (name : string).

(** The torch layers the module builds, with their constructor arguments;
    [ResBlock] is [ding.torch_utils.ResBlock]. *)
Inductive LayerSpec :=
| Conv2d (in_channels out_channels kernel_size stride : Z)
| ResBlock (in_channels : Z) (activation : option Activation) (norm_type : option string)
| Linear (in_features out_features : Z).

(** The first argument of [MultiHead] is a head class. *)
Inductive HeadCls :=
| DiscreteHeadCls.

(** The modules of [ding.model.common] the model instantiates, with their
    constructor arguments. *)
Inductive DingSpec :=
| FCEncoder (obs_shape : Shape) (hidden_size_list : list Z)
    (activation : option Activation) (norm_type : option string)
| RegressionHead (hidden_size output_size layer_num : Z)
    (activation : option Activation) (norm_type : option string)
| ReparameterizationHead (hidden_size : Z) (output_size : Shape) (layer_num : Z)
    (sigma_type : string) (activation : option Activation) (norm_type : option string)
| DiscreteHead (hidden_size : Z) (output_size : Shape) (layer_num : Z)
    (activation : option Activation) (norm_type : option string)
| MultiHead (head_cls : HeadCls) (hidden_size : Z) (output_size_list : Shape) (layer_num : Z)
    (activation : option Activation) (norm_type : option string).

(** The carrier types of a framework: tensors, the learned parameters of a
    module, and the state of the random generator. *)
Class Carrier := {
  Tensor : Type;
  Params : Type;
  Rng : Type;
}.

(** A reference to a heap object. *)
Definition loc := nat.

Section Objects.
Context `{Carrier}.

(** What a forward pass takes and returns: a tensor, a list or a dict. *)
Inductive Value :=
| VTensor (t : Tensor)
| VList (l : list Value)
| VDict (d : gmap string Value).

(** [v[key]] *)
Definition value_getitem (v : Value) (key : string) : Result Value :=
  match v with
  | VDict d =>
      match d !! key with
      | Some x => Ok x
      | None => Err (KeyError key)
      end
  | _ => Err (TypeError "indices must be integers")
  end.

(** An entry of a container of modules.  [NoModule] is an entry that is
    [None]: [nn.Sequential] takes [None] among its arguments and keeps it. *)
Inductive Layer :=
| Learned (spec : LayerSpec) (theta : Params)
| Flatten
| Act (a : Activation)
| NoModule.

(** A list of modules before and after [nn.ModuleList] wraps it. *)
Inductive ModuleSeq :=
| PyList (ms : list loc)
| ModuleList (ms : list loc).

(** The attributes of a [ConvEncoder] instance; [None] is an attribute not
    set yet. *)
Record ConvEncoderAttrs := {
  conv_obs_shape : option Shape;
  conv_act : option (option Activation);
  conv_hidden_size_list : option (list Z);
  conv_main : option (list Layer);
  conv_mid : option Layer;
}.

(** The attributes of a [VAC] instance. *)
Record VACAttrs := {
  vac_obs_shape : option Shape;
  vac_action_shape : option Shape;
  vac_share_encoder : option bool;
  vac_encoder : option loc;
  vac_actor_encoder : option loc;
  vac_critic_encoder : option loc;
  vac_critic_head : option loc;
  vac_continuous : option bool;
  vac_multi_head : option bool;
  vac_actor_head : option loc;
  vac_actor : option ModuleSeq;
  vac_critic : option ModuleSeq;
}.

Inductive Object :=
| ObjConvEncoder (attrs : ConvEncoderAttrs)
| ObjDing (spec : DingSpec) (theta : Params)
| ObjVAC (attrs : VACAttrs).

Inductive PrintArg :=
| PStr (s : string)
| PTensor (t : Tensor)
| PSize (dims : list Z).

(** The interpreter's state.  [calls] is the one field the program has not:
    it records every module call made on a heap object, in order, with the
    argument, so that theorems can count forward passes. *)
Record World := {
  rng : Rng;
  heap : list Object;
  stdout : list (list PrintArg);
  calls : list (loc * Value);
}.

Definition Py (A : Type) : Type := M World A.

Definition set_rng (g : Rng) (w : World) : World :=
  {| rng := g; heap := heap w; stdout := stdout w; calls := calls w |}.
Definition set_heap (h : list Object) (w : World) : World :=
  {| rng := rng w; heap := h; stdout := stdout w; calls := calls w |}.
Definition set_stdout (o : list (list PrintArg)) (w : World) : World :=
  {| rng := rng w; heap := heap w; stdout := o; calls := calls w |}.
Definition set_calls (c : list (loc * Value)) (w : World) : World :=
  {| rng := rng w; heap := heap w; stdout := stdout w; calls := c |}.

(** Object creation: the new object gets the next free reference. *)
Definition alloc (o : Object) : Py loc :=
  fun w => (Ok (length (heap w)), set_heap (heap w ++ [o]) w).

Definition deref (l : loc) : Py Object :=
  fun w => match heap w !! l with
           | Some o => (Ok o, w)
           | None => (Err (TypeError "not an object"), w)
           end.

Definition store (l : loc) (o : Object) : Py unit :=
  modify (fun w => set_heap (<[l := o]> (heap w)) w).

(** A draw from the random generator, which may raise. *)
Definition sample {A} (f : Rng -> Result A * Rng) : Py A :=
  fun w => let '(r, g) := f (rng w) in (r, set_rng g w).

Definition print (args : list PrintArg) : Py unit :=
  modify (fun w => set_stdout (stdout w ++ [args]) w).

Definition log_call (m : loc) (x : Value) : Py unit :=
  modify (fun w => set_calls (calls w ++ [(m, x)]) w).

(** [self.name] where the attribute may be missing. *)
Definition getattr {A} (name : string) (field : option A) : Py A :=
  match field with
  | Some a => ret a
  | None => raise (AttributeError name)
  end.

Definition empty_conv : ConvEncoderAttrs :=
  {| conv_obs_shape := None; conv_act := None; conv_hidden_size_list := None;
     conv_main := None; conv_mid := None |}.

Definition set_conv_obs_shape (v : Shape) (a : ConvEncoderAttrs) :=
  {| conv_obs_shape := Some v; conv_act := conv_act a;
     conv_hidden_size_list := conv_hidden_size_list a;
     conv_main := conv_main a; conv_mid := conv_mid a |}.
Definition set_conv_act (v : option Activation) (a : ConvEncoderAttrs) :=
  {| conv_obs_shape := conv_obs_shape a; conv_act := Some v;
     conv_hidden_size_list := conv_hidden_size_list a;
     conv_main := conv_main a; conv_mid := conv_mid a |}.
Definition set_conv_hidden_size_list (v : list Z) (a : ConvEncoderAttrs) :=
  {| conv_obs_shape := conv_obs_shape a; conv_act := conv_act a;
     conv_hidden_size_list := Some v;
     conv_main := conv_main a; conv_mid := conv_mid a |}.
Definition set_conv_main (v : list Layer) (a : ConvEncoderAttrs) :=
  {| conv_obs_shape := conv_obs_shape a; conv_act := conv_act a;
     conv_hidden_size_list := conv_hidden_size_list a;
     conv_main := Some v; conv_mid := conv_mid a |}.
Definition set_conv_mid (v : Layer) (a : ConvEncoderAttrs) :=
  {| conv_obs_shape := conv_obs_shape a; conv_act := conv_act a;
     conv_hidden_size_list := conv_hidden_size_list a;
     conv_main := conv_main a; conv_mid := Some v |}.

Definition conv_self (self : loc) : Py ConvEncoderAttrs :=
  o <- deref self ;;
  match o with
  | ObjConvEncoder a => ret a
  | _ => raise (TypeError "not a ConvEncoder")
  end.

(** [self.name = v] on a [ConvEncoder]. *)
Definition conv_setattr (self : loc) (f : ConvEncoderAttrs -> ConvEncoderAttrs) : Py unit :=
  a <- conv_self self ;;
  store self (ObjConvEncoder (f a)).

(** [self.name] on a [ConvEncoder]. *)
Definition conv_getattr {A} (self : loc) (name : string)
    (field : ConvEncoderAttrs -> option A) : Py A :=
  a <- conv_self self ;;
  getattr name (field a).

Definition empty_vac : VACAttrs :=
  {| vac_obs_shape := None; vac_action_shape := None; vac_share_encoder := None;
     vac_encoder := None; vac_actor_encoder := None; vac_critic_encoder := None;
     vac_critic_head := None; vac_continuous := None; vac_multi_head := None;
     vac_actor_head := None; vac_actor := None; vac_critic := None |}.

Definition set_vac_obs_shape (v : Shape) (a : VACAttrs) :=
  {| vac_obs_shape := Some v; vac_action_shape := vac_action_shape a;
     vac_share_encoder := vac_share_encoder a; vac_encoder := vac_encoder a;
     vac_actor_encoder := vac_actor_encoder a; vac_critic_encoder := vac_critic_encoder a;
     vac_critic_head := vac_critic_head a; vac_continuous := vac_continuous a;
     vac_multi_head := vac_multi_head a; vac_actor_head := vac_actor_head a;
     vac_actor := vac_actor a; vac_critic := vac_critic a |}.
Definition set_vac_action_shape (v : Shape) (a : VACAttrs) :=
  {| vac_obs_shape := vac_obs_shape a; vac_action_shape := Some v;
     vac_share_encoder := vac_share_encoder a; vac_encoder := vac_encoder a;
     vac_actor_encoder := vac_actor_encoder a; vac_critic_encoder := vac_critic_encoder a;
     vac_critic_head := vac_critic_head a; vac_continuous := vac_continuous a;
     vac_multi_head := vac_multi_head a; vac_actor_head := vac_actor_head a;
     vac_actor := vac_actor a; vac_critic := vac_critic a |}.
Definition set_vac_share_encoder (v : bool) (a : VACAttrs) :=
  {| vac_obs_shape := vac_obs_shape a; vac_action_shape := vac_action_shape a;
     vac_share_encoder := Some v; vac_encoder := vac_encoder a;
     vac_actor_encoder := vac_actor_encoder a; vac_critic_encoder := vac_critic_encoder a;
     vac_critic_head := vac_critic_head a; vac_continuous := vac_continuous a;
     vac_multi_head := vac_multi_head a; vac_actor_head := vac_actor_head a;
     vac_actor := vac_actor a; vac_critic := vac_critic a |}.
Definition set_vac_encoder (v : loc) (a : VACAttrs) :=
  {| vac_obs_shape := vac_obs_shape a; vac_action_shape := vac_action_shape a;
     vac_share_encoder := vac_share_encoder a; vac_encoder := Some v;
     vac_actor_encoder := vac_actor_encoder a; vac_critic_encoder := vac_critic_encoder a;
     vac_critic_head := vac_critic_head a; vac_continuous := vac_continuous a;
     vac_multi_head := vac_multi_head a; vac_actor_head := vac_actor_head a;
     vac_actor := vac_actor a; vac_critic := vac_critic a |}.
Definition set_vac_actor_encoder (v : loc) (a : VACAttrs) :=
  {| vac_obs_shape := vac_obs_shape a; vac_action_shape := vac_action_shape a;
     vac_share_encoder := vac_share_encoder a; vac_encoder := vac_encoder a;
     vac_actor_encoder := Some v; vac_critic_encoder := vac_critic_encoder a;
     vac_critic_head := vac_critic_head a; vac_continuous := vac_continuous a;
     vac_multi_head := vac_multi_head a; vac_actor_head := vac_actor_head a;
     vac_actor := vac_actor a; vac_critic := vac_critic a |}.
Definition set_vac_critic_encoder (v : loc) (a : VACAttrs) :=
  {| vac_obs_shape := vac_obs_shape a; vac_action_shape := vac_action_shape a;
     vac_share_encoder := vac_share_encoder a; vac_encoder := vac_encoder a;
     vac_actor_encoder := vac_actor_encoder a; vac_critic_encoder := Some v;
     vac_critic_head := vac_critic_head a; vac_continuous := vac_continuous a;
     vac_multi_head := vac_multi_head a; vac_actor_head := vac_actor_head a;
     vac_actor := vac_actor a; vac_critic := vac_critic a |}.
Definition set_vac_critic_head (v : loc) (a : VACAttrs) :=
  {| vac_obs_shape := vac_obs_shape a; vac_action_shape := vac_action_shape a;
     vac_share_encoder := vac_share_encoder a; vac_encoder := vac_encoder a;
     vac_actor_encoder := vac_actor_encoder a; vac_critic_encoder := vac_critic_encoder a;
     vac_critic_head := Some v; vac_continuous := vac_continuous a;
     vac_multi_head := vac_multi_head a; vac_actor_head := vac_actor_head a;
     vac_actor := vac_actor a; vac_critic := vac_critic a |}.
Definition set_vac_continuous (v : bool) (a : VACAttrs) :=
  {| vac_obs_shape := vac_obs_shape a; vac_action_shape := vac_action_shape a;
     vac_share_encoder := vac_share_encoder a; vac_encoder := vac_encoder a;
     vac_actor_encoder := vac_actor_encoder a; vac_critic_encoder := vac_critic_encoder a;
     vac_critic_head := vac_critic_head a; vac_continuous := Some v;
     vac_multi_head := vac_multi_head a; vac_actor_head := vac_actor_head a;
     vac_actor := vac_actor a; vac_critic := vac_critic a |}.
Definition set_vac_multi_head (v : bool) (a : VACAttrs) :=
  {| vac_obs_shape := vac_obs_shape a; vac_action_shape := vac_action_shape a;
     vac_share_encoder := vac_share_encoder a; vac_encoder := vac_encoder a;
     vac_actor_encoder := vac_actor_encoder a; vac_critic_encoder := vac_critic_encoder a;
     vac_critic_head := vac_critic_head a; vac_continuous := vac_continuous a;
     vac_multi_head := Some v; vac_actor_head := vac_actor_head a;
     vac_actor := vac_actor a; vac_critic := vac_critic a |}.
Definition set_vac_actor_head (v : loc) (a : VACAttrs) :=
  {| vac_obs_shape := vac_obs_shape a; vac_action_shape := vac_action_shape a;
     vac_share_encoder := vac_share_encoder a; vac_encoder := vac_encoder a;
     vac_actor_encoder := vac_actor_encoder a; vac_critic_encoder := vac_critic_encoder a;
     vac_critic_head := vac_critic_head a; vac_continuous := vac_continuous a;
     vac_multi_head := vac_multi_head a; vac_actor_head := Some v;
     vac_actor := vac_actor a; vac_critic := vac_critic a |}.
Definition set_vac_actor (v : ModuleSeq) (a : VACAttrs) :=
  {| vac_obs_shape := vac_obs_shape a; vac_action_shape := vac_action_shape a;
     vac_share_encoder := vac_share_encoder a; vac_encoder := vac_encoder a;
     vac_actor_encoder := vac_actor_encoder a; vac_critic_encoder := vac_critic_encoder a;
     vac_critic_head := vac_critic_head a; vac_continuous := vac_continuous a;
     vac_multi_head := vac_multi_head a; vac_actor_head := vac_actor_head a;
     vac_actor := Some v; vac_critic := vac_critic a |}.
Definition set_vac_critic (v : ModuleSeq) (a : VACAttrs) :=
  {| vac_obs_shape := vac_obs_shape a; vac_action_shape := vac_action_shape a;
     vac_share_encoder := vac_share_encoder a; vac_encoder := vac_encoder a;
     vac_actor_encoder := vac_actor_encoder a; vac_critic_encoder := vac_critic_encoder a;
     vac_critic_head := vac_critic_head a; vac_continuous := vac_continuous a;
     vac_multi_head := vac_multi_head a; vac_actor_head := vac_actor_head a;
     vac_actor := vac_actor a; vac_critic := Some v |}.

Definition vac_self (self : loc) : Py VACAttrs :=
  o <- deref self ;;
  match o with
  | ObjVAC a => ret a
  | _ => raise (TypeError "not a VAC")
  end.

(** [self.name = v] on a [VAC]. *)
Definition vac_setattr (self : loc) (f : VACAttrs -> VACAttrs) : Py unit :=
  a <- vac_self self ;;
  store self (ObjVAC (f a)).

(** [self.name] on a [VAC]. *)
Definition vac_getattr {A} (self : loc) (name : string)
    (field : VACAttrs -> option A) : Py A :=
  a <- vac_self self ;;
  getattr name (field a).
End Objects.

(** The operations of torch and of ding the module relies on.  Constructors
    draw their initial parameters from the random generator and may raise.
    [nn_forward] and [ding_forward] give what a forward pass returns from the
    module, its parameters and the input; the buffers a module of ding may
    hold besides, and what a pass writes into them, are the matter of
    [Buffered] further down. *)
Class Framework `{Carrier} := {
  torch_randn : list Z -> Rng -> Result Tensor * Rng;
  tensor_shape : Tensor -> list Z;
  tensor_float : Tensor -> Tensor;
  nn_init : LayerSpec -> Rng -> Result Params * Rng;
  nn_forward : Layer -> Tensor -> Result Tensor;
  ding_squeeze : Shape -> Shape;
  ding_init : DingSpec -> Rng -> Result Params * Rng;
  ding_forward : DingSpec -> Params -> Value -> Result Value;
}.

(** ** Calls into torch *)

Section Torch.
Context `{Framework}.

(** [nn.Conv2d(...)], [nn.Linear(...)], [ResBlock(...)]: a new layer with
    freshly drawn parameters. *)
Definition nn_new (spec : LayerSpec) : Py Layer :=
  theta <- sample (nn_init spec) ;;
  ret (Learned spec theta).

(** An activation argument as an element of a layer list: [None] stays
    [None]. *)
Definition act_layer (activation : option Activation) : option Layer :=
  Act <$> activation.

(** An argument of [nn.Sequential] as an entry of the container. *)
Definition seq_entry (l : option Layer) : Layer := default NoModule l.

(** [nn.Sequential(layer, ...)]: every argument is a module or [None], and
    the constructor registers them all. *)
Definition nn_Sequential (layers : list (option Layer)) : Py (list Layer) :=
  ret (seq_entry <$> layers).

(** The forward pass of [nn.Sequential]: the entries are called in order;
    calling an entry that is [None] raises. *)
Fixpoint Sequential_forward (layers : list Layer) (x : Tensor) : Result Tensor :=
  match layers with
  | [] => Ok x
  | NoModule :: _ => Err (TypeError "'NoneType' object is not callable")
  | l :: rest =>
      match nn_forward l x with
      | Ok y => Sequential_forward rest y
      | Err e => Err e
      end
  end.

(** [x.float()] *)
Definition value_float (x : Value) : Result Tensor :=
  match x with
  | VTensor t => Ok (tensor_float t)
  | _ => Err (AttributeError "float")
  end.

End Torch.

(** ** class ConvEncoder *)

Module ConvEncoder.
Section Methods.
Context `{Framework}.

(** The default of [hidden_size_list]. *)
Definition default_hidden_size_list : list Z := [32; 64; 64; 128].

(** [ConvEncoder._get_flatten_size]: the width of what [self.main] returns on
    a random batch of one observation.  ([torch.no_grad] only switches
    gradient recording off.) *)
Definition _get_flatten_size (self : loc) : Py Z :=
  obs_shape <- conv_getattr self "obs_shape" conv_obs_shape ;;
  dims <- lift (shape_unpack obs_shape) ;;
  test_data <- sample (torch_randn (1 :: dims)) ;;
  print [PStr "test_data = "; PTensor test_data] ;;
  print [PStr "test data.shape = "; PSize (tensor_shape test_data)] ;;
  main <- conv_getattr self "main" conv_main ;;
  output <- lift (Sequential_forward main test_data) ;;
  lift (py_getitem (tensor_shape output) 1).

(** One round of the loop over the three convolutions; the loop carries
    [layers] and [input_size]. *)
Definition conv_round (self : loc) (hidden_size_list kernel_size stride : list Z)
    (i : Z) (st : list (option Layer) * Z) : Py (list (option Layer) * Z) :=
  let layers := st.1 in
  let input_size := st.2 in
  h <- lift (py_getitem hidden_size_list i) ;;
  k <- lift (py_getitem kernel_size i) ;;
  s <- lift (py_getitem stride i) ;;
  conv <- nn_new (Conv2d input_size h k s) ;;
  let layers := layers ++ [Some conv] in
  act <- conv_getattr self "act" conv_act ;;
  let layers := layers ++ [act_layer act] in
  h' <- lift (py_getitem hidden_size_list i) ;;
  ret (layers, h').

(** One round of the loop over the residual blocks. *)
Definition res_round (self : loc) (norm_type : option string)
    (i : Z) (layers : list (option Layer)) : Py (list (option Layer)) :=
  hsl <- conv_getattr self "hidden_size_list" conv_hidden_size_list ;;
  width <- lift (py_getitem hsl i) ;;
  act <- conv_getattr self "act" conv_act ;;
  block <- nn_new (ResBlock width act norm_type) ;;
  ret (layers ++ [Some block]).

(** [ConvEncoder.__init__] *)
Definition __init__ (self : loc) (obs_shape : Shape) (hidden_size_list : list Z)
    (activation : option Activation) (norm_type : option string) : Py unit :=
  conv_setattr self (set_conv_obs_shape obs_shape) ;;
  conv_setattr self (set_conv_act activation) ;;
  conv_setattr self (set_conv_hidden_size_list hidden_size_list) ;;
  conv_setattr self (set_conv_hidden_size_list [4; 4; 4]) ;;
  let layers := [] in
  let kernel_size := [1; 1; 1] in
  let stride := [1; 1; 1] in
  input_size <- lift (shape_getitem obs_shape 0) ;;
  st <- for_each (py_range 0 (py_len kernel_size)) (layers, input_size)
          (conv_round self hidden_size_list kernel_size stride) ;;
  let layers := st.1 in
  py_assert (py_len_set (py_slice hidden_size_list 3 (-1)) <=? 1)
    "Please indicate the same hidden size for res block parts" ;;
  hsl <- conv_getattr self "hidden_size_list" conv_hidden_size_list ;;
  layers <- for_each (py_range 3 (py_len hsl - 1)) layers (res_round self norm_type) ;;
  let layers := layers ++ [Some Flatten] in
  main <- nn_Sequential layers ;;
  conv_setattr self (set_conv_main main) ;;
  flatten_size <- _get_flatten_size self ;;
  out_features <- lift (py_getitem hidden_size_list (-1)) ;;
  mid <- nn_new (Linear flatten_size out_features) ;;
  conv_setattr self (set_conv_mid mid).

(** [ConvEncoder(obs_shape, hidden_size_list, activation=..., norm_type=...)]:
    a new object, then [__init__] on it. *)
Definition new (obs_shape : Shape) (hidden_size_list : list Z)
    (activation : option Activation) (norm_type : option string) : Py loc :=
  self <- alloc (ObjConvEncoder empty_conv) ;;
  __init__ self obs_shape hidden_size_list activation norm_type ;;
  ret self.

(** [ConvEncoder.forward] *)
Definition forward (self : loc) (x : Value) : Py Value :=
  x <- lift (value_float x) ;;
  main <- conv_getattr self "main" conv_main ;;
  x <- lift (Sequential_forward main x) ;;
  mid <- conv_getattr self "mid" conv_mid ;;
  x <- lift (nn_forward mid x) ;;
  ret (VTensor x).

End Methods.
End ConvEncoder.

(** ** class VAC *)

Module VAC.
Section Methods.
Context `{Framework}.

(** The class attribute [mode]. *)
Definition mode : list string :=
  ["compute_actor"; "compute_critic"; "compute_actor_critic"].

(** The two encoder classes [__init__] chooses from. *)
Inductive EncoderCls :=
| FCEncoderCls
| ConvEncoderCls.

(** A constructor call on a class of ding: parameters are drawn, the object
    is put on the heap. *)
Definition ding_new (spec : DingSpec) : Py loc :=
  theta <- sample (ding_init spec) ;;
  alloc (ObjDing spec theta).

(** [encoder_cls(obs_shape, encoder_hidden_size_list, activation=..., norm_type=...)] *)
Definition encoder_new (encoder_cls : EncoderCls) (obs_shape : Shape)
    (hidden_size_list : list Z) (activation : option Activation)
    (norm_type : option string) : Py loc :=
  match encoder_cls with
  | FCEncoderCls => ding_new (FCEncoder obs_shape hidden_size_list activation norm_type)
  | ConvEncoderCls => ConvEncoder.new obs_shape hidden_size_list activation norm_type
  end.

(** The [if]/[elif]/[else] on the squeezed observation shape. *)
Definition select_encoder_cls (obs_shape : Shape) : Py EncoderCls :=
  is_flat <- (if isinstance_int obs_shape then ret true
              else n <- lift (shape_len obs_shape) ;; ret (n =? 1)) ;;
  if is_flat : bool then ret FCEncoderCls
  else
    n <- lift (shape_len obs_shape) ;;
    if n =? 3 then ret ConvEncoderCls
    else
      msg <- lift (py_format
               "not support obs_shape for pre-defined encoder: {}, please customize your own DQN"
               [shape_str obs_shape]) ;;
      raise (RuntimeError msg).

(** [VAC.__init__] *)
Definition __init__ (self : loc) (obs_shape action_shape : Shape)
    (share_encoder continuous : bool) (encoder_hidden_size_list : list Z)
    (actor_head_hidden_size actor_head_layer_num : Z)
    (critic_head_hidden_size critic_head_layer_num : Z)
    (activation : option Activation) (norm_type : option string) : Py unit :=
  let obs_shape := ding_squeeze obs_shape in
  let action_shape := ding_squeeze action_shape in
  vac_setattr self (set_vac_obs_shape obs_shape) ;;
  vac_setattr self (set_vac_action_shape action_shape) ;;
  encoder_cls <- select_encoder_cls obs_shape ;;
  vac_setattr self (set_vac_share_encoder share_encoder) ;;
  shared <- vac_getattr self "share_encoder" vac_share_encoder ;;
  (if shared : bool then
     e <- encoder_new encoder_cls obs_shape encoder_hidden_size_list activation norm_type ;;
     vac_setattr self (set_vac_encoder e)
   else
     e <- encoder_new encoder_cls obs_shape encoder_hidden_size_list activation norm_type ;;
     vac_setattr self (set_vac_actor_encoder e) ;;
     e <- encoder_new encoder_cls obs_shape encoder_hidden_size_list activation norm_type ;;
     vac_setattr self (set_vac_critic_encoder e)) ;;
  h <- ding_new (RegressionHead critic_head_hidden_size 1 critic_head_layer_num
                   activation norm_type) ;;
  vac_setattr self (set_vac_critic_head h) ;;
  vac_setattr self (set_vac_continuous continuous) ;;
  is_continuous <- vac_getattr self "continuous" vac_continuous ;;
  (if is_continuous : bool then
     vac_setattr self (set_vac_multi_head false) ;;
     h <- ding_new (ReparameterizationHead actor_head_hidden_size action_shape
                      actor_head_layer_num "independent" activation norm_type) ;;
     vac_setattr self (set_vac_actor_head h)
   else
     let actor_head_cls := DiscreteHeadCls in
     let multi_head := negb (isinstance_int action_shape) in
     vac_setattr self (set_vac_multi_head multi_head) ;;
     if multi_head then
       h <- ding_new (MultiHead actor_head_cls actor_head_hidden_size action_shape
                        actor_head_layer_num activation norm_type) ;;
       vac_setattr self (set_vac_actor_head h)
     else
       h <- ding_new (DiscreteHead actor_head_hidden_size action_shape
                        actor_head_layer_num activation norm_type) ;;
       vac_setattr self (set_vac_actor_head h)) ;;
  shared <- vac_getattr self "share_encoder" vac_share_encoder ;;
  (if shared : bool then
     e <- vac_getattr self "encoder" vac_encoder ;;
     h <- vac_getattr self "actor_head" vac_actor_head ;;
     vac_setattr self (set_vac_actor (PyList [e; h])) ;;
     e <- vac_getattr self "encoder" vac_encoder ;;
     h <- vac_getattr self "critic_head" vac_critic_head ;;
     vac_setattr self (set_vac_critic (PyList [e; h]))
   else
     e <- vac_getattr self "actor_encoder" vac_actor_encoder ;;
     h <- vac_getattr self "actor_head" vac_actor_head ;;
     vac_setattr self (set_vac_actor (PyList [e; h])) ;;
     e <- vac_getattr self "critic_encoder" vac_critic_encoder ;;
     h <- vac_getattr self "critic_head" vac_critic_head ;;
     vac_setattr self (set_vac_critic (PyList [e; h]))) ;;
  actor <- vac_getattr self "actor" vac_actor ;;
  vac_setattr self (set_vac_actor
    (ModuleList match actor with PyList ms | ModuleList ms => ms end)) ;;
  critic <- vac_getattr self "critic" vac_critic ;;
  vac_setattr self (set_vac_critic
    (ModuleList match critic with PyList ms | ModuleList ms => ms end)).

(** [VAC(obs_shape, action_shape, ...)]: a new object, then [__init__]. *)
Definition new (obs_shape action_shape : Shape)
    (share_encoder continuous : bool) (encoder_hidden_size_list : list Z)
    (actor_head_hidden_size actor_head_layer_num : Z)
    (critic_head_hidden_size critic_head_layer_num : Z)
    (activation : option Activation) (norm_type : option string) : Py loc :=
  self <- alloc (ObjVAC empty_vac) ;;
  __init__ self obs_shape action_shape share_encoder continuous
    encoder_hidden_size_list actor_head_hidden_size actor_head_layer_num
    critic_head_hidden_size critic_head_layer_num activation norm_type ;;
  ret self.

(** The defaults of the keyword arguments. *)
Definition default_encoder_hidden_size_list : list Z := [128; 128; 64].

Definition new_default (obs_shape action_shape : Shape) : Py loc :=
  new obs_shape action_shape true false default_encoder_hidden_size_list
    64 2 64 1 (Some ReLU) None.

(** [m(x)] on a module held in an attribute: the call is recorded and the
    module's [forward] runs. *)
Definition call (m : loc) (x : Value) : Py Value :=
  o <- deref m ;;
  log_call m x ;;
  match o with
  | ObjConvEncoder _ => ConvEncoder.forward m x
  | ObjDing spec theta => lift (ding_forward spec theta x)
  | ObjVAC _ => raise (TypeError "forward() missing 1 required positional argument: 'mode'")
  end.

(** [VAC.compute_actor] *)
Definition compute_actor (self : loc) (x : Value) : Py Value :=
  shared <- vac_getattr self "share_encoder" vac_share_encoder ;;
  x <- (if shared : bool then
          e <- vac_getattr self "encoder" vac_encoder ;;
          call e x
        else
          e <- vac_getattr self "actor_encoder" vac_actor_encoder ;;
          call e x) ;;
  h <- vac_getattr self "actor_head" vac_actor_head ;;
  x <- call h x ;;
  is_continuous <- vac_getattr self "continuous" vac_continuous ;;
  if is_continuous : bool then
    mu <- lift (value_getitem x "mu") ;;
    sigma <- lift (value_getitem x "sigma") ;;
    ret (VDict {[ "logit" := VList [mu; sigma] ]})
  else ret x.

(** [VAC.compute_critic] *)
Definition compute_critic (self : loc) (x : Value) : Py Value :=
  shared <- vac_getattr self "share_encoder" vac_share_encoder ;;
  x <- (if shared : bool then
          e <- vac_getattr self "encoder" vac_encoder ;;
          call e x
        else
          e <- vac_getattr self "critic_encoder" vac_critic_encoder ;;
          call e x) ;;
  h <- vac_getattr self "critic_head" vac_critic_head ;;
  x <- call h x ;;
  pred <- lift (value_getitem x "pred") ;;
  ret (VDict {[ "value" := pred ]}).

(** [VAC.compute_actor_critic] *)
Definition compute_actor_critic (self : loc) (x : Value) : Py Value :=
  shared <- vac_getattr self "share_encoder" vac_share_encoder ;;
  embeddings <- (if shared : bool then
                   e <- vac_getattr self "encoder" vac_encoder ;;
                   embedding <- call e x ;;
                   ret (embedding, embedding)
                 else
                   e <- vac_getattr self "actor_encoder" vac_actor_encoder ;;
                   actor_embedding <- call e x ;;
                   e <- vac_getattr self "critic_encoder" vac_critic_encoder ;;
                   critic_embedding <- call e x ;;
                   ret (actor_embedding, critic_embedding)) ;;
  let actor_embedding := embeddings.1 in
  let critic_embedding := embeddings.2 in
  h <- vac_getattr self "critic_head" vac_critic_head ;;
  value <- call h critic_embedding ;;
  h <- vac_getattr self "actor_head" vac_actor_head ;;
  actor_output <- call h actor_embedding ;;
  is_continuous <- vac_getattr self "continuous" vac_continuous ;;
  logit <- (if is_continuous : bool then
              mu <- lift (value_getitem actor_output "mu") ;;
              sigma <- lift (value_getitem actor_output "sigma") ;;
              ret (VList [mu; sigma])
            else lift (value_getitem actor_output "logit")) ;;
  pred <- lift (value_getitem value "pred") ;;
  ret (VDict (<[ "logit" := logit ]> {[ "value" := pred ]})).

(** [getattr(self, name)] for a name that passed the assertion of [forward]:
    the bound method of that name. *)
Definition getattr_method (name : string) : Py (loc -> Value -> Py Value) :=
  if decide (name = "compute_actor") then ret compute_actor
  else if decide (name = "compute_critic") then ret compute_critic
  else if decide (name = "compute_actor_critic") then ret compute_actor_critic
  else raise (AttributeError name).

(** [VAC.forward]: the message of the assertion is built only when the
    assertion fails. *)
Definition forward (self : loc) (inputs : Value) (mode_ : string) : Py Value :=
  (if bool_decide (mode_ ∈ mode) then ret tt
   else
     msg <- lift (py_format "not support forward mode: {}/{}"
                    [mode_; py_str_list_str mode]) ;;
     raise (AssertionError msg)) ;;
  method <- getattr_method mode_ ;;
  method self inputs.

End Methods.
End VAC.

(** ** A framework that computes shapes

    Tensors are their shapes, the parameters of a module are the number of
    the draw that initialised them, and the random generator counts its
    draws.  The torch part follows torch's shape rules for batched input;
    the ding part is not in the source tree and follows the specification. *)

Module ShapeModel.

#[export] Instance carrier : Carrier :=
  {| Tensor := list Z; Params := nat; Rng := nat |}.

Definition all_nonneg (dims : list Z) : bool := forallb (fun d => 0 <=? d) dims.

(** A size is passed to torch as a signed integer of 64 bits. *)
Definition int64_max : Z := 2 ^ 63 - 1.

Definition fits_int64 (dims : list Z) : bool :=
  forallb (fun d => (- 2 ^ 63 <=? d) && (d <=? int64_max)) dims.

(** The allocation of a tensor of sizes [dims]: a size that does not fit is
    refused when the arguments are read, a negative one by the allocation. *)
Definition alloc_check (dims : list Z) : Result unit :=
  if negb (fits_int64 dims) then Err (TypeError "Overflow when unpacking long")
  else if all_nonneg dims then Ok tt
  else Err (RuntimeError "Trying to create tensor with negative dimension").

Definition randn (dims : list Z) (g : nat) : Result (list Z) * nat :=
  match alloc_check dims with
  | Ok _ => (Ok dims, S g)
  | Err e => (Err e, g)
  end.

Definition draw_params (dims : list Z) (g : nat) : Result nat * nat :=
  match alloc_check dims with
  | Ok _ => (Ok g, S g)
  | Err e => (Err e, g)
  end.

Definition layer_init (spec : LayerSpec) : nat -> Result nat * nat :=
  match spec with
  | Conv2d cin cout k s => draw_params [cout; cin; k; k]
  | ResBlock c _ _ => draw_params [c; c; 3; 3]
  | Linear i o => draw_params [o; i]
  end.

(** The size of a convolution's output along one axis, without padding. *)
Definition conv_out (size k s : Z) : Z := (size - k) / s + 1.

(** [t.shape[:-1] + (o,)] when the last size of [t] is [i]. *)
Definition map_last (i o : Z) (t : list Z) : Result (list Z) :=
  match last t with
  | Some d =>
      if d =? i then Ok (removelast t ++ [o])
      else Err (RuntimeError "mat1 and mat2 shapes cannot be multiplied")
  | None => Err (RuntimeError "mat1 and mat2 shapes cannot be multiplied")
  end.

Definition product (dims : list Z) : Z := foldr Z.mul 1 dims.

Definition layer_forward (l : Layer) (x : list Z) : Result (list Z) :=
  match l with
  | Learned (Conv2d cin cout k s) _ =>
      match x with
      | [n; c; h; w] =>
          if (1 <=? cin) && (1 <=? cout) && (c =? cin)
             && (1 <=? k) && (1 <=? s) && (k <=? h) && (k <=? w)
          then Ok [n; cout; conv_out h k s; conv_out w k s]
          else Err (RuntimeError "conv2d: bad input for this weight")
      | _ => Err (RuntimeError "conv2d: expected a batched 4D input")
      end
  | Learned (ResBlock c _ _) _ =>
      match x with
      | [n; c'; h; w] =>
          if c' =? c then Ok x
          else Err (RuntimeError "conv2d: bad input for this weight")
      | _ => Err (RuntimeError "conv2d: expected a batched 4D input")
      end
  | Learned (Linear i o) _ => map_last i o x
  | Flatten =>
      match x with
      | n :: d :: rest => Ok [n; product (d :: rest)]
      | _ => Err IndexError
      end
  | Act _ => Ok x
  | NoModule => Err (TypeError "'NoneType' object is not callable")
  end.

(** Modelled from the spec: [ding.utils.squeeze] is not under src/ and the
    spec only speaks of the squeezed shape.  A sequence of one size stands for
    that size (the source annotates the result as [int] and tests it with
    [isinstance(obs_shape, int)]), another sequence becomes a tuple, an
    integer is kept. *)
Definition squeeze (s : Shape) : Shape :=
  match s with
  | SInt n => SInt n
  | STuple [d] | SList [d] => SInt d
  | STuple dims | SList dims => STuple dims
  end.

(** Modelled from the spec: the constructors of [FCEncoder] and of the heads
    of [ding.model.common] are not under src/.  They allocate weights of the
    configured widths; an action space is an integer for one head and a
    sequence for a multi-head. *)
Definition module_init (spec : DingSpec) : nat -> Result nat * nat :=
  match spec with
  | FCEncoder (SInt n) hs _ _ =>
      match hs with
      | [] => fun g => (Err IndexError, g)
      | _ => draw_params (n :: hs)
      end
  | FCEncoder _ _ _ _ => fun g => (Err (TypeError "size must be an int"), g)
  | RegressionHead hidden out _ _ _ => draw_params [hidden; out]
  | ReparameterizationHead hidden (SInt n) _ _ _ _ => draw_params [hidden; n]
  | ReparameterizationHead _ _ _ _ _ _ => fun g => (Err (TypeError "size must be an int"), g)
  | DiscreteHead hidden (SInt n) _ _ _ => draw_params [hidden; n]
  | DiscreteHead _ _ _ _ _ => fun g => (Err (TypeError "size must be an int"), g)
  | MultiHead _ hidden (STuple dims) _ _ _
  | MultiHead _ hidden (SList dims) _ _ _ => draw_params (hidden :: dims)
  | MultiHead _ _ (SInt _) _ _ _ => fun g => (Err (TypeError "'int' object is not iterable"), g)
  end.

Definition tensor_arg (x : Value) : Result (list Z) :=
  match x with
  | VTensor t => Ok t
  | _ => Err (TypeError "expected a tensor")
  end.

Definition rbind {A B} (r : Result A) (k : A -> Result B) : Result B :=
  match r with
  | Ok a => k a
  | Err e => Err e
  end.

Fixpoint rmap {A B} (f : A -> Result B) (l : list A) : Result (list B) :=
  match l with
  | [] => Ok []
  | a :: rest => rbind (f a) (fun b => rbind (rmap f rest) (fun bs => Ok (b :: bs)))
  end.

(** Modelled from the spec: the forward passes of [FCEncoder] and of the
    heads of [ding.model.common] are not under src/.  The encoder maps an
    observation to an embedding of the last configured hidden size; a
    discrete head returns logits whose last size is the action-space size
    under the key [logit], a multi-head one such tensor per action
    sub-dimension; the reparameterization head returns a mean and a standard
    deviation of that size under [mu] and [sigma]; the regression head with a
    single output returns one scalar per batch element under [pred]. *)
Definition module_forward (spec : DingSpec) (theta : nat) (x : Value) : Result Value :=
  rbind (tensor_arg x) (fun t =>
    match spec return Result Value with
    | FCEncoder (SInt n) hs _ _ =>
        match last hs with
        | Some out => rbind (map_last n out t) (fun y => Ok (VTensor y))
        | None => Err IndexError
        end
    | FCEncoder _ _ _ _ => Err (TypeError "size must be an int")
    | RegressionHead hidden out _ _ _ =>
        rbind (map_last hidden out t) (fun y =>
          let pred := if (out =? 1) && (1 <? py_len y) then removelast y else y in
          Ok (VDict {[ "pred" := VTensor pred ]}))
    | ReparameterizationHead hidden (SInt n) _ _ _ _ =>
        rbind (map_last hidden n t) (fun y =>
          Ok (VDict (<[ "mu" := VTensor y ]> {[ "sigma" := VTensor y ]})))
    | ReparameterizationHead _ _ _ _ _ _ => Err (TypeError "size must be an int")
    | DiscreteHead hidden (SInt n) _ _ _ =>
        rbind (map_last hidden n t) (fun y => Ok (VDict {[ "logit" := VTensor y ]}))
    | DiscreteHead _ _ _ _ _ => Err (TypeError "size must be an int")
    | MultiHead _ hidden (STuple dims) _ _ _
    | MultiHead _ hidden (SList dims) _ _ _ =>
        rbind (rmap (fun d => map_last hidden d t) dims) (fun ys =>
          Ok (VDict {[ "logit" := VList (map VTensor ys) ]}))
    | MultiHead _ _ (SInt _) _ _ _ => Err (TypeError "'int' object is not iterable")
    end).

#[export] Instance framework : Framework :=
  {| torch_randn := randn;
     tensor_shape := fun t => t;
     tensor_float := fun t => t;
     nn_init := layer_init;
     nn_forward := layer_forward;
     ding_squeeze := squeeze;
     ding_init := module_init;
     ding_forward := module_forward |}.

(** The world before anything is built. *)
Definition world0 : World :=
  {| rng := 0%nat; heap := []; stdout := []; calls := [] |}.

End ShapeModel.

(** ** Views used in the statements *)

Section Views.
Context `{Framework}.

(** What [ConvEncoder.forward] returns, as a function of the attributes. *)
Definition conv_forward_result (a : ConvEncoderAttrs) (x : Value) : Result Value :=
  match value_float x with
  | Err e => Err e
  | Ok t =>
      match conv_main a with
      | None => Err (AttributeError "main")
      | Some main =>
          match Sequential_forward main t with
          | Err e => Err e
          | Ok y =>
              match conv_mid a with
              | None => Err (AttributeError "mid")
              | Some mid =>
                  match nn_forward mid y with
                  | Err e => Err e
                  | Ok z => Ok (VTensor z)
                  end
              end
          end
      end
  end.

(** What a call on a heap object returns, as a function of the object. *)
Definition object_forward (o : Object) (x : Value) : Result Value :=
  match o with
  | ObjConvEncoder a => conv_forward_result a x
  | ObjDing spec theta => ding_forward spec theta x
  | ObjVAC _ => Err (TypeError "forward() missing 1 required positional argument: 'mode'")
  end.

(** A computation that reads the heap and records calls, and does nothing
    else: its result depends on the heap alone, and all it changes in the
    world is the record of calls, by appending to it. *)
Definition readonly {A} (m : Py A) : Prop :=
  forall w, exists r tr, forall w2,
    heap w2 = heap w -> m w2 = (r, set_calls (calls w2 ++ tr) w2).

(** The layers of a stack that are residual blocks. *)
Definition is_res_block (l : Layer) : bool :=
  match l with
  | Learned (ResBlock _ _ _) _ => true
  | _ => false
  end.

Definition res_blocks (layers : list Layer) : list Layer := filter is_res_block layers.

(** The stack [ConvEncoder.__init__] builds for an input of [c] channels and
    hidden sizes [h0], [h1], [h2]. *)
Definition conv_stack (c h0 h1 h2 : Z) (act : Activation) (t0 t1 t2 : Params) : list Layer :=
  [ Learned (Conv2d c h0 1 1) t0; Act act;
    Learned (Conv2d h0 h1 1 1) t1; Act act;
    Learned (Conv2d h1 h2 1 1) t2; Act act;
    Flatten ].

(** [fs] is the width of what [main] returns on a random batch of one
    observation of shape [obs_shape], drawn in generator state [g]. *)
Definition dummy_pass_width (obs_shape : Shape) (main : list Layer) (g : Rng) (fs : Z) : Prop :=
  exists dims test_data g' output,
    shape_unpack obs_shape = Ok dims /\
    torch_randn (1 :: dims) g = (Ok test_data, g') /\
    Sequential_forward main test_data = Ok output /\
    py_getitem (tensor_shape output) 1 = Ok fs.

(** The attributes of a [ConvEncoder] whose construction has returned. *)
Definition conv_encoder_built (obs_shape : Shape) (hidden_size_list : list Z)
    (activation : option Activation) (a : ConvEncoderAttrs) : Prop :=
  exists c h0 h1 h2 hl act t0 t1 t2 t3 g fs,
    shape_getitem obs_shape 0 = Ok c /\
    py_getitem hidden_size_list 0 = Ok h0 /\
    py_getitem hidden_size_list 1 = Ok h1 /\
    py_getitem hidden_size_list 2 = Ok h2 /\
    py_getitem hidden_size_list (-1) = Ok hl /\
    activation = Some act /\
    py_len_set (py_slice hidden_size_list 3 (-1)) <= 1 /\
    dummy_pass_width obs_shape (conv_stack c h0 h1 h2 act t0 t1 t2) g fs /\
    a = {| conv_obs_shape := Some obs_shape;
           conv_act := Some (Some act);
           conv_hidden_size_list := Some [4; 4; 4];
           conv_main := Some (conv_stack c h0 h1 h2 act t0 t1 t2);
           conv_mid := Some (Learned (Linear fs hl) t3) |}.

(** The object a reference points to is a [ConvEncoder] whose attribute
    [hidden_size_list] is the list [[4, 4, 4]]. *)
Definition hidden_size_list_overridden (self : loc) (w : World) : Prop :=
  exists a, heap w !! self = Some (ObjConvEncoder a) /\
    conv_hidden_size_list a = Some [4; 4; 4].

(** A computation that keeps a property of the world, however it ends. *)
Definition keeps (P : World -> Prop) {A} (m : Py A) : Prop :=
  forall w r w', P w -> m w = (r, w') -> P w'.

(** The branch [VAC.__init__] takes on a squeezed observation shape. *)
Definition encoder_cls_of (obs_shape : Shape) : option VAC.EncoderCls :=
  match obs_shape with
  | SInt _ => Some VAC.FCEncoderCls
  | STuple dims | SList dims =>
      if py_len dims =? 1 then Some VAC.FCEncoderCls
      else if py_len dims =? 3 then Some VAC.ConvEncoderCls
      else None
  end.

(** An object is an encoder of the given class, built from the given
    arguments. *)
Definition encoder_built (cls : VAC.EncoderCls) (obs_shape : Shape)
    (hidden_size_list : list Z) (activation : option Activation)
    (norm_type : option string) (o : Object) : Prop :=
  match cls with
  | VAC.FCEncoderCls =>
      exists theta g g',
        ding_init (FCEncoder obs_shape hidden_size_list activation norm_type) g
          = (Ok theta, g') /\
        o = ObjDing (FCEncoder obs_shape hidden_size_list activation norm_type) theta
  | VAC.ConvEncoderCls =>
      exists a, o = ObjConvEncoder a /\
        conv_encoder_built obs_shape hidden_size_list activation a
  end.

(** The actor head [VAC.__init__] builds. *)
Definition actor_head_spec (continuous : bool) (action_shape : Shape)
    (hidden_size layer_num : Z) (activation : option Activation)
    (norm_type : option string) : DingSpec :=
  if continuous then
    ReparameterizationHead hidden_size action_shape layer_num "independent"
      activation norm_type
  else if isinstance_int action_shape then
    DiscreteHead hidden_size action_shape layer_num activation norm_type
  else
    MultiHead DiscreteHeadCls hidden_size action_shape layer_num activation norm_type.

(** The attributes of a [VAC] at reference [self] whose construction has
    returned: the encoders follow it in the heap, then the critic head, then
    the actor head. *)
Definition vac_attrs_built (self : loc) (obs_shape action_shape : Shape)
    (share_encoder continuous : bool) : VACAttrs :=
  let n_enc := if share_encoder then 1%nat else 2%nat in
  let critic_head := (self + (n_enc + 1))%nat in
  let actor_head := (self + (n_enc + 2))%nat in
  {| vac_obs_shape := Some obs_shape;
     vac_action_shape := Some action_shape;
     vac_share_encoder := Some share_encoder;
     vac_encoder := if share_encoder then Some (self + 1)%nat else None;
     vac_actor_encoder := if share_encoder then None else Some (self + 1)%nat;
     vac_critic_encoder := if share_encoder then None else Some (self + 2)%nat;
     vac_critic_head := Some critic_head;
     vac_continuous := Some continuous;
     vac_multi_head :=
       Some (if continuous then false else negb (isinstance_int action_shape));
     vac_actor_head := Some actor_head;
     vac_actor := Some (ModuleList [(self + 1)%nat; actor_head]);
     vac_critic := Some (ModuleList [(self + n_enc)%nat; critic_head]) |}.

(** The world after [VAC(...)] has returned in world [w]: the new object,
    its encoders (one if shared, else the actor's then the critic's), the
    critic head and the actor head, in the order of their creation. *)
Definition vac_built (obs_shape action_shape : Shape) (share_encoder continuous : bool)
    (encoder_hidden_size_list : list Z)
    (actor_head_hidden_size actor_head_layer_num : Z)
    (critic_head_hidden_size critic_head_layer_num : Z)
    (activation : option Activation) (norm_type : option string)
    (w w' : World) : Prop :=
  exists cls encoders theta_c theta_a gc gc' ga g out,
    encoder_cls_of obs_shape = Some cls /\
    ding_init (RegressionHead critic_head_hidden_size 1 critic_head_layer_num
                 activation norm_type) gc = (Ok theta_c, gc') /\
    ding_init (actor_head_spec continuous action_shape actor_head_hidden_size
                 actor_head_layer_num activation norm_type) ga = (Ok theta_a, g) /\
    Forall (encoder_built cls obs_shape encoder_hidden_size_list activation norm_type)
      encoders /\
    length encoders = (if share_encoder then 1%nat else 2%nat) /\
    w' = {| rng := g;
            heap := heap w ++
              ObjVAC (vac_attrs_built (length (heap w)) obs_shape action_shape
                        share_encoder continuous)
              :: encoders ++
              [ ObjDing (RegressionHead critic_head_hidden_size 1 critic_head_layer_num
                           activation norm_type) theta_c;
                ObjDing (actor_head_spec continuous action_shape actor_head_hidden_size
                           actor_head_layer_num activation norm_type) theta_a ];
            stdout := stdout w ++ out;
            calls := calls w |}.

End Views.

(** ** Views of shapes *)

Section ShapeViews.
Import ShapeModel.

(** The sizes of one observation. *)
Definition obs_dims (obs_shape : Shape) : list Z :=
  match obs_shape with
  | SInt n => [n]
  | STuple dims | SList dims => dims
  end.

(** A batch of [B] observations. *)
Definition batch (B : Z) (obs_shape : Shape) : Value :=
  VTensor (B :: obs_dims obs_shape).

(** A tensor whose last size is [n]. *)
Definition last_dim (v : Value) (n : Z) : Prop :=
  exists t, v = VTensor t /\ last t = Some n.

(** The action parameters have the width of the action space: a mean and a
    standard deviation for a continuous model, one tensor of logits for an
    integer action space, one per sub-dimension for a sequence. *)
Definition action_params_width (action_shape : Shape) (continuous : bool)
    (logit : Value) : Prop :=
  if continuous then
    exists n mu sigma,
      action_shape = SInt n /\ logit = VList [mu; sigma] /\
      last_dim mu n /\ last_dim sigma n
  else
    match action_shape with
    | SInt n => last_dim logit n
    | STuple dims | SList dims =>
        exists vs, logit = VList vs /\ Forall2 last_dim vs dims
    end.

End ShapeViews.

(** ** Two concrete models *)

Section Examples.
Import ShapeModel.

(** [VAC(64, 64)], as in the docstrings. *)
Definition flat_model : Result loc * World :=
  VAC.new_default (SInt 64) (SInt 64) world0.

(** A model on images of three channels with two action sub-dimensions and
    separate encoders. *)
Definition image_model : Result loc * World :=
  VAC.new (STuple [3; 4; 4]) (STuple [6; 6]) false false [16; 16; 16; 64]
    64 2 64 1 (Some ReLU) None world0.

(** A convolutional encoder with two hidden sizes between the third and the
    last. *)
Definition deep_encoder : Result loc * World :=
  ConvEncoder.new (STuple [3; 5; 5]) [32; 64; 64; 128; 128; 256] (Some ReLU) None world0.

(** The batch and the result of the end-to-end scenario, and the attributes
    of [VAC(64, 64)]. *)
Definition flat_input : Value := VTensor [4; 64].

Definition flat_output : Value :=
  VDict (<[ "logit" := VTensor [4; 64] ]> {[ "value" := VTensor [4] ]}).

Definition flat_attrs : VACAttrs :=
  vac_attrs_built 0%nat (SInt 64) (SInt 64) true false.

End Examples.

(** ** The constructor of ConvEncoder, step by step *)

Section ConstructorOutcome.
Context `{Framework}.

(** The attributes after the four assignments that open [__init__]. *)
Definition conv_attrs_head (obs_shape : Shape) (activation : option Activation)
    : ConvEncoderAttrs :=
  {| conv_obs_shape := Some obs_shape;
     conv_act := Some activation;
     conv_hidden_size_list := Some [4; 4; 4];
     conv_main := None;
     conv_mid := None |}.

(** The world [w] with the generator in state [g], the object under
    construction with attributes [a] at the end of the heap, and standard
    output [out]. *)
Definition conv_world (w : World) (g : Rng) (a : ConvEncoderAttrs)
    (out : list (list PrintArg)) : World :=
  {| rng := g; heap := heap w ++ [ObjConvEncoder a]; stdout := out; calls := calls w |}.

(** The two lines [_get_flatten_size] prints. *)
Definition flatten_size_prints (test_data : Tensor) : list (list PrintArg) :=
  [ [PStr "test_data = "; PTensor test_data];
    [PStr "test data.shape = "; PSize (tensor_shape test_data)] ].

(** The entries of [main] for an activation argument, which may be [None]. *)
Definition conv_entries (c h0 h1 h2 : Z) (activation : option Activation)
    (t0 t1 t2 : Params) : list Layer :=
  [ Learned (Conv2d c h0 1 1) t0; seq_entry (act_layer activation);
    Learned (Conv2d h0 h1 1 1) t1; seq_entry (act_layer activation);
    Learned (Conv2d h1 h2 1 1) t2; seq_entry (act_layer activation);
    Flatten ].

(** What [ConvEncoder(obs_shape, hidden_size_list, activation, norm_type)]
    does in world [w], as the outcomes of its steps in the order the
    constructor takes them: the first step that fails gives the exception and
    the world reached. *)
Definition conv_new_outcome (obs_shape : Shape) (hidden_size_list : list Z)
    (activation : option Activation) (w : World) : Result loc * World :=
  let head := conv_attrs_head obs_shape activation in
  match shape_getitem obs_shape 0 with
  | Err e => (Err e, conv_world w (rng w) head (stdout w))
  | Ok c =>
  match py_getitem hidden_size_list 0 with
  | Err e => (Err e, conv_world w (rng w) head (stdout w))
  | Ok h0 =>
  match nn_init (Conv2d c h0 1 1) (rng w) with
  | (Err e, g1) => (Err e, conv_world w g1 head (stdout w))
  | (Ok t0, g1) =>
  match py_getitem hidden_size_list 1 with
  | Err e => (Err e, conv_world w g1 head (stdout w))
  | Ok h1 =>
  match nn_init (Conv2d h0 h1 1 1) g1 with
  | (Err e, g2) => (Err e, conv_world w g2 head (stdout w))
  | (Ok t1, g2) =>
  match py_getitem hidden_size_list 2 with
  | Err e => (Err e, conv_world w g2 head (stdout w))
  | Ok h2 =>
  match nn_init (Conv2d h1 h2 1 1) g2 with
  | (Err e, g3) => (Err e, conv_world w g3 head (stdout w))
  | (Ok t2, g3) =>
  if negb (py_len_set (py_slice hidden_size_list 3 (-1)) <=? 1) then
    (Err (AssertionError "Please indicate the same hidden size for res block parts"),
     conv_world w g3 head (stdout w))
  else
  let main := conv_entries c h0 h1 h2 activation t0 t1 t2 in
  let with_main := set_conv_main main head in
  match shape_unpack obs_shape with
  | Err e => (Err e, conv_world w g3 with_main (stdout w))
  | Ok dims =>
  match torch_randn (1 :: dims) g3 with
  | (Err e, g4) => (Err e, conv_world w g4 with_main (stdout w))
  | (Ok test_data, g4) =>
  let out := stdout w ++ flatten_size_prints test_data in
  match Sequential_forward main test_data with
  | Err e => (Err e, conv_world w g4 with_main out)
  | Ok output =>
  match py_getitem (tensor_shape output) 1 with
  | Err e => (Err e, conv_world w g4 with_main out)
  | Ok flatten_size =>
  match py_getitem hidden_size_list (-1) with
  | Err e => (Err e, conv_world w g4 with_main out)
  | Ok out_features =>
  match nn_init (Linear flatten_size out_features) g4 with
  | (Err e, g5) => (Err e, conv_world w g5 with_main out)
  | (Ok t3, g5) =>
      (Ok (length (heap w)),
       conv_world w g5
         (set_conv_mid (Learned (Linear flatten_size out_features) t3) with_main) out)
  end end end end end end end end end end end end end.

End ConstructorOutcome.

(** ** More concrete models *)

Section MoreExamples.
Import ShapeModel.

(** A batch of seven images for [image_model], the attributes of that model
    and what its joint mode returns on the batch. *)
Definition image_input : Value := VTensor [7; 3; 4; 4].

Definition image_attrs : VACAttrs :=
  vac_attrs_built 0%nat (STuple [3; 4; 4]) (STuple [6; 6]) false false.

Definition image_output : Value :=
  VDict (<[ "logit" := VList [VTensor [7; 6]; VTensor [7; 6]] ]>
           {[ "value" := VTensor [7] ]}).

(** A batch whose width is not the one [VAC(64, 64)] was built for. *)
Definition narrow_input : Value := VTensor [4; 32].

(** The encoder of [VAC(64, 64)]. *)
Definition flat_encoder : Object :=
  @ObjDing carrier (FCEncoder (SInt 64) [128; 128; 64] (Some ReLU) None) 0%nat.

(** A model with separate encoders on observations of width 64 and six
    actions, whose critic-side encoder and whose two heads are the given
    modules, as after assignments to [critic_encoder], [critic_head] and
    [actor_head]. *)
Definition patched_attrs : VACAttrs :=
  vac_attrs_built 0%nat (SInt 64) (SInt 6) false false.

Definition patched_model (critic_encoder critic_head actor_head : DingSpec) : World :=
  @Build_World carrier 4%nat
    [ ObjVAC patched_attrs;
      ObjDing (FCEncoder (SInt 64) [64] (Some ReLU) None) 0%nat;
      ObjDing critic_encoder 1%nat;
      ObjDing critic_head 2%nat;
      ObjDing actor_head 3%nat ]
    [] [].

Definition wide_encoder : DingSpec := FCEncoder (SInt 64) [64] (Some ReLU) None.

Definition narrow_encoder : DingSpec := FCEncoder (SInt 32) [64] (Some ReLU) None.

Definition value_head : DingSpec := RegressionHead 64 1 1 (Some ReLU) None.

Definition logit_head : DingSpec := DiscreteHead 64 (SInt 6) 2 (Some ReLU) None.

End MoreExamples.

(** ** Further views *)

Section MoreViews.
Context `{Framework}.

(** The encoders of the model at [self] are set as [share_encoder] says and
    are of class [cls], built from the given arguments: one object under
    [encoder], or two different objects under [actor_encoder] and
    [critic_encoder]; the attributes of the other case do not exist. *)
Definition model_encoders (cls : VAC.EncoderCls) (obs_shape : Shape)
    (hidden_size_list : list Z) (activation : option Activation)
    (norm_type : option string) (share_encoder : bool) (self : loc) (w : World) : Prop :=
  exists a,
    heap w !! self = Some (ObjVAC a) /\
    vac_share_encoder a = Some share_encoder /\
    if share_encoder then
      exists e o,
        vac_encoder a = Some e /\
        vac_actor_encoder a = None /\ vac_critic_encoder a = None /\
        heap w !! e = Some o /\
        encoder_built cls obs_shape hidden_size_list activation norm_type o
    else
      exists ea ec oa oc,
        vac_encoder a = None /\
        vac_actor_encoder a = Some ea /\ vac_critic_encoder a = Some ec /\
        ea ≠ ec /\
        heap w !! ea = Some oa /\ heap w !! ec = Some oc /\
        encoder_built cls obs_shape hidden_size_list activation norm_type oa /\
        encoder_built cls obs_shape hidden_size_list activation norm_type oc.

End MoreViews.

(** ** Modules with buffers

    Next to its learned parameters a module of torch may hold buffers, which
    a forward pass updates in place: a BatchNorm layer holds running
    statistics and a count of the batches it has seen.  A module of ding can
    hold such layers when it is built with [norm_type='BN'].  The layers
    the constructor of [ConvEncoder] builds (convolutions, the activation,
    the flatten, the linear layer) hold no buffer, and no module the
    constructors build draws from the random generator in a pass.

    [Buffered] adds to the framework the pass of a module of ding with its
    buffers at hand: what the pass returns and the buffers it leaves.  The
    three forward modes are read a second time over it, with the buffers of
    every module kept next to the heap. *)

Class Buffered `{Framework} := {
  Buffers : Type;
  ding_pass : DingSpec -> Params -> Buffers -> Value -> Result Value * Buffers;
}.

Section BufferedWorld.
Context `{Buffered}.

(** The interpreter's world and the buffers of every module. *)
Record BWorld := {
  base : World;
  buffers : loc -> Buffers;
}.

Definition PyB (A : Type) : Type := M BWorld A.

(** A computation that does not touch any buffer. *)
Definition lift_py {A} (m : Py A) : PyB A :=
  fun s => let '(r, w) := m (base s) in (r, {| base := w; buffers := buffers s |}).

(** The pass of the module of ding at reference [m]: it reads the buffers of
    [m] and writes them back, also when it raises. *)
Definition pass (m : loc) (spec : DingSpec) (theta : Params) (x : Value) : PyB Value :=
  fun s => let '(r, b) := ding_pass spec theta (buffers s m) x in
           (r, {| base := base s; buffers := <[m := b]> (buffers s) |}).

End BufferedWorld.

Module WithBuffers.
Section Methods.
Context `{Buffered}.

(** [m(x)] on a module held in an attribute. *)
Definition call (m : loc) (x : Value) : PyB Value :=
  o <- lift_py (deref m) ;;
  lift_py (log_call m x) ;;
  match o with
  | ObjConvEncoder _ => lift_py (ConvEncoder.forward m x)
  | ObjDing spec theta => pass m spec theta x
  | ObjVAC _ => raise (TypeError "forward() missing 1 required positional argument: 'mode'")
  end.

(** [self.name] on a [VAC]. *)
Definition getattr {A} (self : loc) (name : string) (field : VACAttrs -> option A) : PyB A :=
  lift_py (vac_getattr self name field).

(** [VAC.compute_actor] *)
Definition compute_actor (self : loc) (x : Value) : PyB Value :=
  shared <- getattr self "share_encoder" vac_share_encoder ;;
  x <- (if shared : bool then
          e <- getattr self "encoder" vac_encoder ;;
          call e x
        else
          e <- getattr self "actor_encoder" vac_actor_encoder ;;
          call e x) ;;
  h <- getattr self "actor_head" vac_actor_head ;;
  x <- call h x ;;
  is_continuous <- getattr self "continuous" vac_continuous ;;
  if is_continuous : bool then
    mu <- lift (value_getitem x "mu") ;;
    sigma <- lift (value_getitem x "sigma") ;;
    ret (VDict {[ "logit" := VList [mu; sigma] ]})
  else ret x.

(** [VAC.compute_critic] *)
Definition compute_critic (self : loc) (x : Value) : PyB Value :=
  shared <- getattr self "share_encoder" vac_share_encoder ;;
  x <- (if shared : bool then
          e <- getattr self "encoder" vac_encoder ;;
          call e x
        else
          e <- getattr self "critic_encoder" vac_critic_encoder ;;
          call e x) ;;
  h <- getattr self "critic_head" vac_critic_head ;;
  x <- call h x ;;
  pred <- lift (value_getitem x "pred") ;;
  ret (VDict {[ "value" := pred ]}).

(** [VAC.compute_actor_critic] *)
Definition compute_actor_critic (self : loc) (x : Value) : PyB Value :=
  shared <- getattr self "share_encoder" vac_share_encoder ;;
  embeddings <- (if shared : bool then
                   e <- getattr self "encoder" vac_encoder ;;
                   embedding <- call e x ;;
                   ret (embedding, embedding)
                 else
                   e <- getattr self "actor_encoder" vac_actor_encoder ;;
                   actor_embedding <- call e x ;;
                   e <- getattr self "critic_encoder" vac_critic_encoder ;;
                   critic_embedding <- call e x ;;
                   ret (actor_embedding, critic_embedding)) ;;
  let actor_embedding := embeddings.1 in
  let critic_embedding := embeddings.2 in
  h <- getattr self "critic_head" vac_critic_head ;;
  value <- call h critic_embedding ;;
  h <- getattr self "actor_head" vac_actor_head ;;
  actor_output <- call h actor_embedding ;;
  is_continuous <- getattr self "continuous" vac_continuous ;;
  logit <- (if is_continuous : bool then
              mu <- lift (value_getitem actor_output "mu") ;;
              sigma <- lift (value_getitem actor_output "sigma") ;;
              ret (VList [mu; sigma])
            else lift (value_getitem actor_output "logit")) ;;
  pred <- lift (value_getitem value "pred") ;;
  ret (VDict (<[ "logit" := logit ]> {[ "value" := pred ]})).

(** [getattr(self, name)] for a name that passed the assertion of
    [forward]. *)
Definition getattr_method (name : string) : PyB (loc -> Value -> PyB Value) :=
  if decide (name = "compute_actor") then ret compute_actor
  else if decide (name = "compute_critic") then ret compute_critic
  else if decide (name = "compute_actor_critic") then ret compute_actor_critic
  else raise (AttributeError name).

(** [VAC.forward] *)
Definition forward (self : loc) (inputs : Value) (mode_ : string) : PyB Value :=
  (if bool_decide (mode_ ∈ VAC.mode) then ret tt
   else
     msg <- lift (py_format "not support forward mode: {}/{}"
                    [mode_; py_str_list_str VAC.mode]) ;;
     raise (AssertionError msg)) ;;
  method <- getattr_method mode_ ;;
  method self inputs.

End Methods.
End WithBuffers.

(** ** Views of runs with buffers *)

Section BufferViews.
Context `{Buffered}.

(** With buffers [b'] the module answers as with [b]: a pass returns the
    same on every input. *)
Definition same_answers (spec : DingSpec) (theta : Params) (b b' : Buffers) : Prop :=
  forall x, (ding_pass spec theta b' x).1 = (ding_pass spec theta b x).1.

(** What a pass writes into the buffers does not change what the module
    returns afterwards.  (A BatchNorm layer in training mode normalises with
    the statistics of the batch at hand, and in evaluation mode it writes
    nothing.) *)
Definition passes_repeatable : Prop :=
  forall spec theta b x, same_answers spec theta b (ding_pass spec theta b x).2.

(** A run keeps the learned parameters and the configuration: the heap, the
    random generator and the output are as before, the run has only added
    calls to the record, and the buffers of a module that was not called are
    as before. *)
Definition keeps_parameters {A} (m : PyB A) : Prop :=
  forall s,
    heap (base (m s).2) = heap (base s) /\
    rng (base (m s).2) = rng (base s) /\
    stdout (base (m s).2) = stdout (base s) /\
    exists tr,
      calls (base (m s).2) = calls (base s) ++ tr /\
      forall l, l ∉ tr.*1 -> buffers (m s).2 l = buffers s l.

(** A second run, in the state the first run left, returns what the first
    returned. *)
Definition repeatable {A} (m : PyB A) : Prop :=
  forall s, (m (m s).2).1 = (m s).1.

(** Two states the modules answer alike in: the same heap, and for each
    module of ding on it buffers with the same answers. *)
Definition alike (s s2 : BWorld) : Prop :=
  heap (base s2) = heap (base s) /\
  forall m spec theta, heap (base s) !! m = Some (ObjDing spec theta) ->
    same_answers spec theta (buffers s m) (buffers s2 m).

(** A computation that returns the same in states that are alike, and leaves
    a state that is like the one it started from. *)
Definition steady {A} (m : PyB A) : Prop :=
  forall s, exists r, forall s2, alike s s2 -> (m s2).1 = r /\ alike s (m s2).2.

(** Whatever the buffers, a pass returns what [ding_forward] returns. *)
Definition answers_forward : Prop :=
  forall spec theta b x, (ding_pass spec theta b x).1 = ding_forward spec theta x.

(** A computation with buffers that does to the world and returns what a
    computation without does. *)
Definition tracks {A} (mb : PyB A) (m : Py A) : Prop :=
  forall s, (mb s).1 = (m (base s)).1 /\ base (mb s).2 = (m (base s)).2.

End BufferViews.

(** ** Batch counters in the shape model *)

Module ShapeBuffers.
Import ShapeModel.

(** The number of layers and the normalization kind a head was built
    with. *)
Definition head_config (spec : DingSpec) : option (Z * option string) :=
  match spec with
  | FCEncoder _ _ _ _ => None
  | RegressionHead _ _ layer_num _ norm
  | ReparameterizationHead _ _ layer_num _ _ norm
  | DiscreteHead _ _ layer_num _ norm
  | MultiHead _ _ _ layer_num _ norm => Some (layer_num, norm)
  end.

(** Modelled from the spec: the modules of [ding.model.common] are not
    under src/, and the spec only names a normalization kind among the
    options of the model.  With the kind ['BN'] and at least one layer a head
    holds BatchNorm layers; the fully-connected encoder is linear layers and
    activations. *)
Definition has_batch_norm (spec : DingSpec) : bool :=
  match head_config spec with
  | Some (layer_num, norm) => bool_decide (norm = Some "BN") && (1 <=? layer_num)
  | None => false
  end.

(** The pass of a module with its batch counter, the buffer
    [num_batches_tracked] of its BatchNorm layers in training mode, the mode
    a module is in after its construction: the pass returns what
    [module_forward] returns, and when it returns the batch has been
    counted.  An input the first linear layer refuses is not counted. *)
Definition module_pass (spec : DingSpec) (theta : nat) (b : N) (x : Value)
    : Result Value * N :=
  match module_forward spec theta x with
  | Ok v => (Ok v, if has_batch_norm spec then (b + 1)%N else b)
  | Err e => (Err e, b)
  end.

#[export] Instance buffered : Buffered :=
  {| Buffers := N; ding_pass := module_pass |}.

(** [VAC(64, 6, norm_type='BN')] with every batch counter at zero. *)
Definition bn_model : Result loc * World :=
  VAC.new (SInt 64) (SInt 6) true false [128; 128; 64] 64 2 64 1 (Some ReLU)
    (Some "BN") world0.

Definition bn_state : BWorld :=
  {| base := bn_model.2; buffers := fun _ => 0%N |}.

End ShapeBuffers.

(** * Properties *)

(** ** The monad *)

Section MonadFacts.
Context {S : Type}.

Lemma bind_run {A B} (m : M S A) (k : A -> M S B) (s : S) :
  bind m k s = match m s with
               | (Ok a, s') => k a s'
               | (Err e, s') => (Err e, s')
               end.
Proof. reflexivity. Qed.

Lemma bind_ok_inv {A B} (m : M S A) (k : A -> M S B) (s s' : S) (b : B) :
  bind m k s = (Ok b, s') ->
  exists a s1, m s = (Ok a, s1) /\ k a s1 = (Ok b, s').
Proof.
  unfold bind. destruct (m s) as [[a|e] s1]; intros Hk.
  - by exists a, s1.
  - discriminate.
Qed.

Lemma bind_ret {A B} (a : A) (k : A -> M S B) (s : S) :
  bind (ret a) k s = k a s.
Proof. reflexivity. Qed.

Lemma bind_lift {A B} (r : Result A) (k : A -> M S B) (s : S) :
  bind (lift r) k s = match r with
                      | Ok a => k a s
                      | Err e => (Err e, s)
                      end.
Proof. by destruct r. Qed.

Lemma bind_raise {A B} (e : Exception) (k : A -> M S B) (s : S) :
  bind (raise e) k s = (Err e, s).
Proof. reflexivity. Qed.

Lemma lift_ok_inv {A} (r : Result A) (a : A) (s s' : S) :
  lift r s = (Ok a, s') -> r = Ok a /\ s' = s.
Proof. unfold lift. by intros [= -> ->]. Qed.

Lemma ret_ok_inv {A} (a b : A) (s s' : S) :
  ret a s = (Ok b, s') -> b = a /\ s' = s.
Proof. unfold ret. by intros [= -> ->]. Qed.

Lemma bind_assoc {A B C} (m : M S A) (k : A -> M S B) (k' : B -> M S C) (s : S) :
  bind (bind m k) k' s = bind m (fun a => bind (k a) k') s.
Proof. unfold bind. by destruct (m s) as [[a|e] s1]. Qed.

End MonadFacts.

(** ** Computations that only read the heap *)

Section ReadOnly.
Context `{Framework}.

Lemma set_calls_nil (w : World) : set_calls (calls w ++ []) w = w.
Proof. destruct w. unfold set_calls. cbn. by rewrite app_nil_r. Qed.

Lemma readonly_ret {A} (a : A) : readonly (ret a).
Proof. intros w. exists (Ok a), []. intros w2 _. by rewrite set_calls_nil. Qed.

Lemma readonly_raise {A} (e : Exception) : readonly (raise (A:=A) e).
Proof. intros w. exists (Err e), []. intros w2 _. by rewrite set_calls_nil. Qed.

Lemma readonly_lift {A} (r : Result A) : readonly (lift r).
Proof. intros w. exists r, []. intros w2 _. by rewrite set_calls_nil. Qed.

Lemma readonly_bind {A B} (m : Py A) (k : A -> Py B) :
  readonly m -> (forall a, readonly (k a)) -> readonly (bind m k).
Proof.
  intros Hm Hk w. destruct (Hm w) as (r & tr & Hr). destruct r as [a|e].
  - destruct (Hk a w) as (r' & tr' & Hr'). exists r', (tr ++ tr').
    intros w2 Hw2. rewrite bind_run, (Hr w2 Hw2), Hr' by done.
    unfold set_calls. cbn. by rewrite app_assoc.
  - exists (Err e), tr. intros w2 Hw2. by rewrite bind_run, (Hr w2 Hw2).
Qed.

Lemma readonly_deref (l : loc) : readonly (deref l).
Proof.
  intros w. exists (match heap w !! l with
                    | Some o => Ok o
                    | None => Err (TypeError "not an object")
                    end), [].
  intros w2 Hw2. unfold deref. rewrite Hw2, set_calls_nil.
  by destruct (heap w !! l).
Qed.

Lemma readonly_log_call (m : loc) (x : Value) : readonly (log_call m x).
Proof. intros w. by exists (Ok tt), [(m, x)]. Qed.

Lemma readonly_getattr {A} (name : string) (field : option A) :
  readonly (getattr name field).
Proof. destruct field; [apply readonly_ret | apply readonly_raise]. Qed.

Lemma readonly_vac_getattr {A} (self : loc) (name : string) (f : VACAttrs -> option A) :
  readonly (vac_getattr self name f).
Proof.
  apply readonly_bind; [|intros a; apply readonly_getattr].
  apply readonly_bind; [apply readonly_deref|].
  intros [a|s t|a]; first [apply readonly_ret | apply readonly_raise].
Qed.

Lemma readonly_conv_getattr {A} (self : loc) (name : string)
    (f : ConvEncoderAttrs -> option A) :
  readonly (conv_getattr self name f).
Proof.
  apply readonly_bind; [|intros a; apply readonly_getattr].
  apply readonly_bind; [apply readonly_deref|].
  intros [a|s t|a]; first [apply readonly_ret | apply readonly_raise].
Qed.

Lemma readonly_conv_forward (self : loc) (x : Value) :
  readonly (ConvEncoder.forward self x).
Proof.
  unfold ConvEncoder.forward.
  repeat first
    [ apply readonly_ret | apply readonly_lift | apply readonly_conv_getattr
    | apply readonly_bind; [|intros ?] ].
Qed.

Lemma readonly_call (m : loc) (x : Value) : readonly (VAC.call m x).
Proof.
  unfold VAC.call.
  apply readonly_bind; [apply readonly_deref|]. intros o.
  apply readonly_bind; [apply readonly_log_call|]. intros _.
  destruct o; [apply readonly_conv_forward | apply readonly_lift | apply readonly_raise].
Qed.

(** One tactic for the three forward modes: they are built from attribute
    reads, calls, lookups in results, and branches on booleans. *)
Ltac readonly_steps :=
  repeat first
    [ apply readonly_ret | apply readonly_raise | apply readonly_lift
    | apply readonly_vac_getattr | apply readonly_call
    | apply readonly_bind; [|intros ?]
    | match goal with
      | |- readonly (if ?b then _ else _) => destruct b
      end ].

Lemma readonly_compute_actor (self : loc) (x : Value) :
  readonly (VAC.compute_actor self x).
Proof. unfold VAC.compute_actor. readonly_steps. Qed.

Lemma readonly_compute_critic (self : loc) (x : Value) :
  readonly (VAC.compute_critic self x).
Proof. unfold VAC.compute_critic. readonly_steps. Qed.

Lemma readonly_compute_actor_critic (self : loc) (x : Value) :
  readonly (VAC.compute_actor_critic self x).
Proof. unfold VAC.compute_actor_critic. readonly_steps. Qed.

Lemma readonly_ext {A} (m m' : Py A) :
  (forall w, m w = m' w) -> readonly m' -> readonly m.
Proof.
  intros Hext Hm w. destruct (Hm w) as (r & tr & Hr).
  exists r, tr. intros w2 Hw2. by rewrite Hext, Hr.
Qed.

Lemma readonly_forward (self : loc) (x : Value) (mode_ : string) :
  readonly (VAC.forward self x mode_).
Proof.
  unfold VAC.forward.
  apply readonly_bind.
  { case_bool_decide; readonly_steps. }
  intros _. unfold VAC.getattr_method.
  repeat case_decide.
  - apply (readonly_ext _ (VAC.compute_actor self x)); [done|].
    apply readonly_compute_actor.
  - apply (readonly_ext _ (VAC.compute_critic self x)); [done|].
    apply readonly_compute_critic.
  - apply (readonly_ext _ (VAC.compute_actor_critic self x)); [done|].
    apply readonly_compute_actor_critic.
  - apply (readonly_ext _ (raise (AttributeError mode_))); [done|].
    apply readonly_raise.
Qed.

Lemma readonly_world {A} (m : Py A) (w w' : World) (r : Result A) :
  readonly m -> m w = (r, w') ->
  exists tr, w' = set_calls (calls w ++ tr) w /\
    forall w2, heap w2 = heap w -> m w2 = (r, set_calls (calls w2 ++ tr) w2).
Proof.
  intros Hm Hrun. destruct (Hm w) as (r0 & tr & Hr).
  rewrite (Hr w eq_refl) in Hrun. injection Hrun as -> <-.
  by exists tr.
Qed.

End ReadOnly.

(** ** The forward modes *)

Section ForwardModes.
Context `{Framework}.

(** C8. [forward] with the name of a mode is the method of that name. *)
Theorem forward_is_the_named_method (self : loc) (x : Value) (w : World) :
  VAC.forward self x "compute_actor" w = VAC.compute_actor self x w /\
  VAC.forward self x "compute_critic" w = VAC.compute_critic self x w /\
  VAC.forward self x "compute_actor_critic" w = VAC.compute_actor_critic self x w.
Proof. repeat split. Qed.

(** The text of [str(self.mode)]. *)
Lemma mode_str :
  py_str_list_str VAC.mode = "['compute_actor', 'compute_critic', 'compute_actor_critic']".
Proof. reflexivity. Qed.

(** C5. A mode that is not one of the three names makes [forward] fail on
    its assertion; the message holds the offending mode and the list of the
    allowed ones, and the world is as before: no module was called. *)
Theorem forward_rejects_unknown_mode (self : loc) (x : Value) (mode_ : string) (w : World) :
  mode_ ∉ VAC.mode ->
  VAC.forward self x mode_ w =
    (Err (AssertionError
       ("not support forward mode: " +:+ mode_ +:+ "/" +:+ py_str_list_str VAC.mode)), w).
Proof.
  intros Hmode. unfold VAC.forward.
  rewrite bind_run, bool_decide_eq_false_2 by done.
  cbn. done.
Qed.

End ForwardModes.

(** ** Running attribute reads and calls *)

Section Runs.
Context `{Framework}.

Lemma vac_getattr_run {A} (self : loc) (name : string) (f : VACAttrs -> option A)
    (w : World) (a : VACAttrs) :
  heap w !! self = Some (ObjVAC a) ->
  vac_getattr self name f w =
    (match f a with Some v => Ok v | None => Err (AttributeError name) end, w).
Proof.
  intros Hself. unfold vac_getattr, vac_self, deref, bind. rewrite Hself.
  cbn. unfold getattr. by destruct (f a).
Qed.

Lemma vac_getattr_ok_inv {A} (self : loc) (name : string) (f : VACAttrs -> option A)
    (w w' : World) (a : VACAttrs) (v : A) :
  heap w !! self = Some (ObjVAC a) ->
  vac_getattr self name f w = (Ok v, w') -> f a = Some v /\ w' = w.
Proof.
  intros Hself. rewrite (vac_getattr_run _ _ _ _ a Hself).
  destruct (f a); by intros [= -> ->].
Qed.

Lemma conv_getattr_run {A} (self : loc) (name : string)
    (f : ConvEncoderAttrs -> option A) (w : World) (a : ConvEncoderAttrs) :
  heap w !! self = Some (ObjConvEncoder a) ->
  conv_getattr self name f w =
    (match f a with Some v => Ok v | None => Err (AttributeError name) end, w).
Proof.
  intros Hself. unfold conv_getattr, conv_self, deref, bind. rewrite Hself.
  cbn. unfold getattr. by destruct (f a).
Qed.

Lemma conv_forward_run (self : loc) (x : Value) (w : World) (a : ConvEncoderAttrs) :
  heap w !! self = Some (ObjConvEncoder a) ->
  ConvEncoder.forward self x w = (conv_forward_result a x, w).
Proof.
  intros Hself. unfold ConvEncoder.forward, conv_forward_result.
  rewrite bind_lift. destruct (value_float x) as [t|e]; [|done].
  rewrite bind_run, (conv_getattr_run _ _ _ _ a) by done.
  destruct (conv_main a) as [main|]; [|done].
  rewrite bind_lift. destruct (Sequential_forward main t) as [y|e]; [|done].
  rewrite bind_run, (conv_getattr_run _ _ _ _ a) by done.
  destruct (conv_mid a) as [mid|]; [|done].
  rewrite bind_lift. by destruct (nn_forward mid y).
Qed.

Lemma call_run (m : loc) (x : Value) (w : World) (o : Object) :
  heap w !! m = Some o ->
  VAC.call m x w = (object_forward o x, set_calls (calls w ++ [(m, x)]) w).
Proof.
  intros Hm. unfold VAC.call, deref. rewrite bind_run, Hm.
  unfold log_call, modify. rewrite bind_run.
  destruct o as [a|spec theta|a]; cbn [object_forward]; [|done..].
  by apply conv_forward_run.
Qed.

Lemma call_run_dangling (m : loc) (x : Value) (w : World) :
  heap w !! m = None ->
  VAC.call m x w = (Err (TypeError "not an object"), w).
Proof. intros Hm. unfold VAC.call, deref. by rewrite bind_run, Hm. Qed.

(** A call that returns went to an object of the heap, was recorded, and
    changed nothing else. *)
Lemma call_ok_inv (m : loc) (x v : Value) (w w' : World) :
  VAC.call m x w = (Ok v, w') ->
  exists o, heap w !! m = Some o /\ object_forward o x = Ok v /\
    w' = set_calls (calls w ++ [(m, x)]) w.
Proof.
  destruct (heap w !! m) as [o|] eqn:Hm.
  - rewrite (call_run _ _ _ o Hm). intros [= Hv <-]. by exists o.
  - by rewrite (call_run_dangling _ _ _ Hm).
Qed.

End Runs.

(** ** One embedding for both heads *)

Section SharedEncoder.
Context `{Framework}.

Ltac read_attr_goal attrs :=
  rewrite bind_run, (vac_getattr_run _ _ _ _ attrs) by (cbn; eassumption).
Ltac attr_inv Hrun attrs v Hv :=
  let w1 := fresh "w" in
  let Hget := fresh "Hget" in
  apply bind_ok_inv in Hrun as (v & w1 & Hget & Hrun);
  apply (vac_getattr_ok_inv _ _ _ _ _ attrs) in Hget as [Hv ->]; [|cbn; eassumption].
Ltac call_inv Hrun v o Ho Hv :=
  let w1 := fresh "w" in
  let Hcall := fresh "Hcall" in
  apply bind_ok_inv in Hrun as (v & w1 & Hcall & Hrun);
  apply call_ok_inv in Hcall as (o & Ho & Hv & ->);
  cbn [heap set_calls] in Ho.
Ltac lift_inv Hrun v Hv :=
  let w1 := fresh "w" in
  apply bind_ok_inv in Hrun as (v & w1 & Hv & Hrun);
  apply lift_ok_inv in Hv as [Hv ->].

(** C3. With a shared encoder, [compute_actor_critic] makes three calls: the
    encoder on the input, then the critic head and the actor head, both on
    the embedding the encoder returned.  Its [logit] and [value] are the
    values (not only the shapes) that [compute_actor] and [compute_critic]
    return on the same input. *)
Theorem shared_encoder_is_run_once (self : loc) (attrs : VACAttrs) (x out : Value)
    (w w' : World) :
  heap w !! self = Some (ObjVAC attrs) ->
  vac_share_encoder attrs = Some true ->
  VAC.compute_actor_critic self x w = (Ok out, w') ->
  exists encoder critic_head actor_head embedding logit value a c wa wc,
    vac_encoder attrs = Some encoder /\
    vac_critic_head attrs = Some critic_head /\
    vac_actor_head attrs = Some actor_head /\
    (VAC.call encoder x w).1 = Ok embedding /\
    calls w' = calls w ++ [(encoder, x); (critic_head, embedding); (actor_head, embedding)] /\
    out = VDict (<[ "logit" := logit ]> {[ "value" := value ]}) /\
    VAC.compute_actor self x w = (Ok a, wa) /\
    VAC.compute_critic self x w = (Ok c, wc) /\
    value_getitem a "logit" = Ok logit /\
    value_getitem c "value" = Ok value.
Proof.
  intros Hself Hshared Hrun.
  unfold VAC.compute_actor_critic in Hrun.
  attr_inv Hrun attrs shared Hshared'.
  rewrite Hshared in Hshared'. injection Hshared' as <-.
  rewrite bind_assoc in Hrun. attr_inv Hrun attrs encoder Hencoder.
  rewrite bind_assoc in Hrun. call_inv Hrun embedding oe Hoe Hemb.
  rewrite bind_ret in Hrun. cbn [fst snd] in Hrun.
  attr_inv Hrun attrs critic_head Hcritic_head.
  call_inv Hrun cv oc Hoc Hcv.
  attr_inv Hrun attrs actor_head Hactor_head.
  call_inv Hrun av oa Hoa Hav.
  attr_inv Hrun attrs continuous Hcontinuous.
  apply bind_ok_inv in Hrun as (logit & w4 & Hlogit & Hrun).
  lift_inv Hrun vpred Hpred.
  apply ret_ok_inv in Hrun as [-> ->].
  assert (Hcritic : exists wc,
            VAC.compute_critic self x w = (Ok (VDict {[ "value" := vpred ]}), wc)).
  { eexists. unfold VAC.compute_critic.
    read_attr_goal attrs. rewrite Hshared.
    rewrite bind_assoc. read_attr_goal attrs. rewrite Hencoder.
    rewrite bind_run, (call_run _ _ _ oe Hoe), Hemb.
    read_attr_goal attrs. rewrite Hcritic_head.
    rewrite bind_run, (call_run _ _ _ oc) by done. rewrite Hcv.
    by rewrite bind_lift, Hpred. }
  destruct Hcritic as (wc & Hcritic).
  assert (Hactor_prefix : forall k : Value -> Py Value,
            (shared <- vac_getattr self "share_encoder" vac_share_encoder ;;
             x' <- (if shared : bool then
                      e <- vac_getattr self "encoder" vac_encoder ;; VAC.call e x
                    else
                      e <- vac_getattr self "actor_encoder" vac_actor_encoder ;;
                      VAC.call e x) ;;
             h <- vac_getattr self "actor_head" vac_actor_head ;;
             x'' <- VAC.call h x' ;;
             k x'') w =
            k av (set_calls ((calls w ++ [(encoder, x)]) ++ [(actor_head, embedding)]) w)).
  { intros k. read_attr_goal attrs. rewrite Hshared.
    rewrite bind_assoc. read_attr_goal attrs. rewrite Hencoder.
    rewrite bind_run, (call_run _ _ _ oe Hoe), Hemb.
    read_attr_goal attrs. rewrite Hactor_head.
    rewrite bind_run, (call_run _ _ _ oa) by done. by rewrite Hav. }
  exists encoder, critic_head, actor_head, embedding, logit, vpred.
  destruct continuous.
  - lift_inv Hlogit mu Hmu. lift_inv Hlogit sigma Hsigma.
    apply ret_ok_inv in Hlogit as [-> ->].
    exists (VDict {[ "logit" := VList [mu; sigma] ]}), (VDict {[ "value" := vpred ]}).
    eexists _, wc. split_and!; try done.
    + by rewrite (call_run _ _ _ oe Hoe).
    + cbn. by rewrite <- !app_assoc.
    + unfold VAC.compute_actor. rewrite Hactor_prefix.
      read_attr_goal attrs. rewrite Hcontinuous.
      by rewrite !bind_lift, Hmu, Hsigma.
  - apply lift_ok_inv in Hlogit as [Hlogit ->].
    exists av, (VDict {[ "value" := vpred ]}).
    eexists _, wc. split_and!; try done.
    + by rewrite (call_run _ _ _ oe Hoe).
    + cbn. by rewrite <- !app_assoc.
    + unfold VAC.compute_actor. rewrite Hactor_prefix.
      read_attr_goal attrs. by rewrite Hcontinuous.
Qed.

End SharedEncoder.

(** ** Runs with buffers *)

Section BufferFacts.
Context `{Buffered}.

Lemma lift_py_run {A} (m : Py A) (s : BWorld) :
  lift_py m s = ((m (base s)).1, {| base := (m (base s)).2; buffers := buffers s |}).
Proof. unfold lift_py. by destruct (m (base s)). Qed.

Lemma same_answers_refl (spec : DingSpec) (theta : Params) (b : Buffers) :
  same_answers spec theta b b.
Proof. by intros x. Qed.

Lemma same_answers_trans (spec : DingSpec) (theta : Params) (b1 b2 b3 : Buffers) :
  same_answers spec theta b1 b2 -> same_answers spec theta b2 b3 ->
  same_answers spec theta b1 b3.
Proof. intros H12 H23 x. by rewrite H23, H12. Qed.

Lemma alike_refl (s : BWorld) : alike s s.
Proof. split; [done|]. intros m spec theta _. apply same_answers_refl. Qed.

(** *** Keeping parameters and configuration *)

Lemma keeps_parameters_still {A} (m : PyB A) :
  (forall s, (m s).2 = s) -> keeps_parameters m.
Proof.
  intros Hm s. rewrite Hm. split_and!; try done.
  exists []. split; [by rewrite app_nil_r|done].
Qed.

Lemma keeps_parameters_bind {A B} (m : PyB A) (k : A -> PyB B) :
  keeps_parameters m -> (forall a, keeps_parameters (k a)) ->
  keeps_parameters (bind m k).
Proof.
  intros Hm Hk s. rewrite bind_run. specialize (Hm s).
  destruct (m s) as [[a|e] s1]; cbn [fst snd] in Hm; [|exact Hm].
  destruct Hm as (Hheap & Hrng & Hout & tr & Hcalls & Hbuf).
  destruct (Hk a s1) as (Hheap' & Hrng' & Hout' & tr' & Hcalls' & Hbuf').
  split_and!; [congruence..|].
  exists (tr ++ tr'). split.
  - by rewrite Hcalls', Hcalls, app_assoc.
  - intros l Hl. rewrite fmap_app in Hl. apply not_elem_of_app in Hl as [Hl Hl'].
    by rewrite Hbuf', Hbuf.
Qed.

Lemma keeps_parameters_lift_py {A} (m : Py A) :
  readonly m -> keeps_parameters (lift_py m).
Proof.
  intros Hm s. destruct (Hm (base s)) as (r & tr & Hr).
  rewrite lift_py_run, (Hr _ eq_refl). cbn.
  split_and!; try done. by exists tr.
Qed.

Lemma keeps_parameters_call (m : loc) (x : Value) :
  keeps_parameters (WithBuffers.call m x).
Proof.
  intros s. unfold WithBuffers.call.
  rewrite bind_run, lift_py_run. unfold deref.
  destruct (heap (base s) !! m) as [o|] eqn:Hm; cbn [fst snd].
  2: { split_and!; try done. exists []. split; [by rewrite app_nil_r|done]. }
  rewrite bind_run, lift_py_run. unfold log_call, modify. cbn [fst snd base buffers].
  destruct o as [a|spec theta|a].
  - destruct (readonly_conv_forward m x (base s)) as (r & tr & Hr).
    rewrite lift_py_run, Hr by done. cbn.
    split_and!; try done. exists ((m, x) :: tr). split; [|done].
    by rewrite <- app_assoc.
  - unfold pass. cbn [base buffers].
    destruct (ding_pass spec theta (buffers s m) x) as [r b]. cbn.
    split_and!; try done. exists [(m, x)]. split; [done|].
    intros l Hl. apply fn_lookup_insert_ne. cbn in Hl. set_solver.
  - cbn. split_and!; try done. by exists [(m, x)].
Qed.

Lemma keeps_parameters_ext {A} (m m' : PyB A) :
  (forall s, m s = m' s) -> keeps_parameters m' -> keeps_parameters m.
Proof. intros Hext Hm s. rewrite Hext. apply Hm. Qed.

Ltac keeps_steps :=
  repeat first
    [ apply keeps_parameters_call
    | apply keeps_parameters_lift_py; apply readonly_vac_getattr
    | apply keeps_parameters_still; reflexivity
    | apply keeps_parameters_bind; [|intros ?]
    | match goal with
      | |- keeps_parameters (if ?b then _ else _) => destruct b
      end ].

Lemma keeps_parameters_compute_actor (self : loc) (x : Value) :
  keeps_parameters (WithBuffers.compute_actor self x).
Proof. unfold WithBuffers.compute_actor, WithBuffers.getattr. keeps_steps. Qed.

Lemma keeps_parameters_compute_critic (self : loc) (x : Value) :
  keeps_parameters (WithBuffers.compute_critic self x).
Proof. unfold WithBuffers.compute_critic, WithBuffers.getattr. keeps_steps. Qed.

Lemma keeps_parameters_compute_actor_critic (self : loc) (x : Value) :
  keeps_parameters (WithBuffers.compute_actor_critic self x).
Proof. unfold WithBuffers.compute_actor_critic, WithBuffers.getattr. keeps_steps. Qed.

Lemma keeps_parameters_forward (self : loc) (x : Value) (mode_ : string) :
  keeps_parameters (WithBuffers.forward self x mode_).
Proof.
  unfold WithBuffers.forward.
  apply keeps_parameters_bind.
  { case_bool_decide; keeps_steps. }
  intros _. unfold WithBuffers.getattr_method.
  repeat case_decide.
  - apply (keeps_parameters_ext _ (WithBuffers.compute_actor self x)); [done|].
    apply keeps_parameters_compute_actor.
  - apply (keeps_parameters_ext _ (WithBuffers.compute_critic self x)); [done|].
    apply keeps_parameters_compute_critic.
  - apply (keeps_parameters_ext _ (WithBuffers.compute_actor_critic self x)); [done|].
    apply keeps_parameters_compute_actor_critic.
  - apply keeps_parameters_still. reflexivity.
Qed.

(** *** Returning the same again *)

Lemma steady_still {A} (m : PyB A) (r : Result A) :
  (forall s, m s = (r, s)) -> steady m.
Proof. intros Hm s. exists r. intros s2 Hs2. by rewrite Hm. Qed.

Lemma steady_bind {A B} (m : PyB A) (k : A -> PyB B) :
  steady m -> (forall a, steady (k a)) -> steady (bind m k).
Proof.
  intros Hm Hk s. destruct (Hm s) as (r & Hr). destruct r as [a|e].
  - destruct (Hk a s) as (r' & Hr'). exists r'. intros s2 Hs2.
    rewrite bind_run. destruct (Hr s2 Hs2) as [Hres Hlike].
    destruct (m s2) as [r0 s3]. cbn [fst snd] in Hres, Hlike. subst r0.
    by apply Hr'.
  - exists (Err e). intros s2 Hs2.
    rewrite bind_run. destruct (Hr s2 Hs2) as [Hres Hlike].
    destruct (m s2) as [r0 s3]. cbn [fst snd] in Hres, Hlike. by subst r0.
Qed.

Lemma steady_lift_py {A} (m : Py A) : readonly m -> steady (lift_py m).
Proof.
  intros Hm s. destruct (Hm (base s)) as (r & tr & Hr). exists r.
  intros s2 [Hheap Hbuf]. rewrite lift_py_run, (Hr _ Hheap). cbn. by split.
Qed.

Lemma steady_call (m : loc) (x : Value) :
  passes_repeatable -> steady (WithBuffers.call m x).
Proof.
  intros Hrep s. unfold WithBuffers.call.
  destruct (heap (base s) !! m) as [o|] eqn:Hm.
  2: { exists (Err (TypeError "not an object")). intros s2 [Hheap Hbuf].
       rewrite bind_run, lift_py_run. unfold deref. rewrite Hheap, Hm. cbn. by split. }
  destruct o as [a|spec theta|a].
  - destruct (readonly_conv_forward m x (base s)) as (r & tr & Hr). exists r.
    intros s2 [Hheap Hbuf].
    rewrite bind_run, lift_py_run. unfold deref. rewrite Hheap, Hm. cbn [fst snd].
    rewrite bind_run, lift_py_run. unfold log_call, modify. cbn [fst snd base buffers].
    rewrite lift_py_run, Hr by done. cbn. by split.
  - exists (ding_pass spec theta (buffers s m) x).1.
    intros s2 [Hheap Hbuf].
    rewrite bind_run, lift_py_run. unfold deref. rewrite Hheap, Hm. cbn [fst snd].
    rewrite bind_run, lift_py_run. unfold log_call, modify. cbn [fst snd base buffers].
    unfold pass. cbn [base buffers].
    pose proof (Hbuf m spec theta Hm) as Hm2.
    pose proof (Hrep spec theta (buffers s2 m) x) as Hnext.
    destruct (ding_pass spec theta (buffers s2 m) x) as [r b] eqn:Hpass.
    cbn [fst snd] in Hnext |- *. split.
    + specialize (Hm2 x). by rewrite Hpass in Hm2.
    + split; [done|]. cbn [base buffers].
      intros m' spec' theta' Hm'.
      destruct (decide (m = m')) as [<-|Hne].
      * rewrite Hm in Hm'. injection Hm' as <- <-.
        rewrite fn_lookup_insert.
        by apply (same_answers_trans _ _ _ (buffers s2 m)).
      * rewrite fn_lookup_insert_ne by done. by apply Hbuf.
  - exists (Err (TypeError "forward() missing 1 required positional argument: 'mode'")).
    intros s2 [Hheap Hbuf].
    rewrite bind_run, lift_py_run. unfold deref. rewrite Hheap, Hm. cbn [fst snd].
    rewrite bind_run, lift_py_run. unfold log_call, modify. cbn. by split.
Qed.

Lemma steady_ext {A} (m m' : PyB A) :
  (forall s, m s = m' s) -> steady m' -> steady m.
Proof.
  intros Hext Hm s. destruct (Hm s) as (r & Hr). exists r.
  intros s2 Hs2. rewrite Hext. by apply Hr.
Qed.

Lemma steady_repeatable {A} (m : PyB A) : steady m -> repeatable m.
Proof.
  intros Hm s. destruct (Hm s) as (r & Hr).
  destruct (Hr s (alike_refl s)) as [Hres Hlike].
  destruct (Hr _ Hlike) as [Hres' _]. congruence.
Qed.

Section Repeatable.
Hypothesis Hrep : passes_repeatable.

Ltac steady_steps :=
  repeat first
    [ apply (steady_call _ _ Hrep)
    | apply steady_lift_py; apply readonly_vac_getattr
    | eapply steady_still; reflexivity
    | apply steady_bind; [|intros ?]
    | match goal with
      | |- steady (if ?b then _ else _) => destruct b
      end ].

Lemma steady_compute_actor (self : loc) (x : Value) :
  steady (WithBuffers.compute_actor self x).
Proof. unfold WithBuffers.compute_actor, WithBuffers.getattr. steady_steps. Qed.

Lemma steady_compute_critic (self : loc) (x : Value) :
  steady (WithBuffers.compute_critic self x).
Proof. unfold WithBuffers.compute_critic, WithBuffers.getattr. steady_steps. Qed.

Lemma steady_compute_actor_critic (self : loc) (x : Value) :
  steady (WithBuffers.compute_actor_critic self x).
Proof. unfold WithBuffers.compute_actor_critic, WithBuffers.getattr. steady_steps. Qed.

Lemma steady_forward (self : loc) (x : Value) (mode_ : string) :
  steady (WithBuffers.forward self x mode_).
Proof.
  unfold WithBuffers.forward.
  apply steady_bind.
  { case_bool_decide; steady_steps. }
  intros _. unfold WithBuffers.getattr_method.
  repeat case_decide.
  - apply (steady_ext _ (WithBuffers.compute_actor self x)); [done|].
    apply steady_compute_actor.
  - apply (steady_ext _ (WithBuffers.compute_critic self x)); [done|].
    apply steady_compute_critic.
  - apply (steady_ext _ (WithBuffers.compute_actor_critic self x)); [done|].
    apply steady_compute_actor_critic.
  - eapply steady_still. reflexivity.
Qed.

End Repeatable.

(** *** The modes without buffers *)

Lemma answers_forward_repeatable : answers_forward -> passes_repeatable.
Proof. intros Hfwd spec theta b x x'. by rewrite !Hfwd. Qed.

Lemma tracks_lift_py {A} (m : Py A) : tracks (lift_py m) m.
Proof. intros s. by rewrite lift_py_run. Qed.

Lemma tracks_still {A} (r : Result A) : tracks (fun s => (r, s)) (fun w => (r, w)).
Proof. by intros s. Qed.

Lemma tracks_bind {A B} (mb : PyB A) (m : Py A) (kb : A -> PyB B) (k : A -> Py B) :
  tracks mb m -> (forall a, tracks (kb a) (k a)) -> tracks (bind mb kb) (bind m k).
Proof.
  intros Hm Hk s. rewrite !bind_run. destruct (Hm s) as [Hres Hbase].
  destruct (mb s) as [r s1], (m (base s)) as [r' w1]. cbn [fst snd] in Hres, Hbase.
  subst r' w1. destruct r as [a|e]; [|done]. apply Hk.
Qed.

Lemma tracks_call (m : loc) (x : Value) :
  answers_forward -> tracks (WithBuffers.call m x) (VAC.call m x).
Proof.
  intros Hfwd. unfold WithBuffers.call, VAC.call.
  apply tracks_bind; [apply tracks_lift_py|]. intros o.
  apply tracks_bind; [apply tracks_lift_py|]. intros _.
  destruct o as [a|spec theta|a]; [apply tracks_lift_py| |apply tracks_still].
  intros s. unfold pass. specialize (Hfwd spec theta (buffers s m) x).
  destruct (ding_pass spec theta (buffers s m) x) as [r b]. cbn in *. by subst.
Qed.

(** When a pass returns what [ding_forward] returns, the modes with buffers
    return what the modes of [VAC] return and do the same to the world. *)
Lemma modes_with_buffers (self : loc) (x : Value) :
  answers_forward ->
  tracks (WithBuffers.compute_actor self x) (VAC.compute_actor self x) /\
  tracks (WithBuffers.compute_critic self x) (VAC.compute_critic self x) /\
  tracks (WithBuffers.compute_actor_critic self x) (VAC.compute_actor_critic self x).
Proof.
  intros Hfwd.
  unfold WithBuffers.compute_actor, WithBuffers.compute_critic,
    WithBuffers.compute_actor_critic, WithBuffers.getattr,
    VAC.compute_actor, VAC.compute_critic, VAC.compute_actor_critic.
  split_and!;
    repeat first
      [ apply (tracks_call _ _ Hfwd)
      | apply tracks_lift_py
      | apply tracks_still
      | apply tracks_bind; [|intros ?]
      | match goal with
        | |- tracks (if ?b then _ else _) _ => destruct b
        end ].
Qed.


End BufferFacts.

(** *** The batch counters of the shape model *)

Section BatchCounters.
Import ShapeModel ShapeBuffers.

(** What a module of the shape model returns does not depend on its batch
    counter: it is what [module_forward] returns. *)
Lemma module_pass_answers_forward : answers_forward.
Proof.
  intros spec theta b x. cbn [ding_pass buffered ding_forward framework].
  unfold module_pass. by destruct (module_forward spec theta x).
Qed.

Lemma module_pass_repeatable : passes_repeatable.
Proof. apply answers_forward_repeatable, module_pass_answers_forward. Qed.

End BatchCounters.

(** ** The constructor of ConvEncoder *)

Section ConvEncoderInit.
Context `{Framework}.

Lemma insert_middle {A} (pre post : list A) (o o' : A) :
  <[length pre := o']> (pre ++ o :: post) = pre ++ o' :: post.
Proof.
  rewrite insert_app_r_alt by lia. by rewrite Nat.sub_diag.
Qed.

Lemma conv_setattr_run (pre post : list Object) (a : ConvEncoderAttrs)
    (f : ConvEncoderAttrs -> ConvEncoderAttrs) (w : World) :
  heap w = pre ++ ObjConvEncoder a :: post ->
  conv_setattr (length pre) f w =
    (Ok tt, set_heap (pre ++ ObjConvEncoder (f a) :: post) w).
Proof.
  intros Hheap. unfold conv_setattr, conv_self, deref, store, modify, bind.
  rewrite Hheap, list_lookup_middle by done. cbn.
  by rewrite Hheap, insert_middle.
Qed.

Lemma conv_getattr_at {A} (pre post : list Object) (a : ConvEncoderAttrs)
    (name : string) (f : ConvEncoderAttrs -> option A) (w : World) :
  heap w = pre ++ ObjConvEncoder a :: post ->
  conv_getattr (length pre) name f w =
    (match f a with Some v => Ok v | None => Err (AttributeError name) end, w).
Proof.
  intros Hheap. apply conv_getattr_run. rewrite Hheap. by apply list_lookup_middle.
Qed.

Lemma py_assert_ok_inv (cond : bool) (msg : string) (w w' : World) (u : unit) :
  py_assert cond msg w = (Ok u, w') -> cond = true /\ w' = w.
Proof. destruct cond; [by intros [= _ ->]|done]. Qed.

Lemma sample_ok_inv {A} (f : Rng -> Result A * Rng) (w w' : World) (a : A) :
  sample f w = (Ok a, w') ->
  exists g, f (rng w) = (Ok a, g) /\ w' = set_rng g w.
Proof.
  unfold sample. destruct (f (rng w)) as [r g]. intros [= -> <-]. by exists g.
Qed.

Lemma nn_new_ok_inv (spec : LayerSpec) (w w' : World) (l : Layer) :
  nn_new spec w = (Ok l, w') ->
  exists theta g, nn_init spec (rng w) = (Ok theta, g) /\
    l = Learned spec theta /\ w' = set_rng g w.
Proof.
  unfold nn_new. intros Hrun.
  apply bind_ok_inv in Hrun as (theta & w1 & Hsample & Hret).
  apply sample_ok_inv in Hsample as (g & Hinit & ->).
  apply ret_ok_inv in Hret as [-> ->]. by exists theta, g.
Qed.

Lemma nn_Sequential_ok_inv (layers : list (option Layer)) (ls : list Layer) (w w' : World) :
  nn_Sequential layers w = (Ok ls, w') -> ls = seq_entry <$> layers /\ w' = w.
Proof. unfold nn_Sequential. by intros [= <- <-]. Qed.

(** A stack with [None] as its second entry raises on every input. *)
Lemma Sequential_forward_none_second (l : Layer) (rest : list Layer) (x : Tensor) :
  is_ok (Sequential_forward (l :: NoModule :: rest) x) = false.
Proof.
  destruct l; cbn; try done; by destruct (nn_forward _ x).
Qed.

Ltac tidy :=
  cbn [set_heap set_rng set_stdout set_calls heap rng stdout calls fst snd] in *.
Ltac lift_inv Hrun v Hv :=
  let w1 := fresh "w" in
  apply bind_ok_inv in Hrun as (v & w1 & Hv & Hrun);
  apply lift_ok_inv in Hv as [Hv ->].
Ltac setattr_run Hrun pre post :=
  rewrite bind_run in Hrun;
  erewrite (conv_setattr_run pre post) in Hrun by (cbn; reflexivity);
  tidy.
Ltac getattr_inv Hrun pre post v Hv :=
  let w1 := fresh "w" in
  apply bind_ok_inv in Hrun as (v & w1 & Hv & Hrun);
  erewrite (conv_getattr_at pre post) in Hv by (cbn; reflexivity);
  cbn in Hv; injection Hv as <- <-.

(** One round of the loop over the convolutions, when it returns. *)
Lemma conv_round_ok_inv (pre post : list Object) (a : ConvEncoderAttrs)
    (hs ks ss : list Z) (i input : Z) (layers : list (option Layer))
    (st : list (option Layer) * Z) (w w' : World) :
  heap w = pre ++ ObjConvEncoder a :: post ->
  ConvEncoder.conv_round (length pre) hs ks ss i (layers, input) w = (Ok st, w') ->
  exists h k s act theta g,
    py_getitem hs i = Ok h /\ py_getitem ks i = Ok k /\ py_getitem ss i = Ok s /\
    conv_act a = Some act /\
    nn_init (Conv2d input h k s) (rng w) = (Ok theta, g) /\
    w' = set_rng g w /\
    st = (layers ++ [Some (Learned (Conv2d input h k s) theta); act_layer act], h).
Proof.
  intros Hheap Hrun. unfold ConvEncoder.conv_round in Hrun. cbn [fst snd] in Hrun.
  lift_inv Hrun h Hh. lift_inv Hrun k Hk. lift_inv Hrun s Hs.
  apply bind_ok_inv in Hrun as (conv & w1 & Hconv & Hrun).
  apply nn_new_ok_inv in Hconv as (theta & g & Hinit & -> & ->).
  apply bind_ok_inv in Hrun as (act & w1 & Hact & Hrun).
  rewrite (conv_getattr_at pre post a) in Hact by done.
  destruct (conv_act a) as [act'|] eqn:Hact'; [|done]. injection Hact as <- <-.
  lift_inv Hrun h' Hh'.
  apply ret_ok_inv in Hrun as [-> ->].
  rewrite Hh in Hh'. injection Hh' as <-.
  exists h, k, s, act', theta, g. by rewrite <- app_assoc.
Qed.

(** [_get_flatten_size], when it returns: one draw, two lines printed. *)
Lemma get_flatten_size_ok_inv (pre post : list Object) (a : ConvEncoderAttrs)
    (obs : Shape) (main : list Layer) (fs : Z) (w w' : World) :
  heap w = pre ++ ObjConvEncoder a :: post ->
  conv_obs_shape a = Some obs -> conv_main a = Some main ->
  ConvEncoder._get_flatten_size (length pre) w = (Ok fs, w') ->
  exists test_data g,
    dummy_pass_width obs main (rng w) fs /\
    w' = set_stdout (stdout w ++ [[PStr "test_data = "; PTensor test_data];
                                  [PStr "test data.shape = "; PSize (tensor_shape test_data)]])
           (set_rng g w).
Proof.
  intros Hheap Hobs Hmain Hrun. unfold ConvEncoder._get_flatten_size in Hrun.
  apply bind_ok_inv in Hrun as (obs' & w1 & Hget & Hrun).
  rewrite (conv_getattr_at pre post a) in Hget by done.
  rewrite Hobs in Hget. injection Hget as <- <-.
  lift_inv Hrun dims Hdims.
  apply bind_ok_inv in Hrun as (test_data & w1 & Hrandn & Hrun).
  apply sample_ok_inv in Hrandn as (g & Hrandn & ->).
  unfold print, modify in Hrun. rewrite !bind_run in Hrun. tidy.
  apply bind_ok_inv in Hrun as (main' & w1 & Hget & Hrun).
  rewrite (conv_getattr_at pre post a) in Hget by done.
  rewrite Hmain in Hget. injection Hget as <- <-.
  lift_inv Hrun output Houtput.
  apply lift_ok_inv in Hrun as [Hfs ->].
  exists test_data, g. split.
  - by exists dims, test_data, g, output.
  - unfold set_stdout, set_rng. cbn. by rewrite <- app_assoc.
Qed.

(** [__init__], when it returns: all five attributes are set, whatever they
    were; the generator has advanced and two lines were printed. *)
Lemma conv_init_ok_inv (pre post : list Object) (a0 : ConvEncoderAttrs)
    (obs : Shape) (hs : list Z) (activation : option Activation) (norm : option string)
    (w w' : World) (u : unit) :
  heap w = pre ++ ObjConvEncoder a0 :: post ->
  ConvEncoder.__init__ (length pre) obs hs activation norm w = (Ok u, w') ->
  exists a g out,
    conv_encoder_built obs hs activation a /\
    w' = {| rng := g; heap := pre ++ ObjConvEncoder a :: post;
            stdout := stdout w ++ out; calls := calls w |}.
Proof.
  destruct w as [g hp out cs]. cbn [heap]. intros -> Hrun.
  unfold ConvEncoder.__init__ in Hrun. cbv zeta in Hrun.
  change (py_range 0 (py_len [1; 1; 1])) with [0; 1; 2] in Hrun.
  do 4 setattr_run Hrun pre post.
  lift_inv Hrun c Hc.
  apply bind_ok_inv in Hrun as (st & w1 & Hloop & Hrun).
  cbn [for_each] in Hloop.
  apply bind_ok_inv in Hloop as (st0 & w2 & Hround & Hloop).
  eapply (conv_round_ok_inv pre post) in Hround
    as (h0 & k0 & s0 & act0 & t0 & g0 & Hh0 & Hk0 & Hs0 & Hact0 & Ht0 & -> & ->);
    [|cbn; reflexivity].
  injection Hk0 as <-. injection Hs0 as <-. cbn in Hact0. injection Hact0 as <-. tidy.
  apply bind_ok_inv in Hloop as (st1 & w2 & Hround & Hloop).
  eapply (conv_round_ok_inv pre post) in Hround
    as (h1 & k1 & s1 & act1 & t1 & g1 & Hh1 & Hk1 & Hs1 & Hact1 & Ht1 & -> & ->);
    [|cbn; reflexivity].
  injection Hk1 as <-. injection Hs1 as <-. cbn in Hact1. injection Hact1 as <-. tidy.
  apply bind_ok_inv in Hloop as (st2 & w2 & Hround & Hloop).
  eapply (conv_round_ok_inv pre post) in Hround
    as (h2 & k2 & s2 & act2 & t2 & g2 & Hh2 & Hk2 & Hs2 & Hact2 & Ht2 & -> & ->);
    [|cbn; reflexivity].
  injection Hk2 as <-. injection Hs2 as <-. cbn in Hact2. injection Hact2 as <-. tidy.
  apply ret_ok_inv in Hloop as [-> ->]. tidy.
  apply bind_ok_inv in Hrun as (u' & w1 & Hassert & Hrun).
  apply py_assert_ok_inv in Hassert as [Hassert ->].
  getattr_inv Hrun pre post hsl Hhsl.
  change (py_range 3 (py_len [4; 4; 4] - 1)) with (@nil Z) in Hrun.
  cbn [for_each] in Hrun. rewrite bind_ret in Hrun.
  apply bind_ok_inv in Hrun as (main & w1 & Hseq & Hrun).
  apply nn_Sequential_ok_inv in Hseq as [-> ->].
  setattr_run Hrun pre post.
  apply bind_ok_inv in Hrun as (fs & w1 & Hfs & Hrun).
  eapply (get_flatten_size_ok_inv pre post) in Hfs as (test_data & g3 & Hwidth & ->);
    [|cbn; reflexivity..].
  tidy.
  destruct activation as [act|]; cbn in Hwidth.
  2: { destruct Hwidth as (dims & td & g' & output & _ & _ & Hpass & _).
       pose proof (Sequential_forward_none_second
                     (Learned (Conv2d c h0 1 1) t0)
                     [Learned (Conv2d h0 h1 1 1) t1; NoModule;
                      Learned (Conv2d h1 h2 1 1) t2; NoModule; Flatten] td) as Hnone.
       by rewrite Hpass in Hnone. }
  lift_inv Hrun hl Hhl.
  apply bind_ok_inv in Hrun as (mid & w1 & Hmid & Hrun).
  apply nn_new_ok_inv in Hmid as (t3 & g4 & Ht3 & -> & ->). tidy.
  erewrite (conv_setattr_run pre post) in Hrun by (cbn; reflexivity). tidy.
  injection Hrun as _ <-.
  eexists _, g4, _. split; [|reflexivity].
  exists c, h0, h1, h2, hl, act, t0, t1, t2, t3, g2, fs.
  split_and!; try done. lia.
Qed.

End ConvEncoderInit.

(** ** What the constructor of ConvEncoder builds *)

Section ConvEncoderTheorems.
Context `{Framework}.

Lemma conv_new_ok_inv (obs : Shape) (hs : list Z) (activation : option Activation)
    (norm : option string) (w w' : World) (self : loc) :
  ConvEncoder.new obs hs activation norm w = (Ok self, w') ->
  self = length (heap w) /\
  exists a g out,
    conv_encoder_built obs hs activation a /\
    w' = {| rng := g; heap := heap w ++ [ObjConvEncoder a];
            stdout := stdout w ++ out; calls := calls w |}.
Proof.
  unfold ConvEncoder.new, alloc. rewrite bind_run. intros Hrun.
  apply bind_ok_inv in Hrun as (u & w1 & Hinit & Hrun).
  apply ret_ok_inv in Hrun as [-> ->]. split; [done|].
  eapply (conv_init_ok_inv (heap w) []) in Hinit as (a & g & out & Hbuilt & ->);
    [|reflexivity].
  by exists a, g, out.
Qed.

(** *** Keeping the overridden attribute *)

Lemma keeps_bind (P : World -> Prop) {A B} (m : Py A) (k : A -> Py B) :
  keeps P m -> (forall a, keeps P (k a)) -> keeps P (bind m k).
Proof.
  intros Hm Hk w r w' HP. rewrite bind_run.
  destruct (m w) as [[a|e] w1] eqn:Hrun.
  - intros Hrun'. eapply Hk; [|done]. by eapply Hm.
  - intros [= <- <-]. by eapply Hm.
Qed.

Lemma keeps_still (P : World -> Prop) {A} (m : Py A) :
  (forall w, (m w).2 = w) -> keeps P m.
Proof. intros Hm w r w' HP Hrun. specialize (Hm w). rewrite Hrun in Hm. by subst. Qed.

Lemma keeps_for_each (P : World -> Prop) {A X} (xs : list X) (acc : A)
    (body : X -> A -> Py A) :
  (forall x a, keeps P (body x a)) -> keeps P (for_each xs acc body).
Proof.
  intros Hbody. revert acc. induction xs as [|x xs IH]; intros acc.
  - by apply keeps_still.
  - cbn [for_each]. apply keeps_bind; [apply Hbody|]. intros a. apply IH.
Qed.

Section Overridden.
Variable self : loc.
#[local] Abbreviation P := (hidden_size_list_overridden self).

Lemma keeps_sample {A} (f : Rng -> Result A * Rng) : keeps P (sample f).
Proof.
  intros w r w' HP. unfold sample. destruct (f (rng w)) as [r0 g].
  by intros [= <- <-].
Qed.

Lemma keeps_print (args : list PrintArg) : keeps P (print args).
Proof. intros w r w' HP. by intros [= <- <-]. Qed.

Lemma keeps_conv_getattr {A} (name : string) (f : ConvEncoderAttrs -> option A) :
  keeps P (conv_getattr self name f).
Proof.
  apply keeps_still. intros w. unfold conv_getattr, conv_self, deref, bind.
  destruct (heap w !! self) as [[a|s t|a]|]; try done.
  cbn. unfold getattr. by destruct (f a).
Qed.

Lemma keeps_nn_new (spec : LayerSpec) : keeps P (nn_new spec).
Proof.
  apply keeps_bind; [apply keeps_sample|]. intros theta. by apply keeps_still.
Qed.

(** An assignment to another attribute keeps the overridden one. *)
Lemma keeps_conv_setattr (f : ConvEncoderAttrs -> ConvEncoderAttrs) :
  (forall a, conv_hidden_size_list (f a) = conv_hidden_size_list a) ->
  keeps P (conv_setattr self f).
Proof.
  intros Hf w r w' (a & Hself & Hhsl).
  unfold conv_setattr, conv_self, deref, store, modify, bind. rewrite Hself. cbn.
  intros [= <- <-]. exists (f a). cbn. split; [|by rewrite Hf].
  apply list_lookup_insert_eq. by eapply lookup_lt_Some.
Qed.

Lemma keeps_get_flatten_size : keeps P (ConvEncoder._get_flatten_size self).
Proof.
  unfold ConvEncoder._get_flatten_size.
  repeat first
    [ apply keeps_conv_getattr | apply keeps_sample | apply keeps_print
    | apply keeps_bind; [|intros ?]
    | by apply keeps_still ].
Qed.

Lemma keeps_conv_round (hs ks ss : list Z) (i : Z) (st : list (option Layer) * Z) :
  keeps P (ConvEncoder.conv_round self hs ks ss i st).
Proof.
  unfold ConvEncoder.conv_round.
  repeat first
    [ apply keeps_conv_getattr | apply keeps_nn_new
    | apply keeps_bind; [|intros ?]
    | by apply keeps_still ].
Qed.

Lemma keeps_res_round (norm : option string) (i : Z) (layers : list (option Layer)) :
  keeps P (ConvEncoder.res_round self norm i layers).
Proof.
  unfold ConvEncoder.res_round.
  repeat first
    [ apply keeps_conv_getattr | apply keeps_nn_new
    | apply keeps_bind; [|intros ?]
    | by apply keeps_still ].
Qed.

End Overridden.

Lemma conv_setattr_at_self (self : loc) (a : ConvEncoderAttrs)
    (f : ConvEncoderAttrs -> ConvEncoderAttrs) (w : World) :
  heap w !! self = Some (ObjConvEncoder a) ->
  conv_setattr self f w =
    (Ok tt, set_heap (<[self := ObjConvEncoder (f a)]> (heap w)) w).
Proof.
  intros Hself. unfold conv_setattr, conv_self, deref, store, modify, bind.
  by rewrite Hself.
Qed.

(** After its fourth assignment [__init__] never touches the attribute
    again, whether it returns or raises. *)
Lemma conv_init_overrides (self : loc) (a0 : ConvEncoderAttrs) (obs : Shape)
    (hs : list Z) (activation : option Activation) (norm : option string)
    (w w' : World) (r : Result unit) :
  heap w !! self = Some (ObjConvEncoder a0) ->
  ConvEncoder.__init__ self obs hs activation norm w = (r, w') ->
  hidden_size_list_overridden self w'.
Proof.
  intros Hself. unfold ConvEncoder.__init__. cbv zeta.
  assert (Hlt : (self < length (heap w))%nat) by by eapply lookup_lt_Some.
  rewrite bind_run, (conv_setattr_at_self self a0) by done.
  rewrite bind_run. erewrite (conv_setattr_at_self self); last first.
  { cbn. by apply list_lookup_insert_eq. }
  rewrite bind_run. erewrite (conv_setattr_at_self self); last first.
  { cbn. apply list_lookup_insert_eq. by rewrite length_insert. }
  rewrite bind_run. erewrite (conv_setattr_at_self self); last first.
  { cbn. apply list_lookup_insert_eq. by rewrite !length_insert. }
  match goal with |- ?rest ?w4 = _ -> _ =>
    assert (Hkeeps : keeps (hidden_size_list_overridden self) rest);
    [|apply Hkeeps]
  end.
  - repeat first
      [ apply keeps_conv_getattr | apply keeps_nn_new | apply keeps_get_flatten_size
      | apply keeps_for_each; intros ? ?
      | apply keeps_conv_round | apply keeps_res_round
      | by apply keeps_conv_setattr
      | apply keeps_bind; [|intros ?]
      | by apply keeps_still
      | apply keeps_still; intros ?; unfold py_assert, nn_Sequential;
        repeat case_match; done ].
  - eexists. split.
    + cbn [heap set_heap]. apply list_lookup_insert_eq. by rewrite !length_insert.
    + done.
Qed.

Lemma res_blocks_conv_stack (c h0 h1 h2 : Z) (act : Activation) (t0 t1 t2 : Params) :
  res_blocks (conv_stack c h0 h1 h2 act t0 t1 t2) = [].
Proof. reflexivity. Qed.

(** C10. Whatever list the caller passes, [ConvEncoder(...)] leaves
    [self.hidden_size_list] equal to [[4, 4, 4]], also when the construction
    raises; the range of the loop over residual blocks is then empty, and
    when the construction returns the main stack is three pairs of a
    convolution and the activation followed by a flatten, with no residual
    block in it. *)
Theorem hidden_size_list_override_empties_res_loop (obs : Shape) (hs : list Z)
    (activation : option Activation) (norm : option string)
    (w w' : World) (r : Result loc) :
  ConvEncoder.new obs hs activation norm w = (r, w') ->
  hidden_size_list_overridden (length (heap w)) w' /\
  py_range 3 (py_len [4; 4; 4] - 1) = [] /\
  forall self, r = Ok self ->
    exists a c h0 h1 h2 act t0 t1 t2,
      heap w' !! self = Some (ObjConvEncoder a) /\
      conv_hidden_size_list a = Some [4; 4; 4] /\
      conv_main a = Some (conv_stack c h0 h1 h2 act t0 t1 t2) /\
      res_blocks (conv_stack c h0 h1 h2 act t0 t1 t2) = [].
Proof.
  intros Hrun. split_and!.
  - revert Hrun. unfold ConvEncoder.new, alloc. rewrite bind_run, bind_run.
    destruct (ConvEncoder.__init__ _ _ _ _ _ _) as [[u|e] w1] eqn:Hinit;
      intros [= <- <-];
      (eapply conv_init_overrides; [|exact Hinit]);
      cbn; by apply list_lookup_middle.
  - reflexivity.
  - intros self ->. apply conv_new_ok_inv in Hrun as (-> & a & g & out & Hbuilt & ->).
    destruct Hbuilt as (c & h0 & h1 & h2 & hl & act & t0 & t1 & t2 & t3 & g' & fs
                        & _ & _ & _ & _ & _ & _ & _ & _ & ->).
    eexists _, c, h0, h1, h2, act, t0, t1, t2. cbn [heap].
    split_and!; [by apply list_lookup_middle|done..].
Qed.

(** C7. A [ConvEncoder] whose construction returns has as [main] exactly
    three convolutions of kernel size 1 and stride 1, each followed by the
    activation, then a flatten; [mid] is a linear layer whose output width is
    the last hidden size the caller configured and whose input width was
    measured by the constructor, once, on the output of [main] for a random
    batch of one observation.  [forward] only reads these attributes: it
    draws no random batch and leaves the world as it is. *)
Theorem conv_encoder_stack_and_projection (obs : Shape) (hs : list Z)
    (activation : option Activation) (norm : option string)
    (w w' : World) (self : loc) :
  ConvEncoder.new obs hs activation norm w = (Ok self, w') ->
  exists a c h0 h1 h2 hl act t0 t1 t2 t3 g fs,
    heap w' !! self = Some (ObjConvEncoder a) /\
    shape_getitem obs 0 = Ok c /\
    py_getitem hs 0 = Ok h0 /\ py_getitem hs 1 = Ok h1 /\ py_getitem hs 2 = Ok h2 /\
    py_getitem hs (-1) = Ok hl /\
    activation = Some act /\
    conv_main a = Some [ Learned (Conv2d c h0 1 1) t0; Act act;
                         Learned (Conv2d h0 h1 1 1) t1; Act act;
                         Learned (Conv2d h1 h2 1 1) t2; Act act;
                         Flatten ] /\
    conv_mid a = Some (Learned (Linear fs hl) t3) /\
    dummy_pass_width obs (conv_stack c h0 h1 h2 act t0 t1 t2) g fs /\
    forall x w1, heap w1 !! self = Some (ObjConvEncoder a) ->
      ConvEncoder.forward self x w1 = (conv_forward_result a x, w1).
Proof.
  intros Hrun. apply conv_new_ok_inv in Hrun as (-> & a & g & out & Hbuilt & ->).
  destruct Hbuilt as (c & h0 & h1 & h2 & hl & act & t0 & t1 & t2 & t3 & g' & fs
                      & Hc & Hh0 & Hh1 & Hh2 & Hhl & Hact & _ & Hwidth & ->).
  eexists _, c, h0, h1, h2, hl, act, t0, t1, t2, t3, g', fs. cbn [heap].
  split_and!; [by apply list_lookup_middle|try done..].
  intros x w1 Hself. by apply conv_forward_run.
Qed.

Lemma py_len_set_two_distinct (l : list Z) (a b : Z) :
  a ∈ l -> b ∈ l -> a ≠ b -> 2 <= py_len_set l.
Proof.
  intros Ha Hb Hab. unfold py_len_set.
  assert (Hsub : ({[a]} ∪ {[b]} : gset Z) ⊆ list_to_set l).
  { apply union_subseteq. split; apply singleton_subseteq_l;
      by apply elem_of_list_to_set. }
  apply subseteq_size in Hsub.
  rewrite size_union, !size_singleton in Hsub by set_solver. lia.
Qed.

(** The assertion of the constructor reads the caller's list: two different
    widths between the fourth and the last but one make the construction
    fail. *)
Lemma conv_new_rejects_unequal_res_widths (obs : Shape) (hs : list Z)
    (activation : option Activation) (norm : option string) (w : World) (a b : Z) :
  a ∈ py_slice hs 3 (-1) -> b ∈ py_slice hs 3 (-1) -> a ≠ b ->
  is_ok (ConvEncoder.new obs hs activation norm w).1 = false.
Proof.
  intros Ha Hb Hab.
  destruct (ConvEncoder.new obs hs activation norm w) as [[self|e] w'] eqn:Hrun; [|done].
  apply conv_new_ok_inv in Hrun as (_ & a' & g & out & Hbuilt & _).
  destruct Hbuilt as (c & h0 & h1 & h2 & hl & act & t0 & t1 & t2 & t3 & g' & fs
                      & _ & _ & _ & _ & _ & _ & Hle & _).
  pose proof (py_len_set_two_distinct _ a b Ha Hb Hab). lia.
Qed.

End ConvEncoderTheorems.

(** ** The constructor of VAC *)

Section VACInit.
Context `{Framework}.

Lemma app_middle_snoc {A} (pre post l : list A) (x : A) :
  (pre ++ x :: post) ++ l = pre ++ x :: (post ++ l).
Proof. by rewrite <- app_assoc. Qed.

Lemma vac_setattr_run (pre post : list Object) (a : VACAttrs)
    (f : VACAttrs -> VACAttrs) (w : World) :
  heap w = pre ++ ObjVAC a :: post ->
  vac_setattr (length pre) f w =
    (Ok tt, set_heap (pre ++ ObjVAC (f a) :: post) w).
Proof.
  intros Hheap. unfold vac_setattr, vac_self, deref, store, modify, bind.
  rewrite Hheap, list_lookup_middle by done. cbn.
  by rewrite Hheap, insert_middle.
Qed.

Lemma vac_getattr_at {A} (pre post : list Object) (a : VACAttrs)
    (name : string) (f : VACAttrs -> option A) (w : World) :
  heap w = pre ++ ObjVAC a :: post ->
  vac_getattr (length pre) name f w =
    (match f a with Some v => Ok v | None => Err (AttributeError name) end, w).
Proof.
  intros Hheap. apply vac_getattr_run. rewrite Hheap. by apply list_lookup_middle.
Qed.

Lemma select_encoder_cls_run (obs_shape : Shape) (w : World) :
  VAC.select_encoder_cls obs_shape w =
    (match encoder_cls_of obs_shape with
     | Some cls => Ok cls
     | None =>
         Err (RuntimeError ("not support obs_shape for pre-defined encoder: "
                +:+ shape_str obs_shape +:+ ", please customize your own DQN"))
     end, w).
Proof.
  unfold VAC.select_encoder_cls, encoder_cls_of.
  destruct obs_shape as [n|dims|dims]; cbn [isinstance_int shape_len];
    rewrite ?bind_ret, ?bind_assoc, ?bind_lift, ?bind_ret; try done;
    destruct (py_len dims =? 1); try done;
    rewrite bind_lift; destruct (py_len dims =? 3); done.
Qed.

Lemma ding_new_ok_inv (spec : DingSpec) (w w' : World) (l : loc) :
  VAC.ding_new spec w = (Ok l, w') ->
  l = length (heap w) /\
  exists theta g, ding_init spec (rng w) = (Ok theta, g) /\
    w' = {| rng := g; heap := heap w ++ [ObjDing spec theta];
            stdout := stdout w; calls := calls w |}.
Proof.
  unfold VAC.ding_new. intros Hrun.
  apply bind_ok_inv in Hrun as (theta & w1 & Hsample & Hrun).
  apply sample_ok_inv in Hsample as (g & Hinit & ->).
  unfold alloc in Hrun. injection Hrun as <- <-. split; [done|].
  by exists theta, g.
Qed.

Lemma encoder_new_ok_inv (cls : VAC.EncoderCls) (obs : Shape) (hs : list Z)
    (activation : option Activation) (norm : option string) (w w' : World) (l : loc) :
  VAC.encoder_new cls obs hs activation norm w = (Ok l, w') ->
  l = length (heap w) /\
  exists o g out,
    encoder_built cls obs hs activation norm o /\
    w' = {| rng := g; heap := heap w ++ [o];
            stdout := stdout w ++ out; calls := calls w |}.
Proof.
  destruct cls; cbn [VAC.encoder_new]; intros Hrun.
  - apply ding_new_ok_inv in Hrun as (-> & theta & g & Hinit & ->).
    split; [done|]. eexists _, g, []. split; [by exists theta, (rng w), g|].
    by rewrite app_nil_r.
  - apply conv_new_ok_inv in Hrun as (-> & a & g & out & Hbuilt & ->).
    split; [done|]. eexists _, g, out. split; [|done]. by exists a.
Qed.

Ltac tidy :=
  unfold set_heap, set_rng, set_stdout, set_calls in *;
  cbn [heap rng stdout calls fst snd] in *.
Ltac attrs_simpl Hrun :=
  unfold set_vac_obs_shape, set_vac_action_shape, set_vac_share_encoder, set_vac_encoder,
    set_vac_actor_encoder, set_vac_critic_encoder, set_vac_critic_head,
    set_vac_continuous, set_vac_multi_head, set_vac_actor_head, set_vac_actor,
    set_vac_critic, empty_vac in Hrun;
  cbn [vac_obs_shape vac_action_shape vac_share_encoder vac_encoder vac_actor_encoder
       vac_critic_encoder vac_critic_head vac_continuous vac_multi_head vac_actor_head
       vac_actor vac_critic] in Hrun.
Ltac after_alloc Hrun :=
  tidy; rewrite app_middle_snoc in Hrun; cbn [app] in Hrun;
  rewrite ?length_app in Hrun; cbn [length] in Hrun.
Ltac vstep Hrun hp :=
  lazymatch type of Hrun with
  | bind (bind _ _) _ _ = _ => rewrite bind_assoc in Hrun
  | bind (vac_setattr _ _) _ _ = _ =>
      rewrite bind_run in Hrun;
      erewrite (vac_setattr_run hp) in Hrun by (cbn; reflexivity);
      tidy; attrs_simpl Hrun
  | bind (vac_getattr _ _ _) _ _ = _ =>
      rewrite bind_run in Hrun;
      erewrite (vac_getattr_at hp) in Hrun by (cbn; reflexivity);
      attrs_simpl Hrun
  | bind (VAC.ding_new _) _ _ = _ =>
      let h := fresh "h" in
      let w1 := fresh "w" in
      let Hnew := fresh "Hnew" in
      let theta := fresh "theta" in
      let g := fresh "g" in
      let Hinit := fresh "Hinit" in
      apply bind_ok_inv in Hrun as (h & w1 & Hnew & Hrun);
      apply ding_new_ok_inv in Hnew as (-> & theta & g & Hinit & ->);
      after_alloc Hrun
  | bind (VAC.encoder_new _ _ _ _ _) _ _ = _ =>
      let e := fresh "e" in
      let w1 := fresh "w" in
      let Hnew := fresh "Hnew" in
      let o := fresh "o" in
      let g := fresh "g" in
      let out := fresh "out" in
      let Ho := fresh "Ho" in
      apply bind_ok_inv in Hrun as (e & w1 & Hnew & Hrun);
      apply encoder_new_ok_inv in Hnew as (-> & o & g & out & Ho & ->);
      after_alloc Hrun
  end.

(** [VAC.__init__], when it returns, on a fresh object at the end of the
    heap. *)
Lemma vac_new_ok_inv (obs action : Shape) (share continuous : bool) (ehs : list Z)
    (ahh ahl chh chl : Z) (activation : option Activation) (norm : option string)
    (w w' : World) (self : loc) :
  VAC.new obs action share continuous ehs ahh ahl chh chl activation norm w = (Ok self, w') ->
  self = length (heap w) /\
  vac_built (ding_squeeze obs) (ding_squeeze action) share continuous
    ehs ahh ahl chh chl activation norm w w'.
Proof.
  destruct w as [g0 hp out0 cs]. unfold VAC.new, alloc. rewrite bind_run. tidy.
  intros Hrun.
  apply bind_ok_inv in Hrun as (u & w1 & Hinit & Hrun).
  apply ret_ok_inv in Hrun as [-> ->]. split; [done|].
  unfold VAC.__init__ in Hinit. cbv zeta in Hinit.
  set (s := ding_squeeze obs) in *. set (sa := ding_squeeze action) in *.
  do 2 vstep Hinit hp.
  rewrite bind_run, select_encoder_cls_run in Hinit.
  destruct (encoder_cls_of s) as [cls|] eqn:Hcls; [|done].
  do 2 vstep Hinit hp.
  unfold vac_built, vac_attrs_built, actor_head_spec. cbn [heap stdout calls].
  destruct share.
  - destruct continuous;
      [|destruct (isinstance_int sa) eqn:Hint; cbn [negb] in Hinit];
      repeat vstep Hinit hp;
      erewrite (vac_setattr_run hp) in Hinit by (cbn; reflexivity);
      tidy; attrs_simpl Hinit; injection Hinit as _ <-;
      (exists cls, [o], theta, theta0, g, g1, g1, g2, out);
      (split_and!; [done|done|done|by repeat constructor|done|reflexivity]).
  - destruct continuous;
      [|destruct (isinstance_int sa) eqn:Hint; cbn [negb] in Hinit];
      repeat vstep Hinit hp;
      erewrite (vac_setattr_run hp) in Hinit by (cbn; reflexivity);
      tidy; attrs_simpl Hinit; injection Hinit as _ <-;
      (exists cls, [o; o0], theta, theta0, g1, g2, g2, g3, (out ++ out1));
      (split_and!; [done|done|done|by repeat constructor|done|by rewrite app_assoc]).
Qed.

End VACInit.

(** ** What the constructor of VAC builds *)

Section VACTheorems.
Context `{Framework}.

Lemma lookup_app_add {A} (pre post : list A) (k : nat) :
  (pre ++ post) !! (length pre + k)%nat = post !! k.
Proof.
  rewrite lookup_app_r by lia. f_equal. lia.
Qed.

(** Where the attributes of a built [VAC] point. *)
Lemma vac_built_objects (s sa : Shape) (share continuous : bool) (ehs : list Z)
    (ahh ahl chh chl : Z) (activation : option Activation) (norm : option string)
    (w w' : World) :
  vac_built s sa share continuous ehs ahh ahl chh chl activation norm w w' ->
  let self := length (heap w) in
  let attrs := vac_attrs_built self s sa share continuous in
  heap w' !! self = Some (ObjVAC attrs) /\
  calls w' = calls w /\
  (exists cls, encoder_cls_of s = Some cls /\
     forall e, vac_encoder attrs = Some e \/ vac_actor_encoder attrs = Some e \/
               vac_critic_encoder attrs = Some e ->
       exists o, heap w' !! e = Some o /\
         encoder_built cls s ehs activation norm o) /\
  (exists theta g g',
     ding_init (RegressionHead chh 1 chl activation norm) g = (Ok theta, g') /\
     forall h, vac_critic_head attrs = Some h ->
       heap w' !! h = Some (ObjDing (RegressionHead chh 1 chl activation norm) theta)) /\
  (exists theta g g',
     ding_init (actor_head_spec continuous sa ahh ahl activation norm) g
       = (Ok theta, g') /\
     forall h, vac_actor_head attrs = Some h ->
       heap w' !! h =
         Some (ObjDing (actor_head_spec continuous sa ahh ahl activation norm) theta)).
Proof.
  intros (cls & encoders & theta_c & theta_a & gc & gc' & ga & g & out
          & Hcls & Hinit_c & Hinit_a & Hencoders & Hlen & ->).
  cbn [heap calls]. set (hp := heap w).
  split_and!.
  - by apply list_lookup_middle.
  - done.
  - exists cls. split; [done|]. intros e He.
    destruct share; cbn in He.
    + destruct encoders as [|o1 [|o2 rest]]; try done.
      apply Forall_cons in Hencoders as [Ho1 _].
      destruct He as [[= <-]|[?|?]]; try done.
      exists o1. split; [|done]. by rewrite lookup_app_add.
    + destruct encoders as [|o1 [|o2 [|o3 rest]]]; try done.
      apply Forall_cons in Hencoders as [Ho1 Hencoders].
      apply Forall_cons in Hencoders as [Ho2 _].
      destruct He as [?|[[= <-]|[= <-]]]; try done.
      * exists o1. split; [|done]. by rewrite lookup_app_add.
      * exists o2. split; [|done]. by rewrite lookup_app_add.
  - exists theta_c, gc, gc'. split; [done|]. intros h [= <-].
    rewrite lookup_app_add.
    destruct share.
    + by destruct encoders as [|o1 [|o2 rest]].
    + by destruct encoders as [|o1 [|o2 [|o3 rest]]].
  - exists theta_a, ga, g. split; [done|]. intros h [= <-].
    rewrite lookup_app_add.
    destruct share.
    + by destruct encoders as [|o1 [|o2 rest]].
    + by destruct encoders as [|o1 [|o2 [|o3 rest]]].
Qed.

(** The constructor on a shape of another rank: the exception comes right
    after the two shape attributes are set. *)
Lemma vac_new_unsupported (obs action : Shape) (share continuous : bool) (ehs : list Z)
    (ahh ahl chh chl : Z) (activation : option Activation) (norm : option string)
    (w : World) :
  encoder_cls_of (ding_squeeze obs) = None ->
  VAC.new obs action share continuous ehs ahh ahl chh chl activation norm w =
    (Err (RuntimeError ("not support obs_shape for pre-defined encoder: "
            +:+ shape_str (ding_squeeze obs) +:+ ", please customize your own DQN")),
     {| rng := rng w;
        heap := heap w ++
          [ObjVAC (set_vac_action_shape (ding_squeeze action)
                     (set_vac_obs_shape (ding_squeeze obs) empty_vac))];
        stdout := stdout w;
        calls := calls w |}).
Proof.
  intros Hcls. destruct w as [g0 hp out0 cs].
  unfold VAC.new, alloc. rewrite bind_run. cbn [heap rng stdout calls set_heap].
  unfold VAC.__init__. cbv zeta.
  rewrite bind_run, bind_run.
  erewrite (vac_setattr_run hp) by (cbn; reflexivity).
  rewrite bind_run.
  erewrite (vac_setattr_run hp) by (cbn; reflexivity).
  rewrite bind_run, select_encoder_cls_run, Hcls.
  reflexivity.
Qed.

(** The encoders of a model whose construction returned. *)
Lemma vac_new_encoders (obs action : Shape) (share continuous : bool)
    (ehs : list Z) (ahh ahl chh chl : Z) (activation : option Activation)
    (norm : option string) (w w' : World) (self : loc) (cls : VAC.EncoderCls) :
  encoder_cls_of (ding_squeeze obs) = Some cls ->
  VAC.new obs action share continuous ehs ahh ahl chh chl activation norm w
    = (Ok self, w') ->
  model_encoders cls (ding_squeeze obs) ehs activation norm share self w'.
Proof.
  intros Hcls Hrun.
  apply vac_new_ok_inv in Hrun as [-> Hbuilt].
  apply vac_built_objects in Hbuilt as (Hself & _ & (cls' & Hcls' & Hencoders) & _).
  rewrite Hcls in Hcls'. injection Hcls' as <-.
  eexists. split; [exact Hself|]. split; [done|].
  destruct share.
  - destruct (Hencoders (length (heap w) + 1)%nat) as (o & Ho & Hbuilt); [by left|].
    by exists (length (heap w) + 1)%nat, o.
  - destruct (Hencoders (length (heap w) + 1)%nat) as (oa & Hoa & Hbuilt_a);
      [right; by left|].
    destruct (Hencoders (length (heap w) + 2)%nat) as (oc & Hoc & Hbuilt_c);
      [right; by right|].
    exists (length (heap w) + 1)%nat, (length (heap w) + 2)%nat, oa, oc.
    split_and!; try done. cbn. lia.
Qed.

(** C2. The encoder class follows the rank of the squeezed observation
    shape.  For an integer or a sequence of one size the fully-connected
    encoder is selected, and a model whose construction returns holds
    fully-connected encoders built from the constructor's arguments: one
    under [encoder] when shared, else two different ones under
    [actor_encoder] and [critic_encoder].  For a sequence of three sizes the
    same holds with the convolutional encoder.  With any other rank the
    construction raises the error on the observation shape; the heap then
    holds the new object with its two shape attributes and nothing else new,
    and the random generator has not been used: no encoder and no head was
    created. *)
Theorem encoder_class_follows_rank (obs action : Shape) (share continuous : bool)
    (ehs : list Z) (ahh ahl chh chl : Z) (activation : option Activation)
    (norm : option string) (w : World) :
  let s := ding_squeeze obs in
  let construction :=
    VAC.new obs action share continuous ehs ahh ahl chh chl activation norm w in
  (isinstance_int s = true \/ shape_len s = Ok 1 ->
     VAC.select_encoder_cls s w = (Ok VAC.FCEncoderCls, w) /\
     forall self w', construction = (Ok self, w') ->
       model_encoders VAC.FCEncoderCls s ehs activation norm share self w') /\
  (shape_len s = Ok 3 ->
     VAC.select_encoder_cls s w = (Ok VAC.ConvEncoderCls, w) /\
     forall self w', construction = (Ok self, w') ->
       model_encoders VAC.ConvEncoderCls s ehs activation norm share self w') /\
  (forall n, shape_len s = Ok n -> n ≠ 1 -> n ≠ 3 ->
     construction =
       (Err (RuntimeError ("not support obs_shape for pre-defined encoder: "
               +:+ shape_str s +:+ ", please customize your own DQN")),
        {| rng := rng w;
           heap := heap w ++
             [ObjVAC (set_vac_action_shape (ding_squeeze action)
                        (set_vac_obs_shape s empty_vac))];
           stdout := stdout w;
           calls := calls w |})).
Proof.
  intros s construction. split_and!.
  - intros Hflat.
    assert (Hcls : encoder_cls_of s = Some VAC.FCEncoderCls).
    { destruct s as [n|dims|dims]; cbn in *; try done;
        destruct Hflat as [?|[= ->]]; done. }
    split; [by rewrite select_encoder_cls_run, Hcls|].
    intros self w'. by apply vac_new_encoders.
  - intros Hrank.
    assert (Hcls : encoder_cls_of s = Some VAC.ConvEncoderCls).
    { destruct s as [n|dims|dims]; cbn in *; try done;
        injection Hrank as ->; done. }
    split; [by rewrite select_encoder_cls_run, Hcls|].
    intros self w'. by apply vac_new_encoders.
  - intros n Hn Hn1 Hn3. apply vac_new_unsupported.
    destruct (ding_squeeze obs) as [m|dims|dims]; cbn in *; try done;
      injection Hn as <-;
      (destruct (py_len dims =? 1) eqn:E1; [lia|]);
      (destruct (py_len dims =? 3) eqn:E3; [lia|done]).
Qed.

Ltac read_attr_goal attrs :=
  rewrite bind_run, (vac_getattr_run _ _ _ _ attrs) by (cbn; eassumption).
Ltac attr_inv Hrun attrs v Hv :=
  let w1 := fresh "w" in
  let Hget := fresh "Hget" in
  apply bind_ok_inv in Hrun as (v & w1 & Hget & Hrun);
  apply (vac_getattr_ok_inv _ _ _ _ _ attrs) in Hget as [Hv ->]; [|cbn; eassumption].
Ltac call_inv Hrun v o Ho Hv :=
  let w1 := fresh "w" in
  let Hcall := fresh "Hcall" in
  apply bind_ok_inv in Hrun as (v & w1 & Hcall & Hrun);
  apply call_ok_inv in Hcall as (o & Ho & Hv & ->);
  cbn [heap set_calls] in Ho.
Ltac lift_inv Hrun v Hv :=
  let w1 := fresh "w" in
  apply bind_ok_inv in Hrun as (v & w1 & Hv & Hrun);
  apply lift_ok_inv in Hv as [Hv ->].

(** [compute_actor], when it returns: the actor-side encoder on the input,
    then the actor head on the embedding; the head's output is returned as it
    is, or, for a continuous model, its [mu] and [sigma] as a list of two
    under the key [logit]. *)
Lemma compute_actor_ok_inv (self : loc) (attrs : VACAttrs) (x out : Value) (w w' : World) :
  heap w !! self = Some (ObjVAC attrs) ->
  VAC.compute_actor self x w = (Ok out, w') ->
  exists share encoder head continuous o_encoder o_head embedding head_out,
    vac_share_encoder attrs = Some share /\
    (if share : bool then vac_encoder attrs else vac_actor_encoder attrs) = Some encoder /\
    vac_actor_head attrs = Some head /\
    vac_continuous attrs = Some continuous /\
    heap w !! encoder = Some o_encoder /\
    heap w !! head = Some o_head /\
    object_forward o_encoder x = Ok embedding /\
    object_forward o_head embedding = Ok head_out /\
    w' = set_calls (calls w ++ [(encoder, x); (head, embedding)]) w /\
    if continuous : bool then
      exists mu sigma,
        value_getitem head_out "mu" = Ok mu /\
        value_getitem head_out "sigma" = Ok sigma /\
        out = VDict {[ "logit" := VList [mu; sigma] ]}
    else out = head_out.
Proof.
  intros Hself Hrun. unfold VAC.compute_actor in Hrun.
  attr_inv Hrun attrs share Hshare.
  apply bind_ok_inv in Hrun as (embedding & w1 & Hencoder & Hrun).
  assert (exists encoder o_encoder,
            (if share : bool then vac_encoder attrs else vac_actor_encoder attrs)
              = Some encoder /\
            heap w !! encoder = Some o_encoder /\
            object_forward o_encoder x = Ok embedding /\
            w1 = set_calls (calls w ++ [(encoder, x)]) w)
    as (encoder & o_encoder & Hencoder_attr & Ho_encoder & Hembedding & ->).
  { destruct share; attr_inv Hencoder attrs encoder Hencoder_attr;
      apply call_ok_inv in Hencoder as (o_encoder & ? & ? & ->);
      by exists encoder, o_encoder. }
  attr_inv Hrun attrs actor_head Hhead.
  call_inv Hrun head_out o_head Ho_head Hhead_out.
  attr_inv Hrun attrs continuous Hcontinuous.
  exists share, encoder, actor_head, continuous, o_encoder, o_head, embedding, head_out.
  assert (Hcalls : forall w2,
            w2 = set_calls
                   (calls (set_calls (calls w ++ [(encoder, x)]) w)
                      ++ [(actor_head, embedding)])
                   (set_calls (calls w ++ [(encoder, x)]) w) ->
            w2 = set_calls (calls w ++ [(encoder, x); (actor_head, embedding)]) w).
  { intros w2 ->. unfold set_calls. cbn. by rewrite <- app_assoc. }
  destruct continuous.
  - lift_inv Hrun mu Hmu. lift_inv Hrun sigma Hsigma.
    apply ret_ok_inv in Hrun as [-> Hw'].
    split_and!; try done; [by apply Hcalls|by exists mu, sigma].
  - apply ret_ok_inv in Hrun as [-> Hw'].
    split_and!; try done. by apply Hcalls.
Qed.

(** The actor head of a built model. *)
Lemma actor_head_built (obs action : Shape) (share continuous : bool) (ehs : list Z)
    (ahh ahl chh chl : Z) (activation : option Activation) (norm : option string)
    (w w' : World) (self : loc) :
  VAC.new obs action share continuous ehs ahh ahl chh chl activation norm w = (Ok self, w') ->
  exists attrs head theta,
    heap w' !! self = Some (ObjVAC attrs) /\
    vac_continuous attrs = Some continuous /\
    vac_multi_head attrs =
      Some (if continuous then false else negb (isinstance_int (ding_squeeze action))) /\
    vac_actor_head attrs = Some head /\
    heap w' !! head =
      Some (ObjDing (actor_head_spec continuous (ding_squeeze action) ahh ahl
                       activation norm) theta).
Proof.
  intros Hrun. apply vac_new_ok_inv in Hrun as [-> Hbuilt].
  apply vac_built_objects in Hbuilt
    as (Hself & _ & _ & _ & (theta & g & g' & _ & Hhead)).
  eexists _, _, theta. split_and!; [exact Hself|done|done|done|].
  by apply Hhead.
Qed.

(** *** Running the modes on known objects *)

Section Forward.
Variables (self : loc) (attrs : VACAttrs) (w : World).
Hypothesis Hself : heap w !! self = Some (ObjVAC attrs).
Variables (share continuous : bool) (a_encoder c_encoder a_head c_head : loc).
Hypothesis Hshare : vac_share_encoder attrs = Some share.
Hypothesis Hcontinuous : vac_continuous attrs = Some continuous.
Hypothesis Ha_encoder :
  (if share then vac_encoder attrs else vac_actor_encoder attrs) = Some a_encoder.
Hypothesis Hc_encoder :
  (if share then vac_encoder attrs else vac_critic_encoder attrs) = Some c_encoder.
Hypothesis Ha_head : vac_actor_head attrs = Some a_head.
Hypothesis Hc_head : vac_critic_head attrs = Some c_head.
Variables (oa_encoder oc_encoder oa_head oc_head : Object).
Hypothesis Hoa_encoder : heap w !! a_encoder = Some oa_encoder.
Hypothesis Hoc_encoder : heap w !! c_encoder = Some oc_encoder.
Hypothesis Hoa_head : heap w !! a_head = Some oa_head.
Hypothesis Hoc_head : heap w !! c_head = Some oc_head.
Variables (x a_embedding c_embedding a_out c_out : Value).
Hypothesis Ha_embedding : object_forward oa_encoder x = Ok a_embedding.
Hypothesis Hc_embedding : object_forward oc_encoder x = Ok c_embedding.
Hypothesis Ha_out : object_forward oa_head a_embedding = Ok a_out.
Hypothesis Hc_out : object_forward oc_head c_embedding = Ok c_out.

Lemma compute_actor_run :
  exists w',
    VAC.compute_actor self x w =
      (if continuous then
         match value_getitem a_out "mu", value_getitem a_out "sigma" with
         | Ok mu, Ok sigma => Ok (VDict {[ "logit" := VList [mu; sigma] ]})
         | Err e, _ | Ok _, Err e => Err e
         end
       else Ok a_out, w').
Proof.
  unfold VAC.compute_actor.
  read_attr_goal attrs. rewrite Hshare. rewrite bind_run.
  assert ((if share
           then e <- vac_getattr self "encoder" vac_encoder;; VAC.call e x
           else e <- vac_getattr self "actor_encoder" vac_actor_encoder;; VAC.call e x) w
          = (Ok a_embedding, set_calls (calls w ++ [(a_encoder, x)]) w)) as ->.
  { destruct share; read_attr_goal attrs; rewrite Ha_encoder;
      by rewrite (call_run _ _ _ oa_encoder), Ha_embedding. }
  read_attr_goal attrs. rewrite Ha_head.
  rewrite bind_run, (call_run _ _ _ oa_head), Ha_out by done.
  read_attr_goal attrs. rewrite Hcontinuous.
  destruct continuous; [|by eexists].
  rewrite !bind_lift.
  destruct (value_getitem a_out "mu"); [|by eexists].
  rewrite bind_lift. destruct (value_getitem a_out "sigma"); by eexists.
Qed.

Lemma compute_critic_run :
  exists w',
    VAC.compute_critic self x w =
      (match value_getitem c_out "pred" with
       | Ok pred => Ok (VDict {[ "value" := pred ]})
       | Err e => Err e
       end, w').
Proof.
  unfold VAC.compute_critic.
  read_attr_goal attrs. rewrite Hshare. rewrite bind_run.
  assert ((if share
           then e <- vac_getattr self "encoder" vac_encoder;; VAC.call e x
           else e <- vac_getattr self "critic_encoder" vac_critic_encoder;; VAC.call e x) w
          = (Ok c_embedding, set_calls (calls w ++ [(c_encoder, x)]) w)) as ->.
  { destruct share; read_attr_goal attrs; rewrite Hc_encoder;
      by rewrite (call_run _ _ _ oc_encoder), Hc_embedding. }
  read_attr_goal attrs. rewrite Hc_head.
  rewrite bind_run, (call_run _ _ _ oc_head), Hc_out by done.
  rewrite bind_lift. destruct (value_getitem c_out "pred"); by eexists.
Qed.

Lemma compute_actor_critic_run (logit pred : Value) :
  (if continuous then
     exists mu sigma, value_getitem a_out "mu" = Ok mu /\
       value_getitem a_out "sigma" = Ok sigma /\ logit = VList [mu; sigma]
   else value_getitem a_out "logit" = Ok logit) ->
  value_getitem c_out "pred" = Ok pred ->
  exists w',
    VAC.compute_actor_critic self x w =
      (Ok (VDict (<[ "logit" := logit ]> {[ "value" := pred ]})), w').
Proof.
  intros Hlogit Hpred. unfold VAC.compute_actor_critic.
  read_attr_goal attrs. rewrite Hshare. rewrite bind_run.
  assert (exists w1,
    (if share
     then
       e <- vac_getattr self "encoder" vac_encoder;;
       embedding <- VAC.call e x;; ret (embedding, embedding)
     else
       e <- vac_getattr self "actor_encoder" vac_actor_encoder;;
       actor_embedding <- VAC.call e x;;
       e0 <- vac_getattr self "critic_encoder" vac_critic_encoder;;
       critic_embedding <- VAC.call e0 x;; ret (actor_embedding, critic_embedding)) w
    = (Ok (a_embedding, c_embedding), w1) /\ heap w1 = heap w) as (w1 & -> & Hw1).
  { destruct share.
    - rewrite Ha_encoder in Hc_encoder. injection Hc_encoder as <-.
      rewrite Hoa_encoder in Hoc_encoder. injection Hoc_encoder as <-.
      rewrite Ha_embedding in Hc_embedding. injection Hc_embedding as <-.
      eexists. read_attr_goal attrs. rewrite Ha_encoder.
      rewrite bind_run, (call_run _ _ _ oa_encoder), Ha_embedding by done.
      done.
    - eexists. read_attr_goal attrs. rewrite Ha_encoder.
      rewrite bind_run, (call_run _ _ _ oa_encoder), Ha_embedding by done.
      read_attr_goal attrs. rewrite Hc_encoder.
      rewrite bind_run, (call_run _ _ _ oc_encoder), Hc_embedding by done.
      done. }
  cbn [fst snd].
  rewrite bind_run, (vac_getattr_run _ _ _ _ attrs), Hc_head by by rewrite Hw1.
  rewrite bind_run, (call_run _ _ _ oc_head), Hc_out by by rewrite Hw1.
  rewrite bind_run, (vac_getattr_run _ _ _ _ attrs), Ha_head by (cbn; by rewrite Hw1).
  rewrite bind_run, (call_run _ _ _ oa_head), Ha_out by (cbn; by rewrite Hw1).
  rewrite bind_run, (vac_getattr_run _ _ _ _ attrs), Hcontinuous by (cbn; by rewrite Hw1).
  destruct continuous.
  - destruct Hlogit as (mu & sigma & Hmu & Hsigma & ->).
    rewrite bind_assoc, bind_lift, Hmu, bind_assoc, bind_lift, Hsigma.
    rewrite bind_ret, bind_lift, Hpred. by eexists.
  - rewrite bind_lift, Hlogit, bind_lift, Hpred. by eexists.
Qed.

End Forward.

End VACTheorems.

(** ** Shapes of the outputs *)

Section Shapes.
Import ShapeModel.

Lemma py_getitem_last {A} (l : list A) (x : A) :
  py_getitem l (-1) = Ok x -> last l = Some x.
Proof.
  unfold py_getitem, py_len. cbn [Z.ltb Z.compare].
  destruct (-1 + Z.of_nat (length l) <? 0) eqn:Hneg; [done|].
  rewrite last_lookup.
  replace (Z.to_nat (-1 + Z.of_nat (length l))) with (Nat.pred (length l)) by lia.
  destruct (l !! Nat.pred (length l)); by intros [= ->].
Qed.

Lemma map_last_batch (B i o : Z) : map_last i o [B; i] = Ok [B; o].
Proof. unfold map_last. cbn. by rewrite Z.eqb_refl. Qed.

(** The main stack does the same to every batch size. *)
Lemma conv_stack_batch (c h0 h1 h2 : Z) (act : Activation) (t0 t1 t2 : nat)
    (dims output : list Z) (fs : Z) :
  Sequential_forward (conv_stack c h0 h1 h2 act t0 t1 t2) (1 :: dims) = Ok output ->
  py_getitem output 1 = Ok fs ->
  forall B, Sequential_forward (conv_stack c h0 h1 h2 act t0 t1 t2) (B :: dims)
            = Ok [B; fs].
Proof.
  intros Hrun Hfs B. unfold conv_stack in *.
  destruct dims as [|c' [|h [|w' [|]]]]; try done.
  cbn in Hrun |- *.
  repeat match type of Hrun with
         | context [if ?b then _ else _] => destruct b; cbn in Hrun |- *; [|done]
         end.
  injection Hrun as <-. by injection Hfs as <-.
Qed.

(** What an encoder of a built model returns on a batch: one embedding of
    the last configured hidden size per observation. *)
Lemma encoder_forward_batch (cls : VAC.EncoderCls) (obs : Shape) (ehs : list Z)
    (activation : option Activation) (norm : option string) (o : Object) (hl B : Z) :
  encoder_built cls (squeeze obs) ehs activation norm o ->
  py_getitem ehs (-1) = Ok hl ->
  object_forward o (batch B (squeeze obs)) = Ok (VTensor [B; hl]).
Proof.
  intros Hbuilt Hhl. unfold batch. destruct cls; cbn in Hbuilt.
  - destruct Hbuilt as (theta & g & g' & Hinit & ->).
    cbn. unfold module_forward, module_init in *. cbn.
    destruct (squeeze obs) as [n|dims|dims]; [|done..].
    rewrite (py_getitem_last _ _ Hhl). cbn.
    by rewrite Z.eqb_refl.
  - destruct Hbuilt as (a & -> & Hbuilt).
    destruct Hbuilt as (c & h0 & h1 & h2 & hl' & act & t0 & t1 & t2 & t3 & g & fs
                        & _ & _ & _ & _ & Hhl' & _ & _ & Hwidth & ->).
    rewrite Hhl in Hhl'. injection Hhl' as <-.
    destruct Hwidth as (dims & test_data & g' & output & Hdims & Hrandn & Hpass & Hfs).
    cbn in Hrandn. unfold randn in Hrandn.
    destruct (alloc_check (1 :: dims)); [|done]. injection Hrandn as <- _.
    cbn [object_forward]. unfold conv_forward_result.
    cbn [value_float conv_main conv_mid tensor_float framework].
    assert (obs_dims (squeeze obs) = dims) as ->.
    { by destruct (squeeze obs); cbn in Hdims |- *; try injection Hdims as ->. }
    rewrite (conv_stack_batch _ _ _ _ _ _ _ _ _ _ _ Hpass Hfs).
    cbn. by rewrite Z.eqb_refl.
Qed.

Lemma critic_forward_batch (chh chl : Z) (activation : option Activation)
    (norm : option string) (theta : nat) (B : Z) :
  object_forward (ObjDing (RegressionHead chh 1 chl activation norm) theta)
    (VTensor [B; chh]) = Ok (VDict {[ "pred" := VTensor [B] ]}).
Proof. cbn. unfold module_forward. cbn. by rewrite Z.eqb_refl. Qed.

Lemma multi_head_logits (hidden B : Z) (dims : list Z) :
  rmap (fun d => map_last hidden d [B; hidden]) dims = Ok ((fun d => [B; d]) <$> dims).
Proof.
  induction dims as [|d dims IH]; [done|].
  cbn [rmap fmap list_fmap]. rewrite map_last_batch, IH. done.
Qed.

Lemma multi_head_widths (B : Z) (dims : list Z) :
  Forall2 last_dim (map VTensor ((fun d => [B; d]) <$> dims)) dims.
Proof.
  induction dims as [|d dims IH]; constructor; [|done].
  by exists [B; d].
Qed.

(** What the actor head of a built model returns on a batch of embeddings
    of its hidden size. *)
Lemma actor_forward_batch (continuous : bool) (sa : Shape) (ahh ahl : Z)
    (activation : option Activation) (norm : option string) (theta g g' : nat) (B : Z) :
  module_init (actor_head_spec continuous sa ahh ahl activation norm) g = (Ok theta, g') ->
  exists a_out logit,
    object_forward (ObjDing (actor_head_spec continuous sa ahh ahl activation norm) theta)
      (VTensor [B; ahh]) = Ok a_out /\
    (if continuous then
       exists mu sigma, value_getitem a_out "mu" = Ok mu /\
         value_getitem a_out "sigma" = Ok sigma /\ logit = VList [mu; sigma]
     else value_getitem a_out "logit" = Ok logit) /\
    action_params_width sa continuous logit.
Proof.
  unfold actor_head_spec, action_params_width. intros Hinit.
  destruct continuous; [|destruct (isinstance_int sa) eqn:Hint].
  - destruct sa as [n|dims|dims]; [|done..].
    eexists _, _. cbn. unfold module_forward. cbn. rewrite Z.eqb_refl. cbn.
    split_and!; [done| |].
    + by eexists _, _.
    + eexists n, _, _. split_and!; [done|done|by eexists..].
  - destruct sa as [n|dims|dims]; [|done..].
    eexists _, _. cbn. unfold module_forward. cbn. rewrite Z.eqb_refl. cbn.
    split_and!; [done|done|]. by eexists.
  - destruct sa as [n|dims|dims]; [done|..];
      (eexists _, _; cbn [object_forward ding_forward framework];
       unfold module_forward; cbn [tensor_arg rbind];
       rewrite multi_head_logits; cbn;
       split_and!; [done|done|];
       eexists; split; [done|apply multi_head_widths]).
Qed.

(** The three modes of a built model on a batch, when the encoder's last
    hidden size is the hidden size of both heads. *)
Lemma modes_on_batch (obs action : Shape) (share continuous : bool) (ehs : list Z)
    (ahh ahl chh chl : Z) (activation : option Activation) (norm : option string)
    (w w' : World) (self : loc) (B : Z) :
  VAC.new obs action share continuous ehs ahh ahl chh chl activation norm w = (Ok self, w') ->
  py_getitem ehs (-1) = Ok ahh ->
  py_getitem ehs (-1) = Ok chh ->
  let x := batch B (squeeze obs) in
  (exists out w1 logit,
     VAC.compute_actor self x w' = (Ok out, w1) /\
     value_getitem out "logit" = Ok logit /\
     action_params_width (squeeze action) continuous logit) /\
  (exists out w1,
     VAC.compute_critic self x w' = (Ok out, w1) /\
     value_getitem out "value" = Ok (VTensor [B])) /\
  (exists out w1 logit,
     VAC.compute_actor_critic self x w' = (Ok out, w1) /\
     value_getitem out "value" = Ok (VTensor [B]) /\
     value_getitem out "logit" = Ok logit /\
     action_params_width (squeeze action) continuous logit).
Proof.
  intros Hrun Hahh Hchh x. subst x.
  apply vac_new_ok_inv in Hrun as [-> Hbuilt].
  apply vac_built_objects in Hbuilt
    as (Hself & _ & (cls & Hcls & Hencoders)
        & (theta_c & gc & gc' & _ & Hc_head)
        & (theta_a & ga & ga' & Hinit_a & Ha_head)).
  cbn zeta in *. cbn [ding_squeeze framework] in *.
  set (self := length (heap w)) in *.
  set (attrs := vac_attrs_built self (squeeze obs) (squeeze action) share continuous) in *.
  assert (Hshare : vac_share_encoder attrs = Some share) by done.
  assert (Hcontinuous : vac_continuous attrs = Some continuous) by done.
  assert (Hea : (if share then vac_encoder attrs else vac_actor_encoder attrs)
                = Some (self + 1)%nat) by by destruct share.
  assert (Hec : (if share then vac_encoder attrs else vac_critic_encoder attrs)
                = Some (self + (if share then 1 else 2))%nat) by by destruct share.
  destruct (Hencoders (self + 1)%nat) as (oa & Hoa & Hoa_built).
  { destruct share; cbn; auto. }
  destruct (Hencoders (self + (if share then 1 else 2))%nat) as (oc & Hoc & Hoc_built).
  { destruct share; cbn; auto. }
  pose proof (encoder_forward_batch _ _ _ _ _ _ _ B Hoa_built Hahh) as Ha_embedding.
  pose proof (encoder_forward_batch _ _ _ _ _ _ _ B Hoc_built Hchh) as Hc_embedding.
  pose proof (critic_forward_batch chh chl activation norm theta_c B) as Hc_out.
  destruct (actor_forward_batch continuous (squeeze action) ahh ahl activation norm
              theta_a ga ga' B Hinit_a) as (a_out & logit & Ha_out & Hlogit & Hwidth).
  specialize (Hc_head _ eq_refl). specialize (Ha_head _ eq_refl).
  split_and!.
  - edestruct (compute_actor_run self attrs w' Hself share continuous) as [w1 Hw1];
      [exact Hshare|exact Hcontinuous|exact Hea|exact Hec|reflexivity|exact Hoa|
       exact Ha_head|exact Ha_embedding|exact Ha_out|].
    rewrite Hw1. destruct continuous.
    + destruct Hlogit as (mu & sigma & -> & -> & ->).
      by eexists _, w1, _.
    + by eexists _, w1, logit.
  - edestruct (compute_critic_run self attrs w' Hself share) as [w1 Hw1];
      [exact Hshare|exact Hea|exact Hec|reflexivity|exact Hoc|
       exact Hc_head|exact Hc_embedding|exact Hc_out|].
    rewrite Hw1. by eexists _, w1.
  - edestruct (compute_actor_critic_run self attrs w' Hself share continuous) as [w1 Hw1];
      [exact Hshare|exact Hcontinuous|exact Hea|exact Hec|reflexivity|reflexivity|
       exact Hoa|exact Hoc|exact Ha_head|exact Hc_head|
       exact Ha_embedding|exact Hc_embedding|exact Ha_out|exact Hc_out|
       exact Hlogit|reflexivity|].
    rewrite Hw1. by eexists _, w1, logit.
Qed.

End Shapes.

(** ** The actor's output *)

Section ActorOutput.
Import ShapeModel.

Lemma rmap_length {A B} (f : A -> Result B) (l : list A) (ys : list B) :
  rmap f l = Ok ys -> length ys = length l.
Proof.
  revert ys. induction l as [|a l IH]; intros ys; cbn.
  - by intros [= <-].
  - destruct (f a) as [b|e]; [|done]. cbn.
    destruct (rmap f l) as [bs|e]; [|done]. cbn.
    intros [= <-]. cbn. by rewrite (IH bs).
Qed.

(** C6. [compute_actor] calls the actor-side encoder (the shared one, or
    the actor's own) on the input and the actor head on the embedding.  For a
    continuous model the result is the head's [mu] and [sigma] as a list of
    two under the one key [logit]; otherwise it is what the head returned.
    The head was built by the constructor: a reparameterization head when
    continuous, else a discrete head for an integer action shape and a
    multi-head of discrete heads for a sequence.  In the shape model a
    discrete head returns one tensor of logits and a multi-head one tensor
    per action sub-dimension. *)
Theorem compute_actor_encoder_then_head :
  (forall (C : Carrier) (F : Framework) (self : loc) (attrs : VACAttrs)
          (x out : Value) (w w' : World),
     heap w !! self = Some (ObjVAC attrs) ->
     VAC.compute_actor self x w = (Ok out, w') ->
     exists share encoder head continuous o_encoder o_head embedding head_out,
       vac_share_encoder attrs = Some share /\
       (if share : bool then vac_encoder attrs else vac_actor_encoder attrs)
         = Some encoder /\
       vac_actor_head attrs = Some head /\
       vac_continuous attrs = Some continuous /\
       heap w !! encoder = Some o_encoder /\
       heap w !! head = Some o_head /\
       object_forward o_encoder x = Ok embedding /\
       object_forward o_head embedding = Ok head_out /\
       w' = set_calls (calls w ++ [(encoder, x); (head, embedding)]) w /\
       if continuous : bool then
         exists mu sigma,
           value_getitem head_out "mu" = Ok mu /\
           value_getitem head_out "sigma" = Ok sigma /\
           out = VDict {[ "logit" := VList [mu; sigma] ]}
       else out = head_out) /\
  (forall (C : Carrier) (F : Framework) (obs action : Shape) (share continuous : bool)
          (ehs : list Z) (ahh ahl chh chl : Z) (activation : option Activation)
          (norm : option string) (w w' : World) (self : loc),
     VAC.new obs action share continuous ehs ahh ahl chh chl activation norm w
       = (Ok self, w') ->
     exists attrs head theta,
       heap w' !! self = Some (ObjVAC attrs) /\
       vac_continuous attrs = Some continuous /\
       vac_actor_head attrs = Some head /\
       heap w' !! head =
         Some (ObjDing
                 (if continuous then
                    ReparameterizationHead ahh (ding_squeeze action) ahl "independent"
                      activation norm
                  else if isinstance_int (ding_squeeze action) then
                    DiscreteHead ahh (ding_squeeze action) ahl activation norm
                  else
                    MultiHead DiscreteHeadCls ahh (ding_squeeze action) ahl
                      activation norm)
                 theta)) /\
  (forall hidden n layer_num activation norm theta x v,
     module_forward (DiscreteHead hidden (SInt n) layer_num activation norm) theta x = Ok v ->
     exists t, v = VDict {[ "logit" := VTensor t ]}) /\
  (forall cls hidden dims layer_num activation norm theta x v,
     module_forward (MultiHead cls hidden (STuple dims) layer_num activation norm) theta x
       = Ok v ->
     exists ts, v = VDict {[ "logit" := VList (map VTensor ts) ]} /\
       length ts = length dims).
Proof.
  split_and!.
  - intros C F self attrs x out w w' Hself Hrun.
    by apply (compute_actor_ok_inv self attrs).
  - intros C F obs action share continuous ehs ahh ahl chh chl activation norm w w' self Hrun.
    apply actor_head_built in Hrun
      as (attrs & head & theta & Hself & Hcontinuous & _ & Hhead & Hobject).
    by exists attrs, head, theta.
  - intros hidden n layer_num activation norm theta x v. unfold module_forward.
    destruct (tensor_arg x) as [t|e]; [|done]. cbn.
    destruct (map_last hidden n t) as [y|e]; [|done]. cbn.
    intros [= <-]. by exists y.
  - intros cls hidden dims layer_num activation norm theta x v. unfold module_forward.
    destruct (tensor_arg x) as [t|e]; [|done]. cbn.
    destruct (rmap _ dims) as [ys|e] eqn:Hys; [|done]. cbn.
    intros [= <-]. exists ys. split; [done|]. by apply rmap_length in Hys.
Qed.

(** C4. For a model whose construction returns and whose encoder's last
    hidden size is the hidden size of both heads, on a batch of [B]
    observations: the action parameters of [compute_actor] have the size of
    the action space as their last size, the [value] of [compute_critic] is a
    tensor of the one size [B], and [compute_actor_critic] returns both.  For
    [VAC(64, 64)] and a batch of 4 vectors of length 64,
    [compute_actor_critic] returns a value of shape (4,) and logits of shape
    (4, 64). *)
Theorem output_shapes_on_a_batch :
  (forall (obs action : Shape) (share continuous : bool) (ehs : list Z)
          (ahh ahl chh chl : Z) (activation : option Activation) (norm : option string)
          (w w' : World) (self : loc) (B : Z),
     VAC.new obs action share continuous ehs ahh ahl chh chl activation norm w
       = (Ok self, w') ->
     py_getitem ehs (-1) = Ok ahh ->
     py_getitem ehs (-1) = Ok chh ->
     let x := batch B (squeeze obs) in
     (exists out w1 logit,
        VAC.compute_actor self x w' = (Ok out, w1) /\
        value_getitem out "logit" = Ok logit /\
        action_params_width (squeeze action) continuous logit) /\
     (exists out w1,
        VAC.compute_critic self x w' = (Ok out, w1) /\
        value_getitem out "value" = Ok (VTensor [B])) /\
     (exists out w1 logit,
        VAC.compute_actor_critic self x w' = (Ok out, w1) /\
        value_getitem out "value" = Ok (VTensor [B]) /\
        value_getitem out "logit" = Ok logit /\
        action_params_width (squeeze action) continuous logit)) /\
  (exists self w out w1,
     VAC.new_default (SInt 64) (SInt 64) world0 = (Ok self, w) /\
     VAC.compute_actor_critic self (VTensor [4; 64]) w = (Ok out, w1) /\
     value_getitem out "value" = Ok (VTensor [4]) /\
     value_getitem out "logit" = Ok (VTensor [4; 64])).
Proof.
  split.
  - intros. by eapply modes_on_batch.
  - exists 0%nat, flat_model.2.
    exists (VDict (<[ "logit" := @VTensor carrier [4; 64] ]>
                     {[ "value" := @VTensor carrier [4] ]})).
    exists (VAC.compute_actor_critic 0%nat (@VTensor carrier [4; 64]) flat_model.2).2.
    split_and!.
    + vm_compute. reflexivity.
    + vm_compute. reflexivity.
    + vm_compute. reflexivity.
    + vm_compute. reflexivity.
Qed.

(** C1, at the input where the code departs from it: six hidden sizes,
    of which the fourth and fifth should each give a residual block.  The
    construction returns, the attribute holds [[4, 4, 4]], and the stack is
    the three convolutions with their activations and the flatten, without a
    residual block. *)
Theorem six_hidden_sizes_build_no_residual_block :
  py_slice [32; 64; 64; 128; 128; 256] 3 (-1) = [128; 128] /\
  deep_encoder.1 = Ok 0%nat /\
  exists a,
    heap deep_encoder.2 !! 0%nat = Some (ObjConvEncoder a) /\
    conv_hidden_size_list a = Some [4; 4; 4] /\
    conv_main a = Some (conv_stack 3 32 64 64 ReLU 0%nat 1%nat 2%nat) /\
    res_blocks (conv_stack 3 32 64 64 ReLU 0%nat 1%nat 2%nat) = [] /\
    conv_mid a = Some (Learned (Linear 1600 256) 4%nat).
Proof.
  split_and!; [reflexivity..|].
  eexists. split_and!; reflexivity.
Qed.

End ActorOutput.

(** ** The theorems at concrete models *)

Section Witnesses.
Import ShapeModel ShapeBuffers.

Lemma forward_rejects_unknown_mode_witness :
  ("compute_value" ∉ VAC.mode) /\
  VAC.forward 0%nat flat_input "compute_value" flat_model.2 =
    (Err (AssertionError
       "not support forward mode: compute_value/['compute_actor', 'compute_critic', 'compute_actor_critic']"),
     flat_model.2).
Proof.
  assert (Hmode : "compute_value" ∉ VAC.mode).
  { unfold VAC.mode. intros Hin.
    repeat (apply elem_of_cons in Hin as [Hin|Hin]; [discriminate Hin|]).
    by apply elem_of_nil in Hin. }
  split; [exact Hmode|].
  exact (forward_rejects_unknown_mode 0%nat flat_input "compute_value" flat_model.2 Hmode).
Defined.

Lemma shared_encoder_is_run_once_witness :
  heap flat_model.2 !! 0%nat = Some (ObjVAC flat_attrs) /\
  vac_share_encoder flat_attrs = Some true /\
  VAC.compute_actor_critic 0%nat flat_input flat_model.2 =
    (Ok flat_output, (VAC.compute_actor_critic 0%nat flat_input flat_model.2).2) /\
  exists encoder critic_head actor_head embedding logit value a c wa wc,
    vac_encoder flat_attrs = Some encoder /\
    vac_critic_head flat_attrs = Some critic_head /\
    vac_actor_head flat_attrs = Some actor_head /\
    (VAC.call encoder flat_input flat_model.2).1 = Ok embedding /\
    calls (VAC.compute_actor_critic 0%nat flat_input flat_model.2).2 =
      calls flat_model.2 ++
        [(encoder, flat_input); (critic_head, embedding); (actor_head, embedding)] /\
    flat_output = VDict (<[ "logit" := logit ]> {[ "value" := value ]}) /\
    VAC.compute_actor 0%nat flat_input flat_model.2 = (Ok a, wa) /\
    VAC.compute_critic 0%nat flat_input flat_model.2 = (Ok c, wc) /\
    value_getitem a "logit" = Ok logit /\
    value_getitem c "value" = Ok value.
Proof.
  assert (H1 : heap flat_model.2 !! 0%nat = Some (ObjVAC flat_attrs))
    by (vm_compute; reflexivity).
  assert (H2 : vac_share_encoder flat_attrs = Some true) by reflexivity.
  assert (H3 : VAC.compute_actor_critic 0%nat flat_input flat_model.2 =
                 (Ok flat_output,
                  (VAC.compute_actor_critic 0%nat flat_input flat_model.2).2))
    by (vm_compute; reflexivity).
  split_and!; [exact H1|exact H2|exact H3|].
  exact (shared_encoder_is_run_once 0%nat flat_attrs flat_input flat_output
           flat_model.2 _ H1 H2 H3).
Defined.

Lemma encoder_class_follows_rank_witness :
  ((isinstance_int (squeeze (SInt 64)) = true \/ shape_len (squeeze (SInt 64)) = Ok 1) /\
   VAC.new (SInt 64) (SInt 64) true false [128; 128; 64] 64 2 64 1 (Some ReLU) None
       world0 = (Ok 0%nat, flat_model.2) /\
   VAC.select_encoder_cls (squeeze (SInt 64)) world0 = (Ok VAC.FCEncoderCls, world0) /\
   model_encoders VAC.FCEncoderCls (squeeze (SInt 64)) [128; 128; 64] (Some ReLU) None
     true 0%nat flat_model.2) /\
  (shape_len (squeeze (STuple [3; 4; 4])) = Ok 3 /\
   VAC.new (STuple [3; 4; 4]) (STuple [6; 6]) false false [16; 16; 16; 64]
       64 2 64 1 (Some ReLU) None world0 = (Ok 0%nat, image_model.2) /\
   VAC.select_encoder_cls (squeeze (STuple [3; 4; 4])) world0
     = (Ok VAC.ConvEncoderCls, world0) /\
   model_encoders VAC.ConvEncoderCls (squeeze (STuple [3; 4; 4])) [16; 16; 16; 64]
     (Some ReLU) None false 0%nat image_model.2) /\
  (shape_len (squeeze (STuple [3; 4])) = Ok 2 /\
   VAC.new (STuple [3; 4]) (SInt 64) true false [128; 128; 64] 64 2 64 1
       (Some ReLU) None world0 =
     (Err (RuntimeError
        "not support obs_shape for pre-defined encoder: (3, 4), please customize your own DQN"),
      {| rng := 0%nat;
         heap := [ObjVAC (set_vac_action_shape (SInt 64)
                            (set_vac_obs_shape (STuple [3; 4]) empty_vac))];
         stdout := [];
         calls := [] |})).
Proof.
  assert (Hflat : isinstance_int (squeeze (SInt 64)) = true \/
                  shape_len (squeeze (SInt 64)) = Ok 1) by (left; reflexivity).
  assert (Hflat_run : VAC.new (SInt 64) (SInt 64) true false [128; 128; 64] 64 2 64 1
                        (Some ReLU) None world0 = (Ok 0%nat, flat_model.2))
    by (vm_compute; reflexivity).
  assert (Himage : shape_len (squeeze (STuple [3; 4; 4])) = Ok 3) by reflexivity.
  assert (Himage_run : VAC.new (STuple [3; 4; 4]) (STuple [6; 6]) false false
                         [16; 16; 16; 64] 64 2 64 1 (Some ReLU) None world0
                       = (Ok 0%nat, image_model.2))
    by (vm_compute; reflexivity).
  assert (Hrank : shape_len (squeeze (STuple [3; 4])) = Ok 2) by reflexivity.
  split_and!.
  - exact Hflat.
  - exact Hflat_run.
  - destruct (encoder_class_follows_rank (SInt 64) (SInt 64) true false
                [128; 128; 64] 64 2 64 1 (Some ReLU) None world0)
      as (Hfc & _ & _).
    exact (proj1 (Hfc Hflat)).
  - destruct (encoder_class_follows_rank (SInt 64) (SInt 64) true false
                [128; 128; 64] 64 2 64 1 (Some ReLU) None world0)
      as (Hfc & _ & _).
    exact (proj2 (Hfc Hflat) 0%nat flat_model.2 Hflat_run).
  - exact Himage.
  - exact Himage_run.
  - destruct (encoder_class_follows_rank (STuple [3; 4; 4]) (STuple [6; 6]) false false
                [16; 16; 16; 64] 64 2 64 1 (Some ReLU) None world0)
      as (_ & Hconv & _).
    exact (proj1 (Hconv Himage)).
  - destruct (encoder_class_follows_rank (STuple [3; 4; 4]) (STuple [6; 6]) false false
                [16; 16; 16; 64] 64 2 64 1 (Some ReLU) None world0)
      as (_ & Hconv & _).
    exact (proj2 (Hconv Himage) 0%nat image_model.2 Himage_run).
  - exact Hrank.
  - destruct (encoder_class_follows_rank (STuple [3; 4]) (SInt 64) true false
                [128; 128; 64] 64 2 64 1 (Some ReLU) None world0)
      as (_ & _ & Hother).
    apply (Hother 2 Hrank); lia.
Defined.

Lemma conv_encoder_stack_and_projection_witness :
  ConvEncoder.new (STuple [3; 5; 5]) [32; 64; 64; 128; 128; 256] (Some ReLU) None world0
    = (Ok 0%nat, deep_encoder.2) /\
  exists a c h0 h1 h2 hl act t0 t1 t2 t3 g fs,
    heap deep_encoder.2 !! 0%nat = Some (ObjConvEncoder a) /\
    shape_getitem (STuple [3; 5; 5]) 0 = Ok c /\
    py_getitem [32; 64; 64; 128; 128; 256] 0 = Ok h0 /\
    py_getitem [32; 64; 64; 128; 128; 256] 1 = Ok h1 /\
    py_getitem [32; 64; 64; 128; 128; 256] 2 = Ok h2 /\
    py_getitem [32; 64; 64; 128; 128; 256] (-1) = Ok hl /\
    Some ReLU = Some act /\
    conv_main a = Some [ Learned (Conv2d c h0 1 1) t0; Act act;
                         Learned (Conv2d h0 h1 1 1) t1; Act act;
                         Learned (Conv2d h1 h2 1 1) t2; Act act;
                         Flatten ] /\
    conv_mid a = Some (Learned (Linear fs hl) t3) /\
    dummy_pass_width (STuple [3; 5; 5]) (conv_stack c h0 h1 h2 act t0 t1 t2) g fs /\
    forall x w1, heap w1 !! 0%nat = Some (ObjConvEncoder a) ->
      ConvEncoder.forward 0%nat x w1 = (conv_forward_result a x, w1).
Proof.
  assert (Hrun : ConvEncoder.new (STuple [3; 5; 5]) [32; 64; 64; 128; 128; 256]
                   (Some ReLU) None world0 = (Ok 0%nat, deep_encoder.2))
    by (vm_compute; reflexivity).
  split; [exact Hrun|].
  exact (conv_encoder_stack_and_projection _ _ _ _ _ _ _ Hrun).
Defined.

Lemma hidden_size_list_override_empties_res_loop_witness :
  ConvEncoder.new (STuple [3; 5; 5]) [32; 64; 64; 128; 128; 256] (Some ReLU) None world0
    = (Ok 0%nat, deep_encoder.2) /\
  hidden_size_list_overridden (length (heap world0)) deep_encoder.2 /\
  py_range 3 (py_len [4; 4; 4] - 1) = [] /\
  forall self, Ok 0%nat = Ok self ->
    exists a c h0 h1 h2 act t0 t1 t2,
      heap deep_encoder.2 !! self = Some (ObjConvEncoder a) /\
      conv_hidden_size_list a = Some [4; 4; 4] /\
      conv_main a = Some (conv_stack c h0 h1 h2 act t0 t1 t2) /\
      res_blocks (conv_stack c h0 h1 h2 act t0 t1 t2) = [].
Proof.
  assert (Hrun : ConvEncoder.new (STuple [3; 5; 5]) [32; 64; 64; 128; 128; 256]
                   (Some ReLU) None world0 = (Ok 0%nat, deep_encoder.2))
    by (vm_compute; reflexivity).
  split; [exact Hrun|].
  exact (hidden_size_list_override_empties_res_loop _ _ _ _ _ _ _ Hrun).
Defined.

Lemma output_shapes_on_a_batch_witness :
  VAC.new (STuple [3; 4; 4]) (STuple [6; 6]) false false [16; 16; 16; 64]
      64 2 64 1 (Some ReLU) None world0 = (Ok 0%nat, image_model.2) /\
  py_getitem [16; 16; 16; 64] (-1) = Ok 64 /\
  (exists out w1 logit,
     VAC.compute_actor 0%nat (batch 7 (squeeze (STuple [3; 4; 4]))) image_model.2
       = (Ok out, w1) /\
     value_getitem out "logit" = Ok logit /\
     action_params_width (squeeze (STuple [6; 6])) false logit) /\
  (exists out w1,
     VAC.compute_critic 0%nat (batch 7 (squeeze (STuple [3; 4; 4]))) image_model.2
       = (Ok out, w1) /\
     value_getitem out "value" = Ok (VTensor [7])) /\
  (exists out w1 logit,
     VAC.compute_actor_critic 0%nat (batch 7 (squeeze (STuple [3; 4; 4]))) image_model.2
       = (Ok out, w1) /\
     value_getitem out "value" = Ok (VTensor [7]) /\
     value_getitem out "logit" = Ok logit /\
     action_params_width (squeeze (STuple [6; 6])) false logit).
Proof.
  assert (Hrun : VAC.new (STuple [3; 4; 4]) (STuple [6; 6]) false false [16; 16; 16; 64]
                   64 2 64 1 (Some ReLU) None world0 = (Ok 0%nat, image_model.2))
    by (vm_compute; reflexivity).
  assert (Hlast : py_getitem [16; 16; 16; 64] (-1) = Ok 64) by reflexivity.
  split; [exact Hrun|]. split; [exact Hlast|].
  exact (proj1 output_shapes_on_a_batch _ _ _ _ _ _ _ _ _ _ _ _ _ _ 7 Hrun Hlast Hlast).
Defined.

Lemma compute_actor_encoder_then_head_witness :
  heap flat_model.2 !! 0%nat = Some (ObjVAC flat_attrs) /\
  VAC.compute_actor 0%nat flat_input flat_model.2 =
    (Ok (VDict {[ "logit" := VTensor [4; 64] ]}),
     (VAC.compute_actor 0%nat flat_input flat_model.2).2) /\
  exists share encoder head continuous o_encoder o_head embedding head_out,
    vac_share_encoder flat_attrs = Some share /\
    (if share : bool then vac_encoder flat_attrs else vac_actor_encoder flat_attrs)
      = Some encoder /\
    vac_actor_head flat_attrs = Some head /\
    vac_continuous flat_attrs = Some continuous /\
    heap flat_model.2 !! encoder = Some o_encoder /\
    heap flat_model.2 !! head = Some o_head /\
    object_forward o_encoder flat_input = Ok embedding /\
    object_forward o_head embedding = Ok head_out /\
    (VAC.compute_actor 0%nat flat_input flat_model.2).2 =
      set_calls (calls flat_model.2 ++ [(encoder, flat_input); (head, embedding)])
        flat_model.2 /\
    if continuous : bool then
      exists mu sigma,
        value_getitem head_out "mu" = Ok mu /\
        value_getitem head_out "sigma" = Ok sigma /\
        VDict {[ "logit" := VTensor [4; 64] ]} = VDict {[ "logit" := VList [mu; sigma] ]}
    else VDict {[ "logit" := VTensor [4; 64] ]} = head_out.
Proof.
  assert (H1 : heap flat_model.2 !! 0%nat = Some (ObjVAC flat_attrs))
    by (vm_compute; reflexivity).
  assert (H2 : VAC.compute_actor 0%nat flat_input flat_model.2 =
                 (Ok (VDict {[ "logit" := VTensor [4; 64] ]}),
                  (VAC.compute_actor 0%nat flat_input flat_model.2).2))
    by (vm_compute; reflexivity).
  split; [exact H1|]. split; [exact H2|].
  exact (proj1 compute_actor_encoder_then_head _ _ 0%nat flat_attrs flat_input _
           flat_model.2 _ H1 H2).
Defined.


End Witnesses.

(** * Further properties *)

(** ** The modes on any model *)

Section MoreModes.
Context `{Framework}.

Ltac read_attr_goal attrs :=
  rewrite bind_run, (vac_getattr_run _ _ _ _ attrs) by (cbn; eassumption).
Ltac attr_inv Hrun attrs v Hv :=
  let w1 := fresh "w" in
  let Hget := fresh "Hget" in
  apply bind_ok_inv in Hrun as (v & w1 & Hget & Hrun);
  apply (vac_getattr_ok_inv _ _ _ _ _ attrs) in Hget as [Hv ->]; [|cbn; eassumption].
Ltac call_inv Hrun v o Ho Hv :=
  let w1 := fresh "w" in
  let Hcall := fresh "Hcall" in
  apply bind_ok_inv in Hrun as (v & w1 & Hcall & Hrun);
  apply call_ok_inv in Hcall as (o & Ho & Hv & ->);
  cbn [heap set_calls] in Ho.
Ltac lift_inv Hrun v Hv :=
  let w1 := fresh "w" in
  apply bind_ok_inv in Hrun as (v & w1 & Hv & Hrun);
  apply lift_ok_inv in Hv as [Hv ->].

(** [compute_critic], when it returns. *)
Lemma compute_critic_ok_inv (self : loc) (attrs : VACAttrs) (x out : Value) (w w' : World) :
  heap w !! self = Some (ObjVAC attrs) ->
  VAC.compute_critic self x w = (Ok out, w') ->
  exists share encoder critic_head o_encoder o_head embedding head_out vpred,
    vac_share_encoder attrs = Some share /\
    (if share : bool then vac_encoder attrs else vac_critic_encoder attrs) = Some encoder /\
    vac_critic_head attrs = Some critic_head /\
    heap w !! encoder = Some o_encoder /\
    heap w !! critic_head = Some o_head /\
    object_forward o_encoder x = Ok embedding /\
    object_forward o_head embedding = Ok head_out /\
    value_getitem head_out "pred" = Ok vpred /\
    out = VDict {[ "value" := vpred ]} /\
    w' = set_calls (calls w ++ [(encoder, x); (critic_head, embedding)]) w.
Proof.
  intros Hself Hrun. unfold VAC.compute_critic in Hrun.
  attr_inv Hrun attrs share Hshare.
  apply bind_ok_inv in Hrun as (embedding & w1 & Hencoder & Hrun).
  assert (exists encoder o_encoder,
            (if share : bool then vac_encoder attrs else vac_critic_encoder attrs)
              = Some encoder /\
            heap w !! encoder = Some o_encoder /\
            object_forward o_encoder x = Ok embedding /\
            w1 = set_calls (calls w ++ [(encoder, x)]) w)
    as (encoder & o_encoder & Hencoder_attr & Ho_encoder & Hembedding & ->).
  { destruct share; attr_inv Hencoder attrs encoder Hencoder_attr;
      apply call_ok_inv in Hencoder as (o_encoder & ? & ? & ->);
      by exists encoder, o_encoder. }
  attr_inv Hrun attrs critic_head Hhead.
  call_inv Hrun head_out o_head Ho_head Hhead_out.
  lift_inv Hrun vpred Hpred.
  apply ret_ok_inv in Hrun as [-> ->].
  exists share, encoder, critic_head, o_encoder, o_head, embedding, head_out, vpred.
  split_and!; try done.
  unfold set_calls. cbn. by rewrite <- app_assoc.
Qed.

(** X1. When [compute_actor] and [compute_critic] both return on an input
    and the actor's result has a [logit] entry, [compute_actor_critic]
    returns on that input, with that [logit] and the critic's [value]. *)
Theorem separate_modes_give_the_joint_mode (self : loc) (attrs : VACAttrs)
    (x a c logit : Value) (w wa wc : World) :
  heap w !! self = Some (ObjVAC attrs) ->
  VAC.compute_actor self x w = (Ok a, wa) ->
  VAC.compute_critic self x w = (Ok c, wc) ->
  value_getitem a "logit" = Ok logit ->
  exists value w',
    value_getitem c "value" = Ok value /\
    VAC.compute_actor_critic self x w =
      (Ok (VDict (<[ "logit" := logit ]> {[ "value" := value ]})), w').
Proof.
  intros Hself Hactor Hcritic Hlogit.
  apply (compute_actor_ok_inv self attrs) in Hactor
    as (share & ea & ha & continuous & oea & oha & a_emb & a_out
        & Hshare & Hea & Hha & Hcontinuous & Hoea & Hoha & Ha_emb & Ha_out & _ & Hout);
    [|done].
  apply (compute_critic_ok_inv self attrs) in Hcritic
    as (share' & ec & hc & oec & ohc & c_emb & c_out & vpred
        & Hshare' & Hec & Hhc & Hoec & Hohc & Hc_emb & Hc_out & Hpred & -> & _);
    [|done].
  rewrite Hshare in Hshare'. injection Hshare' as <-.
  exists vpred.
  edestruct (compute_actor_critic_run self attrs w Hself share continuous)
    as [w' Hw'];
    [exact Hshare|exact Hcontinuous|exact Hea|exact Hec|exact Hha|exact Hhc|
     exact Hoea|exact Hoec|exact Hoha|exact Hohc|
     exact Ha_emb|exact Hc_emb|exact Ha_out|exact Hc_out| |exact Hpred|].
  2:{ exists w'. split; [|exact Hw']. cbn. by rewrite lookup_singleton_eq. }
  destruct continuous.
  - destruct Hout as (mu & sigma & Hmu & Hsigma & ->).
    cbn in Hlogit. rewrite lookup_singleton_eq in Hlogit. injection Hlogit as <-.
    by exists mu, sigma.
  - by subst a.
Qed.

(** X2. With separate encoders, [compute_actor_critic] makes four calls:
    the actor's encoder and then the critic's encoder on the input, the
    critic head on the critic's embedding, the actor head on the actor's.
    Its [logit] and [value] are the values [compute_actor] and
    [compute_critic] return on the same input. *)
Theorem separate_encoders_are_run_once_each (self : loc) (attrs : VACAttrs)
    (x out : Value) (w w' : World) :
  heap w !! self = Some (ObjVAC attrs) ->
  vac_share_encoder attrs = Some false ->
  VAC.compute_actor_critic self x w = (Ok out, w') ->
  exists actor_encoder critic_encoder critic_head actor_head
         actor_embedding critic_embedding logit value a c wa wc,
    vac_actor_encoder attrs = Some actor_encoder /\
    vac_critic_encoder attrs = Some critic_encoder /\
    vac_critic_head attrs = Some critic_head /\
    vac_actor_head attrs = Some actor_head /\
    (VAC.call actor_encoder x w).1 = Ok actor_embedding /\
    (VAC.call critic_encoder x w).1 = Ok critic_embedding /\
    calls w' = calls w ++
      [(actor_encoder, x); (critic_encoder, x);
       (critic_head, critic_embedding); (actor_head, actor_embedding)] /\
    out = VDict (<[ "logit" := logit ]> {[ "value" := value ]}) /\
    VAC.compute_actor self x w = (Ok a, wa) /\
    VAC.compute_critic self x w = (Ok c, wc) /\
    value_getitem a "logit" = Ok logit /\
    value_getitem c "value" = Ok value.
Proof.
  intros Hself Hshared Hrun.
  unfold VAC.compute_actor_critic in Hrun.
  attr_inv Hrun attrs shared Hshared'.
  rewrite Hshared in Hshared'. injection Hshared' as <-.
  rewrite bind_assoc in Hrun. attr_inv Hrun attrs actor_encoder Hactor_encoder.
  rewrite bind_assoc in Hrun. call_inv Hrun a_emb oea Hoea Ha_emb.
  rewrite bind_assoc in Hrun. attr_inv Hrun attrs critic_encoder Hcritic_encoder.
  rewrite bind_assoc in Hrun. call_inv Hrun c_emb oec Hoec Hc_emb.
  rewrite bind_ret in Hrun. cbn [fst snd] in Hrun.
  attr_inv Hrun attrs critic_head Hcritic_head.
  call_inv Hrun cv oc Hoc Hcv.
  attr_inv Hrun attrs actor_head Hactor_head.
  call_inv Hrun av oa Hoa Hav.
  attr_inv Hrun attrs continuous Hcontinuous.
  apply bind_ok_inv in Hrun as (logit & w4 & Hlogit & Hrun).
  lift_inv Hrun vpred Hpred.
  apply ret_ok_inv in Hrun as [-> ->].
  edestruct (compute_critic_run self attrs w Hself false) as [wc Hcritic];
    [exact Hshared|exact Hactor_encoder|exact Hcritic_encoder|exact Hcritic_head|
     exact Hoec|exact Hoc|exact Hc_emb|exact Hcv|].
  rewrite Hpred in Hcritic.
  edestruct (compute_actor_run self attrs w Hself false continuous) as [wa Hactor];
    [exact Hshared|exact Hcontinuous|exact Hactor_encoder|exact Hcritic_encoder|
     exact Hactor_head|exact Hoea|exact Hoa|exact Ha_emb|exact Hav|].
  exists actor_encoder, critic_encoder, critic_head, actor_head, a_emb, c_emb, logit, vpred.
  assert (Hcalls : forall w5,
    w5 = set_calls (calls w ++ [(actor_encoder, x)]) w -> calls w5 = calls w ++ [(actor_encoder, x)])
    by (by intros w5 ->).
  destruct continuous.
  - lift_inv Hlogit mu Hmu. lift_inv Hlogit sigma Hsigma.
    apply ret_ok_inv in Hlogit as [-> ->].
    rewrite Hmu, Hsigma in Hactor.
    eexists _, _, wa, wc. split_and!; try done.
    + by rewrite (call_run _ _ _ oea Hoea).
    + by rewrite (call_run _ _ _ oec Hoec).
    + cbn. by rewrite <- !app_assoc.
  - apply lift_ok_inv in Hlogit as [Hlogit ->].
    eexists _, _, wa, wc. split_and!; try done.
    + by rewrite (call_run _ _ _ oea Hoea).
    + by rewrite (call_run _ _ _ oec Hoec).
    + cbn. by rewrite <- !app_assoc.
Qed.

(** X3. When the shared encoder raises on an input, each of the three
    modes raises that exception; the call of the encoder is the only one
    made, so no head runs. *)
Theorem shared_encoder_failure_stops_every_mode (self encoder : loc) (attrs : VACAttrs)
    (o : Object) (x : Value) (e : Exception) (w : World) :
  heap w !! self = Some (ObjVAC attrs) ->
  vac_share_encoder attrs = Some true ->
  vac_encoder attrs = Some encoder ->
  heap w !! encoder = Some o ->
  object_forward o x = Err e ->
  let w' := set_calls (calls w ++ [(encoder, x)]) w in
  VAC.compute_actor self x w = (Err e, w') /\
  VAC.compute_critic self x w = (Err e, w') /\
  VAC.compute_actor_critic self x w = (Err e, w').
Proof.
  intros Hself Hshare Hencoder Ho Hforward w'. subst w'.
  unfold VAC.compute_actor, VAC.compute_critic, VAC.compute_actor_critic.
  split_and!.
  - read_attr_goal attrs. rewrite Hshare.
    rewrite bind_assoc. read_attr_goal attrs. rewrite Hencoder.
    by rewrite bind_run, (call_run _ _ _ o Ho), Hforward.
  - read_attr_goal attrs. rewrite Hshare.
    rewrite bind_assoc. read_attr_goal attrs. rewrite Hencoder.
    by rewrite bind_run, (call_run _ _ _ o Ho), Hforward.
  - read_attr_goal attrs. rewrite Hshare.
    rewrite bind_assoc. read_attr_goal attrs. rewrite Hencoder.
    by rewrite bind_assoc, bind_run, (call_run _ _ _ o Ho), Hforward.
Qed.

(** X4. With separate encoders, when the critic's encoder raises on an
    input on which the actor's encoder returns: [compute_critic] raises after
    the one call of the critic's encoder, and [compute_actor_critic] raises
    the same exception after the calls of the two encoders, before any
    head. *)
Theorem critic_encoder_failure_stops_before_the_heads (self actor_encoder critic_encoder : loc)
    (attrs : VACAttrs) (oa oc : Object) (x embedding : Value) (e : Exception) (w : World) :
  heap w !! self = Some (ObjVAC attrs) ->
  vac_share_encoder attrs = Some false ->
  vac_actor_encoder attrs = Some actor_encoder ->
  vac_critic_encoder attrs = Some critic_encoder ->
  heap w !! actor_encoder = Some oa ->
  heap w !! critic_encoder = Some oc ->
  object_forward oa x = Ok embedding ->
  object_forward oc x = Err e ->
  VAC.compute_critic self x w =
    (Err e, set_calls (calls w ++ [(critic_encoder, x)]) w) /\
  VAC.compute_actor_critic self x w =
    (Err e, set_calls (calls w ++ [(actor_encoder, x); (critic_encoder, x)]) w).
Proof.
  intros Hself Hshare Hea Hec Hoa Hoc Hforward_a Hforward_c.
  unfold VAC.compute_critic, VAC.compute_actor_critic.
  split.
  - read_attr_goal attrs. rewrite Hshare.
    rewrite bind_assoc. read_attr_goal attrs. rewrite Hec.
    by rewrite bind_run, (call_run _ _ _ oc Hoc), Hforward_c.
  - read_attr_goal attrs. rewrite Hshare.
    rewrite bind_assoc. read_attr_goal attrs. rewrite Hea.
    rewrite bind_assoc, bind_run, (call_run _ _ _ oa Hoa), Hforward_a.
    rewrite bind_assoc. read_attr_goal attrs. rewrite Hec.
    rewrite bind_assoc, bind_run, (call_run _ _ _ oc) by done.
    rewrite Hforward_c. unfold set_calls. cbn. by rewrite <- app_assoc.
Qed.

(** X5. [compute_actor] of a discrete model hands the head's output on
    without looking into it, while [compute_actor_critic] reads its [logit]
    entry: when both separate modes return and the actor's result has no
    [logit] entry, the joint mode raises the error of that lookup. *)
Theorem joint_mode_needs_the_logit_entry (self : loc) (attrs : VACAttrs)
    (x a c : Value) (e : Exception) (w wa wc : World) :
  heap w !! self = Some (ObjVAC attrs) ->
  VAC.compute_actor self x w = (Ok a, wa) ->
  VAC.compute_critic self x w = (Ok c, wc) ->
  value_getitem a "logit" = Err e ->
  vac_continuous attrs = Some false /\
  exists w', VAC.compute_actor_critic self x w = (Err e, w').
Proof.
  intros Hself Hactor Hcritic Hlogit.
  apply (compute_actor_ok_inv self attrs) in Hactor
    as (share & ea & ha & continuous & oea & oha & a_emb & a_out
        & Hshare & Hea & Hha & Hcontinuous & Hoea & Hoha & Ha_emb & Ha_out & _ & Hout);
    [|done].
  apply (compute_critic_ok_inv self attrs) in Hcritic
    as (share' & ec & hc & oec & ohc & c_emb & c_out & vpred
        & Hshare' & Hec & Hhc & Hoec & Hohc & Hc_emb & Hc_out & Hpred & -> & _);
    [|done].
  rewrite Hshare in Hshare'. injection Hshare' as <-.
  destruct continuous.
  { destruct Hout as (mu & sigma & _ & _ & ->).
    cbn in Hlogit. by rewrite lookup_singleton_eq in Hlogit. }
  subst a. split; [done|].
  unfold VAC.compute_actor_critic.
  read_attr_goal attrs. rewrite Hshare. rewrite bind_run.
  assert (exists w1,
    (if share
     then
       e <- vac_getattr self "encoder" vac_encoder;;
       embedding <- VAC.call e x;; ret (embedding, embedding)
     else
       e <- vac_getattr self "actor_encoder" vac_actor_encoder;;
       actor_embedding <- VAC.call e x;;
       e0 <- vac_getattr self "critic_encoder" vac_critic_encoder;;
       critic_embedding <- VAC.call e0 x;; ret (actor_embedding, critic_embedding)) w
    = (Ok (a_emb, c_emb), w1) /\ heap w1 = heap w) as (w1 & -> & Hw1).
  { destruct share.
    - rewrite Hea in Hec. injection Hec as <-.
      rewrite Hoea in Hoec. injection Hoec as <-.
      rewrite Ha_emb in Hc_emb. injection Hc_emb as <-.
      eexists. read_attr_goal attrs. rewrite Hea.
      rewrite bind_run, (call_run _ _ _ oea), Ha_emb by done. done.
    - eexists. read_attr_goal attrs. rewrite Hea.
      rewrite bind_run, (call_run _ _ _ oea), Ha_emb by done.
      read_attr_goal attrs. rewrite Hec.
      rewrite bind_run, (call_run _ _ _ oec), Hc_emb by done. done. }
  cbn [fst snd].
  rewrite bind_run, (vac_getattr_run _ _ _ _ attrs), Hhc by by rewrite Hw1.
  rewrite bind_run, (call_run _ _ _ ohc), Hc_out by by rewrite Hw1.
  rewrite bind_run, (vac_getattr_run _ _ _ _ attrs), Hha by (cbn; by rewrite Hw1).
  rewrite bind_run, (call_run _ _ _ oha), Ha_out by (cbn; by rewrite Hw1).
  rewrite bind_run, (vac_getattr_run _ _ _ _ attrs), Hcontinuous by (cbn; by rewrite Hw1).
  rewrite bind_lift, Hlogit. by eexists.
Qed.

(** X6. When the critic head's output is a dict without a [pred] entry,
    [compute_critic] raises [KeyError] on that key, after the encoder and the
    head have both been called. *)
Theorem critic_needs_the_pred_entry (self encoder critic_head : loc) (attrs : VACAttrs)
    (share : bool) (oe oh : Object) (x embedding : Value) (d : gmap string Value)
    (w : World) :
  heap w !! self = Some (ObjVAC attrs) ->
  vac_share_encoder attrs = Some share ->
  (if share then vac_encoder attrs else vac_critic_encoder attrs) = Some encoder ->
  vac_critic_head attrs = Some critic_head ->
  heap w !! encoder = Some oe ->
  heap w !! critic_head = Some oh ->
  object_forward oe x = Ok embedding ->
  object_forward oh embedding = Ok (VDict d) ->
  d !! "pred" = None ->
  VAC.compute_critic self x w =
    (Err (KeyError "pred"),
     set_calls (calls w ++ [(encoder, x); (critic_head, embedding)]) w).
Proof.
  intros Hself Hshare Hencoder Hhead Hoe Hoh Hembedding Hout Hpred.
  unfold VAC.compute_critic.
  read_attr_goal attrs. rewrite Hshare. rewrite bind_run.
  assert ((if share
           then e <- vac_getattr self "encoder" vac_encoder;; VAC.call e x
           else e <- vac_getattr self "critic_encoder" vac_critic_encoder;; VAC.call e x) w
          = (Ok embedding, set_calls (calls w ++ [(encoder, x)]) w)) as ->.
  { destruct share; read_attr_goal attrs; rewrite Hencoder;
      by rewrite (call_run _ _ _ oe), Hembedding. }
  read_attr_goal attrs. rewrite Hhead.
  rewrite bind_run, (call_run _ _ _ oh), Hout by done.
  rewrite bind_lift. cbn [value_getitem]. rewrite Hpred.
  unfold set_calls. cbn. by rewrite <- app_assoc.
Qed.

End MoreModes.

(** ** The constructor of ConvEncoder, step by step *)

Section ConvOutcome.
Context `{Framework}.

(** One round of the loop over the convolutions, run forward. *)
Lemma conv_round_run (pre post : list Object) (a : ConvEncoderAttrs)
    (hs ks ss : list Z) (i input k s : Z) (act : option Activation)
    (layers : list (option Layer)) (w : World) :
  heap w = pre ++ ObjConvEncoder a :: post ->
  conv_act a = Some act ->
  py_getitem ks i = Ok k -> py_getitem ss i = Ok s ->
  ConvEncoder.conv_round (length pre) hs ks ss i (layers, input) w =
    match py_getitem hs i with
    | Err e => (Err e, w)
    | Ok h =>
        match nn_init (Conv2d input h k s) (rng w) with
        | (Err e, g) => (Err e, set_rng g w)
        | (Ok theta, g) =>
            (Ok (layers ++ [Some (Learned (Conv2d input h k s) theta); act_layer act], h),
             set_rng g w)
        end
    end.
Proof.
  intros Hheap Hact Hk Hs. unfold ConvEncoder.conv_round. cbn [fst snd].
  rewrite bind_lift. destruct (py_getitem hs i) as [h|e] eqn:Hh; [|done].
  rewrite bind_lift, Hk, bind_lift, Hs.
  unfold nn_new. rewrite bind_assoc, bind_run. unfold sample.
  destruct (nn_init (Conv2d input h k s) (rng w)) as [[theta|e] g]; [|done].
  rewrite bind_ret, bind_run.
  rewrite (conv_getattr_at pre post a) by done. rewrite Hact.
  rewrite bind_lift. unfold ret. by rewrite <- app_assoc.
Qed.

Ltac tidy_goal :=
  unfold set_heap, set_rng, set_stdout, set_calls;
  cbn [heap rng stdout calls fst snd].
Ltac set_step hp :=
  rewrite bind_run;
  erewrite (conv_setattr_run hp []) by (cbn; reflexivity);
  tidy_goal.
Ltac round_step hp :=
  rewrite bind_run;
  erewrite (conv_round_run hp []) by (cbn; reflexivity);
  tidy_goal.

(** The constructor is its step-by-step outcome. *)
Lemma conv_new_is_outcome (obs : Shape) (hs : list Z) (activation : option Activation)
    (norm : option string) (w : World) :
  ConvEncoder.new obs hs activation norm w = conv_new_outcome obs hs activation w.
Proof.
  destruct w as [g0 hp out0 cs].
  unfold ConvEncoder.new, alloc, conv_new_outcome, conv_world, conv_attrs_head.
  rewrite bind_run. tidy_goal.
  unfold ConvEncoder.__init__. cbv zeta.
  change (py_range 0 (py_len [1; 1; 1])) with [0; 1; 2].
  rewrite bind_run. do 4 set_step hp.
  rewrite bind_lift. destruct (shape_getitem obs 0) as [c|e]; [|done].
  rewrite bind_run. cbn [for_each].
  round_step hp. destruct (py_getitem hs 0) as [h0|e]; [|done].
  destruct (nn_init (Conv2d c h0 1 1) g0) as [[t0|e] g1]; [|done].
  round_step hp. destruct (py_getitem hs 1) as [h1|e]; [|done].
  destruct (nn_init (Conv2d h0 h1 1 1) g1) as [[t1|e] g2]; [|done].
  round_step hp. destruct (py_getitem hs 2) as [h2|e]; [|done].
  destruct (nn_init (Conv2d h1 h2 1 1) g2) as [[t2|e] g3]; [|done].
  unfold ret at 1. cbn [fst snd].
  rewrite bind_run. unfold py_assert.
  destruct (py_len_set (py_slice hs 3 (-1)) <=? 1); cbn [negb]; [|done].
  unfold ret at 1.
  rewrite bind_run. erewrite (conv_getattr_at hp []) by (cbn; reflexivity).
  cbn [conv_hidden_size_list set_conv_hidden_size_list].
  change (py_range 3 (py_len [4; 4; 4] - 1)) with (@nil Z).
  cbn [for_each]. rewrite bind_ret.
  rewrite bind_run. unfold nn_Sequential. unfold ret at 1.
  change (seq_entry <$> _) with (conv_entries c h0 h1 h2 activation t0 t1 t2).
  set_step hp.
  rewrite bind_run. unfold ConvEncoder._get_flatten_size.
  rewrite bind_run. erewrite (conv_getattr_at hp []) by (cbn; reflexivity).
  cbn [conv_obs_shape set_conv_main set_conv_hidden_size_list set_conv_act
       set_conv_obs_shape empty_conv].
  rewrite bind_lift. destruct (shape_unpack obs) as [dims|e]; [|done].
  rewrite bind_run. unfold sample. tidy_goal.
  destruct (torch_randn (1 :: dims) g3) as [[test_data|e] g4]; [|done].
  unfold print, modify. rewrite !bind_run. tidy_goal.
  erewrite (conv_getattr_at hp []) by (cbn; reflexivity).
  cbn [conv_main set_conv_main]. rewrite bind_lift.
  unfold flatten_size_prints. rewrite <- app_assoc. cbn [app].
  destruct (Sequential_forward _ test_data) as [output|e]; [|done].
  unfold lift at 1.
  destruct (py_getitem (tensor_shape output) 1) as [fs|e]; [|done].
  rewrite bind_lift. destruct (py_getitem hs (-1)) as [hl|e]; [|done].
  rewrite bind_run. unfold nn_new. rewrite bind_run. unfold sample. tidy_goal.
  destruct (nn_init (Linear fs hl) g4) as [[t3|e] g5]; [|done].
  unfold ret at 1.
  erewrite (conv_setattr_run hp []) by (cbn; reflexivity).
  reflexivity.
Qed.

(** X7. An observation shape without a first entry stops the constructor
    at [obs_shape[0]]: an integer gives [TypeError], an empty sequence
    [IndexError].  No layer has been created then: the generator is untouched,
    nothing was printed, and the new object has only the three attributes
    assigned so far. *)
Theorem conv_new_needs_a_channel_count (obs : Shape) (hs : list Z)
    (activation : option Activation) (norm : option string) (w : World) :
  isinstance_int obs = true \/ shape_len obs = Ok 0 ->
  ConvEncoder.new obs hs activation norm w =
    (Err (if isinstance_int obs
          then TypeError "'int' object is not subscriptable"
          else IndexError),
     conv_world w (rng w) (conv_attrs_head obs activation) (stdout w)).
Proof.
  intros Hobs. rewrite conv_new_is_outcome. unfold conv_new_outcome.
  destruct obs as [n|dims|dims]; cbn [isinstance_int shape_getitem]; [done|..];
    (destruct Hobs as [Hint|Hlen]; [done|]);
    cbn [shape_len] in Hlen; injection Hlen as Hlen;
    (destruct dims as [|d dims]; [done|]);
    unfold py_len in Hlen; cbn [length] in Hlen; lia.
Qed.

Lemma py_getitem_lookup {A} (l : list A) (i : Z) (x : A) :
  0 <= i -> py_getitem l i = Ok x -> l !! Z.to_nat i = Some x.
Proof.
  intros Hi. unfold py_getitem.
  destruct (i <? 0) eqn:Hneg; [lia|]. rewrite Hneg.
  destruct (l !! Z.to_nat i); by intros [= ->].
Qed.

Lemma py_getitem_error {A} (l : list A) (i : Z) (e : Exception) :
  py_getitem l i = Err e -> e = IndexError.
Proof.
  unfold py_getitem.
  destruct (_ <? 0); [by intros [= <-]|].
  destruct (l !! _); [done|by intros [= <-]].
Qed.

(** X8. With fewer than three hidden sizes the constructor raises.  The
    exception is [IndexError], unless [obs_shape[0]] or the constructor of
    one of the convolutions raised before; the object is left without a layer
    stack and nothing was printed. *)
Theorem conv_new_needs_three_hidden_sizes (obs : Shape) (hs : list Z)
    (activation : option Activation) (norm : option string) (w : World) :
  (length hs < 3)%nat ->
  exists e g,
    ConvEncoder.new obs hs activation norm w =
      (Err e, conv_world w g (conv_attrs_head obs activation) (stdout w)) /\
    (e = IndexError \/ shape_getitem obs 0 = Err e \/
     exists spec g0 g1, nn_init spec g0 = (Err e, g1)).
Proof.
  intros Hlen. rewrite conv_new_is_outcome. unfold conv_new_outcome.
  destruct (shape_getitem obs 0) as [c|e]; [|by eexists _, _; eauto].
  destruct (py_getitem hs 0) as [h0|e] eqn:Hh0;
    [|apply py_getitem_error in Hh0 as ->; by eexists _, _; eauto].
  destruct (nn_init (Conv2d c h0 1 1) (rng w)) as [[t0|e] g1] eqn:Ht0;
    [|eexists _, _; eauto 10].
  destruct (py_getitem hs 1) as [h1|e] eqn:Hh1;
    [|apply py_getitem_error in Hh1 as ->; by eexists _, _; eauto].
  destruct (nn_init (Conv2d h0 h1 1 1) g1) as [[t1|e] g2] eqn:Ht1;
    [|eexists _, _; eauto 10].
  destruct (py_getitem hs 2) as [h2|e] eqn:Hh2;
    [|apply py_getitem_error in Hh2 as ->; by eexists _, _; eauto].
  apply py_getitem_lookup in Hh2; [|lia].
  apply lookup_lt_Some in Hh2. cbn in Hh2. lia.
Qed.

(** X9. The assertion is on the list the caller passed: when two of the
    sizes between the fourth and the last but one differ, the constructor
    raises.  The exception is the [AssertionError] on the residual widths,
    unless [obs_shape[0]] or the constructor of one of the convolutions
    raised before; the object is left without a layer stack. *)
Theorem conv_new_asserts_equal_res_widths (obs : Shape) (hs : list Z)
    (activation : option Activation) (norm : option string) (w : World) (a b : Z) :
  a ∈ py_slice hs 3 (-1) -> b ∈ py_slice hs 3 (-1) -> a ≠ b ->
  exists e g,
    ConvEncoder.new obs hs activation norm w =
      (Err e, conv_world w g (conv_attrs_head obs activation) (stdout w)) /\
    (e = AssertionError "Please indicate the same hidden size for res block parts" \/
     shape_getitem obs 0 = Err e \/
     exists spec g0 g1, nn_init spec g0 = (Err e, g1)).
Proof.
  intros Ha Hb Hab.
  pose proof (py_len_set_two_distinct _ a b Ha Hb Hab) as Hsize.
  assert (Hhs : exists h0 h1 h2 rest, hs = h0 :: h1 :: h2 :: rest).
  { destruct hs as [|h0 [|h1 [|h2 rest]]]; try by apply elem_of_nil in Ha.
    by exists h0, h1, h2, rest. }
  destruct Hhs as (h0 & h1 & h2 & rest & ->).
  rewrite conv_new_is_outcome. unfold conv_new_outcome.
  destruct (shape_getitem obs 0) as [c|e]; [|by eexists _, _; eauto].
  change (py_getitem (h0 :: h1 :: h2 :: rest) 0) with (Ok h0).
  change (py_getitem (h0 :: h1 :: h2 :: rest) 1) with (Ok h1).
  change (py_getitem (h0 :: h1 :: h2 :: rest) 2) with (Ok h2).
  cbv iota.
  destruct (nn_init (Conv2d c h0 1 1) (rng w)) as [[t0|e] g1] eqn:Ht0;
    [|eexists _, _; eauto 10].
  destruct (nn_init (Conv2d h0 h1 1 1) g1) as [[t1|e] g2] eqn:Ht1;
    [|eexists _, _; eauto 10].
  destruct (nn_init (Conv2d h1 h2 1 1) g2) as [[t2|e] g3] eqn:Ht2;
    [|eexists _, _; eauto 10].
  destruct (py_len_set _ <=? 1) eqn:Hle; [lia|].
  cbn [negb]. by eexists _, _; eauto.
Qed.

(** X10. The constructor does not replace a missing activation by a
    default: with [activation=None] it never returns.  [nn.Sequential] takes
    the [None] entries, so [main] is assigned and [_get_flatten_size] draws
    and prints its batch; then the pass through [main] reaches the first
    [None].  Where the same arguments with an activation build an encoder,
    [None] raises the [TypeError] of calling [None] and leaves what that
    construction leaves short of its last step: the same convolutions with
    [None] in the places of the activation, the same two lines printed, no
    [mid], and the generator before the draw of the linear layer. *)
Theorem conv_new_rejects_no_activation (obs : Shape) (hs : list Z)
    (norm : option string) (w : World) :
  is_ok (ConvEncoder.new obs hs None norm w).1 = false /\
  forall act self w1,
    ConvEncoder.new obs hs (Some act) norm w = (Ok self, w1) ->
    exists c h0 h1 h2 hl fs t0 t1 t2 t3 g test_data,
      w1 = conv_world w (rng w1)
             {| conv_obs_shape := Some obs;
                conv_act := Some (Some act);
                conv_hidden_size_list := Some [4; 4; 4];
                conv_main := Some (conv_stack c h0 h1 h2 act t0 t1 t2);
                conv_mid := Some (Learned (Linear fs hl) t3) |}
             (stdout w ++ flatten_size_prints test_data) /\
      nn_init (Linear fs hl) g = (Ok t3, rng w1) /\
      ConvEncoder.new obs hs None norm w =
        (Err (TypeError "'NoneType' object is not callable"),
         conv_world w g
           {| conv_obs_shape := Some obs;
              conv_act := Some None;
              conv_hidden_size_list := Some [4; 4; 4];
              conv_main := Some [ Learned (Conv2d c h0 1 1) t0; NoModule;
                                  Learned (Conv2d h0 h1 1 1) t1; NoModule;
                                  Learned (Conv2d h1 h2 1 1) t2; NoModule;
                                  Flatten ];
              conv_mid := None |}
           (stdout w ++ flatten_size_prints test_data)).
Proof.
  split.
  - destruct (ConvEncoder.new obs hs None norm w) as [[self|e] w'] eqn:Hrun; [|done].
    apply conv_new_ok_inv in Hrun as (_ & a & g & out & Hbuilt & _).
    by destruct Hbuilt as (c & h0 & h1 & h2 & hl & act & t0 & t1 & t2 & t3 & g' & fs
                           & _ & _ & _ & _ & _ & ? & _).
  - intros act self w1. rewrite !conv_new_is_outcome. unfold conv_new_outcome.
    destruct (shape_getitem obs 0) as [c|e]; [|done].
    destruct (py_getitem hs 0) as [h0|e]; [|done].
    destruct (nn_init (Conv2d c h0 1 1) (rng w)) as [[t0|e] g1]; [|done].
    destruct (py_getitem hs 1) as [h1|e]; [|done].
    destruct (nn_init (Conv2d h0 h1 1 1) g1) as [[t1|e] g2]; [|done].
    destruct (py_getitem hs 2) as [h2|e]; [|done].
    destruct (nn_init (Conv2d h1 h2 1 1) g2) as [[t2|e] g3]; [|done].
    destruct (negb _); [done|]. cbv zeta.
    destruct (shape_unpack obs) as [dims|e]; [|done].
    destruct (torch_randn (1 :: dims) g3) as [[test_data|e] g4]; [|done].
    unfold conv_entries.
    cbn [Sequential_forward seq_entry act_layer fmap option_fmap option_map default].
    destruct (nn_forward (Learned (Conv2d c h0 1 1) t0) test_data) as [y|e]; [|done].
    match goal with
    | |- context [match ?pass with Ok _ => _ | Err _ => _ end = (Ok self, w1)] =>
        destruct pass as [output|e]; [|done]
    end.
    destruct (py_getitem (tensor_shape output) 1) as [fs|e]; [|done].
    destruct (py_getitem hs (-1)) as [hl|e]; [|done].
    destruct (nn_init (Linear fs hl) g4) as [[t3|e] g5] eqn:Hmid; [|done].
    intros [= _ <-].
    by exists c, h0, h1, h2, hl, fs, t0, t1, t2, t3, g4, test_data.
Qed.

(** The constructor in a world where each of its steps succeeds. *)
Lemma conv_new_run (obs : Shape) (hs : list Z) (norm : option string) (w : World)
    (c h0 h1 h2 hl : Z) (act : Activation) (t0 t1 t2 t3 : Params)
    (g1 g2 g3 g4 g5 : Rng) (dims : list Z) (test_data output : Tensor) (fs : Z) :
  shape_getitem obs 0 = Ok c ->
  py_getitem hs 0 = Ok h0 -> py_getitem hs 1 = Ok h1 -> py_getitem hs 2 = Ok h2 ->
  py_getitem hs (-1) = Ok hl ->
  py_len_set (py_slice hs 3 (-1)) <= 1 ->
  nn_init (Conv2d c h0 1 1) (rng w) = (Ok t0, g1) ->
  nn_init (Conv2d h0 h1 1 1) g1 = (Ok t1, g2) ->
  nn_init (Conv2d h1 h2 1 1) g2 = (Ok t2, g3) ->
  shape_unpack obs = Ok dims ->
  torch_randn (1 :: dims) g3 = (Ok test_data, g4) ->
  Sequential_forward (conv_stack c h0 h1 h2 act t0 t1 t2) test_data = Ok output ->
  py_getitem (tensor_shape output) 1 = Ok fs ->
  nn_init (Linear fs hl) g4 = (Ok t3, g5) ->
  ConvEncoder.new obs hs (Some act) norm w =
    (Ok (length (heap w)),
     conv_world w g5
       {| conv_obs_shape := Some obs;
          conv_act := Some (Some act);
          conv_hidden_size_list := Some [4; 4; 4];
          conv_main := Some (conv_stack c h0 h1 h2 act t0 t1 t2);
          conv_mid := Some (Learned (Linear fs hl) t3) |}
       (stdout w ++ flatten_size_prints test_data)).
Proof.
  intros Hc Hh0 Hh1 Hh2 Hhl Hle Ht0 Ht1 Ht2 Hdims Hrandn Hpass Hfs Hmid.
  rewrite conv_new_is_outcome. unfold conv_new_outcome.
  rewrite Hc, Hh0, Ht0, Hh1, Ht1, Hh2, Ht2.
  apply Z.leb_le in Hle. rewrite Hle. cbn [negb].
  change (conv_entries c h0 h1 h2 (Some act) t0 t1 t2)
    with (conv_stack c h0 h1 h2 act t0 t1 t2).
  rewrite Hdims, Hrandn. cbv zeta.
  by rewrite Hpass, Hfs, Hhl, Hmid.
Qed.

(** X11. The constructor returns exactly when each of its steps succeeds.
    It then has used the random generator five times, in this order: for the
    three convolutions, for the random batch of [_get_flatten_size], and for
    the linear layer, whose input width is read off the batch's way through
    the stack; it has printed the batch and its shape; and the new object,
    with all five attributes, is the last of the heap. *)
Theorem conv_new_returns_iff (obs : Shape) (hs : list Z) (activation : option Activation)
    (norm : option string) (w w' : World) (self : loc) :
  ConvEncoder.new obs hs activation norm w = (Ok self, w') <->
  exists c h0 h1 h2 hl act t0 t1 t2 t3 g1 g2 g3 g4 g5 dims test_data output fs,
    shape_getitem obs 0 = Ok c /\
    py_getitem hs 0 = Ok h0 /\ py_getitem hs 1 = Ok h1 /\ py_getitem hs 2 = Ok h2 /\
    py_getitem hs (-1) = Ok hl /\
    activation = Some act /\
    py_len_set (py_slice hs 3 (-1)) <= 1 /\
    nn_init (Conv2d c h0 1 1) (rng w) = (Ok t0, g1) /\
    nn_init (Conv2d h0 h1 1 1) g1 = (Ok t1, g2) /\
    nn_init (Conv2d h1 h2 1 1) g2 = (Ok t2, g3) /\
    shape_unpack obs = Ok dims /\
    torch_randn (1 :: dims) g3 = (Ok test_data, g4) /\
    Sequential_forward (conv_stack c h0 h1 h2 act t0 t1 t2) test_data = Ok output /\
    py_getitem (tensor_shape output) 1 = Ok fs /\
    nn_init (Linear fs hl) g4 = (Ok t3, g5) /\
    self = length (heap w) /\
    w' = conv_world w g5
           {| conv_obs_shape := Some obs;
              conv_act := Some (Some act);
              conv_hidden_size_list := Some [4; 4; 4];
              conv_main := Some (conv_stack c h0 h1 h2 act t0 t1 t2);
              conv_mid := Some (Learned (Linear fs hl) t3) |}
           (stdout w ++ flatten_size_prints test_data).
Proof.
  split.
  - rewrite conv_new_is_outcome. unfold conv_new_outcome.
    destruct (shape_getitem obs 0) as [c|e] eqn:E1; [|done].
    destruct (py_getitem hs 0) as [h0|e] eqn:E2; [|done].
    destruct (nn_init (Conv2d c h0 1 1) (rng w)) as [[t0|e] g1] eqn:E3; [|done].
    destruct (py_getitem hs 1) as [h1|e] eqn:E4; [|done].
    destruct (nn_init (Conv2d h0 h1 1 1) g1) as [[t1|e] g2] eqn:E5; [|done].
    destruct (py_getitem hs 2) as [h2|e] eqn:E6; [|done].
    destruct (nn_init (Conv2d h1 h2 1 1) g2) as [[t2|e] g3] eqn:E7; [|done].
    destruct (py_len_set _ <=? 1) eqn:Hle; cbn [negb]; [|done].
    cbv zeta.
    destruct (shape_unpack obs) as [dims|e] eqn:E8; [|done].
    destruct (torch_randn (1 :: dims) g3) as [[test_data|e] g4] eqn:E9; [|done].
    destruct (Sequential_forward _ test_data) as [output|e] eqn:E10; [|done].
    destruct activation as [act|].
    2: { pose proof (Sequential_forward_none_second
                       (Learned (Conv2d c h0 1 1) t0)
                       [Learned (Conv2d h0 h1 1 1) t1; NoModule;
                        Learned (Conv2d h1 h2 1 1) t2; NoModule; Flatten]
                       test_data) as Hnone.
         unfold conv_entries in E10. cbn [seq_entry act_layer fmap option_fmap
           option_map default] in E10. by rewrite E10 in Hnone. }
    change (conv_entries c h0 h1 h2 (Some act) t0 t1 t2)
      with (conv_stack c h0 h1 h2 act t0 t1 t2) in *.
    destruct (py_getitem (tensor_shape output) 1) as [fs|e] eqn:E11; [|done].
    destruct (py_getitem hs (-1)) as [hl|e] eqn:E12; [|done].
    destruct (nn_init (Linear fs hl) g4) as [[t3|e] g5] eqn:E13; [|done].
    intros [= <- <-].
    exists c, h0, h1, h2, hl, act, t0, t1, t2, t3, g1, g2, g3, g4, g5,
      dims, test_data, output, fs.
    split_and!; try done. lia.
  - intros (c & h0 & h1 & h2 & hl & act & t0 & t1 & t2 & t3 & g1 & g2 & g3 & g4 & g5
            & dims & test_data & output & fs
            & Hc & Hh0 & Hh1 & Hh2 & Hhl & -> & Hle & Ht0 & Ht1 & Ht2 & Hdims & Hrandn
            & Hpass & Hfs & Hmid & -> & ->).
    by eapply conv_new_run.
Qed.

End ConvOutcome.
(** ** The convolutional encoder on images, in shapes *)

Section ImageShapes.
Import ShapeModel.

Lemma conv_out_unit (size : Z) : conv_out size 1 1 = size.
Proof. unfold conv_out. rewrite Z.div_1_r. lia. Qed.

(** A convolution of kernel 1 and stride 1 keeps the height and the
    width. *)
Lemma conv_unit_on_image (cin cout : Z) (t : nat) (B c' h w : Z) :
  layer_forward (Learned (Conv2d cin cout 1 1) t) [B; c'; h; w] =
    if (1 <=? cin) && (1 <=? cout) && (c' =? cin) && (1 <=? h) && (1 <=? w)
    then Ok [B; cout; h; w]
    else Err (RuntimeError "conv2d: bad input for this weight").
Proof.
  cbn [layer_forward]. change (1 <=? 1) with true.
  rewrite !conv_out_unit, !andb_true_r. done.
Qed.

(** The stack keeps the height and the width and flattens the third
    convolution's channels with them. *)
Lemma conv_stack_on_image (c h0 h1 h2 : Z) (act : Activation) (t0 t1 t2 : nat)
    (B c' h w : Z) :
  Sequential_forward (conv_stack c h0 h1 h2 act t0 t1 t2) [B; c'; h; w] =
    if (c' =? c) && (1 <=? c) && (1 <=? h0) && (1 <=? h1) && (1 <=? h2)
       && (1 <=? h) && (1 <=? w)
    then Ok [B; h2 * h * w]
    else Err (RuntimeError "conv2d: bad input for this weight").
Proof.
  unfold conv_stack.
  cbn [Sequential_forward nn_forward framework].
  rewrite conv_unit_on_image.
  destruct (c' =? c) eqn:Ec, (1 <=? c) eqn:E1, (1 <=? h0) eqn:E2, (1 <=? h) eqn:E3,
    (1 <=? w) eqn:E4; cbn [andb]; rewrite ?andb_false_r; try done.
  change (layer_forward (Act act) ?x) with (@Ok (list Z) x). cbn match.
  rewrite conv_unit_on_image, Z.eqb_refl, E2, E3, E4.
  destruct (1 <=? h1) eqn:E5; cbn [andb]; rewrite ?andb_false_r; try done.
  change (layer_forward (Act act) ?x) with (@Ok (list Z) x). cbn match.
  rewrite conv_unit_on_image, Z.eqb_refl, E3, E4, E5.
  destruct (1 <=? h2) eqn:E6; cbn [andb]; try done.
  change (layer_forward (Act act) ?x) with (@Ok (list Z) x). cbn match.
  cbn [layer_forward product foldr]. do 3 f_equal. lia.
Qed.

(** X12. In the shape model, when the constructor returns for an image
    shape (C, H, W), its linear layer takes the third hidden size times H
    times W, since the three convolutions have kernel 1 and stride 1, and
    [forward] maps a batch (B, C, H, W) to (B, last hidden size).  [forward]
    raises on a batch with another channel count, and on one whose image
    area gives another flattened width than the one fixed at construction. *)
Theorem conv_encoder_on_images (obs : Shape) (c h w : Z) (hs : list Z)
    (activation : option Activation) (norm : option string)
    (w0 w' : World) (self : loc) :
  shape_unpack obs = Ok [c; h; w] ->
  ConvEncoder.new obs hs activation norm w0 = (Ok self, w') ->
  exists a h2 hl theta,
    heap w' !! self = Some (ObjConvEncoder a) /\
    py_getitem hs 2 = Ok h2 /\
    py_getitem hs (-1) = Ok hl /\
    conv_mid a = Some (Learned (Linear (h2 * h * w) hl) theta) /\
    (forall B, 1 <= B ->
       object_forward (ObjConvEncoder a) (VTensor [B; c; h; w]) = Ok (VTensor [B; hl])) /\
    (forall B c', c' ≠ c ->
       is_ok (object_forward (ObjConvEncoder a) (VTensor [B; c'; h; w])) = false) /\
    (forall B h' w', h2 * h' * w' ≠ h2 * h * w ->
       is_ok (object_forward (ObjConvEncoder a) (VTensor [B; c; h'; w'])) = false).
Proof.
  intros Hobs Hrun.
  apply conv_new_ok_inv in Hrun as (-> & a & g & out & Hbuilt & ->).
  destruct Hbuilt as (c0 & h0 & h1 & h2 & hl & act & t0 & t1 & t2 & t3 & g' & fs
                      & Hc & _ & _ & Hh2 & Hhl & _ & _ & Hwidth & ->).
  destruct Hwidth as (dims & test_data & g'' & output & Hdims & Hrandn & Hpass & Hfs).
  rewrite Hobs in Hdims. injection Hdims as <-.
  assert (c0 = c) as ->.
  { destruct obs as [n|ds|ds]; cbn in Hobs, Hc; [done|..];
      injection Hobs as ->; by injection Hc as <-. }
  cbn in Hrandn. unfold randn in Hrandn.
  destruct (alloc_check [1; c; h; w]); [|done]. injection Hrandn as <- _.
  rewrite conv_stack_on_image, Z.eqb_refl in Hpass.
  destruct ((1 <=? c) && (1 <=? h0) && (1 <=? h1) && (1 <=? h2) && (1 <=? h) && (1 <=? w))
    eqn:Hsizes; cbn [andb] in Hpass; rewrite Hsizes in Hpass; [|done].
  injection Hpass as <-. cbn in Hfs. injection Hfs as <-.
  eexists. exists h2, hl, t3.
  split; [cbn [heap]; by apply list_lookup_middle|].
  split_and!; [done..| | |].
  - intros B _. cbn [object_forward]. unfold conv_forward_result.
    cbn [value_float conv_main conv_mid tensor_float framework].
    rewrite conv_stack_on_image, Z.eqb_refl. cbn [andb]. rewrite Hsizes.
    cbn [nn_forward framework layer_forward]. by rewrite map_last_batch.
  - intros B c' Hc'. cbn [object_forward]. unfold conv_forward_result.
    cbn [value_float conv_main conv_mid tensor_float framework].
    rewrite conv_stack_on_image.
    destruct (c' =? c) eqn:E; [|done]. apply Z.eqb_eq in E. done.
  - intros B h' w'' Harea. cbn [object_forward]. unfold conv_forward_result.
    cbn [value_float conv_main conv_mid tensor_float framework].
    rewrite conv_stack_on_image.
    match goal with
    | |- context [if ?b then Ok [B; _] else _] => destruct b; [|done]
    end.
    cbn [nn_forward framework layer_forward]. unfold map_last. cbn.
    destruct (h2 * h' * w'' =? h2 * h * w) eqn:E; [|done].
    apply Z.eqb_eq in E. done.
Qed.

End ImageShapes.
(** ** More on the constructor of VAC *)

Section VACConstruction.
Context `{Framework}.

(** X13. On observations of rank 3 the model inherits the demands of the
    convolutional encoder: when [VAC(...)] returns, the encoder hidden size
    list has at least three entries, the activation is not [None], and the
    sizes between the fourth and the last but one are all the same. *)
Theorem vac_on_images_inherits_encoder_demands (obs action : Shape)
    (share continuous : bool) (ehs : list Z) (ahh ahl chh chl : Z)
    (activation : option Activation) (norm : option string)
    (w w' : World) (self : loc) :
  shape_len (ding_squeeze obs) = Ok 3 ->
  VAC.new obs action share continuous ehs ahh ahl chh chl activation norm w
    = (Ok self, w') ->
  (3 <= length ehs)%nat /\
  (exists act, activation = Some act) /\
  py_len_set (py_slice ehs 3 (-1)) <= 1.
Proof.
  intros Hrank Hrun.
  apply vac_new_ok_inv in Hrun as [_ Hbuilt].
  destruct Hbuilt as (cls & encoders & theta_c & theta_a & gc & gc' & ga & g & out
                      & Hcls & _ & _ & Hencoders & Hlen & _).
  assert (cls = VAC.ConvEncoderCls) as ->.
  { unfold encoder_cls_of in Hcls.
    destruct (ding_squeeze obs) as [n|dims|dims]; cbn in Hrank; [done|..];
      injection Hrank as Hrank; rewrite Hrank in Hcls; cbn in Hcls; congruence. }
  destruct encoders as [|o encoders]; [by destruct share|].
  apply Forall_cons in Hencoders as [(a & _ & Hbuilt) _].
  destruct Hbuilt as (c & h0 & h1 & h2 & hl & act & t0 & t1 & t2 & t3 & g' & fs
                      & _ & _ & _ & Hh2 & _ & Hact & Hres & _).
  split_and!; [|by exists act|done].
  apply py_getitem_lookup in Hh2; [|lia].
  apply lookup_lt_Some in Hh2. cbn in Hh2. lia.
Qed.

(** X14. What the attributes of a returned model refer to.  With a shared
    encoder, the lists [actor] and [critic] start with the same object, the
    one in [encoder], and the attributes [actor_encoder] and
    [critic_encoder] do not exist; otherwise they start with two different
    objects, those in [actor_encoder] and [critic_encoder], and [encoder]
    does not exist.  Each list ends with its head.  All the modules were
    created by this call: the heap before it is a prefix of the heap after
    it, and the references are those of the new objects. *)
Theorem vac_new_module_lists (obs action : Shape)
    (share continuous : bool) (ehs : list Z) (ahh ahl chh chl : Z)
    (activation : option Activation) (norm : option string)
    (w w' : World) (self : loc) :
  VAC.new obs action share continuous ehs ahh ahl chh chl activation norm w
    = (Ok self, w') ->
  exists attrs actor_encoder critic_encoder actor_head critic_head created,
    heap w' = heap w ++ created /\
    heap w' !! self = Some (ObjVAC attrs) /\
    vac_actor attrs = Some (ModuleList [actor_encoder; actor_head]) /\
    vac_critic attrs = Some (ModuleList [critic_encoder; critic_head]) /\
    vac_actor_head attrs = Some actor_head /\
    vac_critic_head attrs = Some critic_head /\
    (if share then
       actor_encoder = critic_encoder /\
       vac_encoder attrs = Some actor_encoder /\
       vac_actor_encoder attrs = None /\ vac_critic_encoder attrs = None
     else
       actor_encoder ≠ critic_encoder /\
       vac_encoder attrs = None /\
       vac_actor_encoder attrs = Some actor_encoder /\
       vac_critic_encoder attrs = Some critic_encoder) /\
    NoDup [self; actor_encoder; actor_head; critic_head] /\
    (critic_encoder ∉ [self; actor_head; critic_head]) /\
    Forall (fun m => (length (heap w) <= m)%nat /\ (m < length (heap w'))%nat)
      [self; actor_encoder; critic_encoder; actor_head; critic_head].
Proof.
  intros Hrun.
  apply vac_new_ok_inv in Hrun as [-> Hbuilt].
  destruct Hbuilt as (cls & encoders & theta_c & theta_a & gc & gc' & ga & g & out
                      & _ & _ & _ & _ & Hlen & ->).
  cbn [heap]. set (self := length (heap w)).
  eexists _, _, _, _, _, _. split; [reflexivity|].
  split; [by apply list_lookup_middle|].
  cbn [vac_attrs_built vac_actor vac_critic vac_actor_head vac_critic_head
       vac_encoder vac_actor_encoder vac_critic_encoder].
  split; [reflexivity|]. split; [reflexivity|].
  split; [reflexivity|]. split; [reflexivity|].
  rewrite length_app. cbn [length]. rewrite length_app, Hlen. cbn [length].
  fold self.
  destruct share; cbn [Nat.add].
  - split; [done|]. split.
    + repeat (apply NoDup_cons; split; [rewrite ?elem_of_cons, elem_of_nil; lia|]).
      apply NoDup_nil_2.
    + split; [rewrite ?elem_of_cons, elem_of_nil; lia|]. repeat constructor; lia.
  - split; [split_and!; [lia|done..]|]. split.
    + repeat (apply NoDup_cons; split; [rewrite ?elem_of_cons, elem_of_nil; lia|]).
      apply NoDup_nil_2.
    + split; [rewrite ?elem_of_cons, elem_of_nil; lia|]. repeat constructor; lia.
Qed.

End VACConstruction.

(** ** The further theorems at concrete models *)

Section MoreWitnesses.
Import ShapeModel.

Lemma separate_modes_give_the_joint_mode_witness :
  heap flat_model.2 !! 0%nat = Some (ObjVAC flat_attrs) /\
  VAC.compute_actor 0%nat flat_input flat_model.2 =
    (Ok (VDict {[ "logit" := VTensor [4; 64] ]}),
     (VAC.compute_actor 0%nat flat_input flat_model.2).2) /\
  VAC.compute_critic 0%nat flat_input flat_model.2 =
    (Ok (VDict {[ "value" := VTensor [4] ]}),
     (VAC.compute_critic 0%nat flat_input flat_model.2).2) /\
  value_getitem (VDict {[ "logit" := VTensor [4; 64] ]}) "logit" = Ok (VTensor [4; 64]) /\
  exists value w',
    value_getitem (VDict {[ "value" := VTensor [4] ]}) "value" = Ok value /\
    VAC.compute_actor_critic 0%nat flat_input flat_model.2 =
      (Ok (VDict (<[ "logit" := VTensor [4; 64] ]> {[ "value" := value ]})), w').
Proof.
  assert (H1 : heap flat_model.2 !! 0%nat = Some (ObjVAC flat_attrs))
    by (vm_compute; reflexivity).
  assert (H2 : VAC.compute_actor 0%nat flat_input flat_model.2 =
                 (Ok (VDict {[ "logit" := VTensor [4; 64] ]}),
                  (VAC.compute_actor 0%nat flat_input flat_model.2).2))
    by (vm_compute; reflexivity).
  assert (H3 : VAC.compute_critic 0%nat flat_input flat_model.2 =
                 (Ok (VDict {[ "value" := VTensor [4] ]}),
                  (VAC.compute_critic 0%nat flat_input flat_model.2).2))
    by (vm_compute; reflexivity).
  assert (H4 : value_getitem (VDict {[ "logit" := VTensor [4; 64] ]}) "logit"
               = Ok (VTensor [4; 64]))
    by (vm_compute; reflexivity).
  split_and!; [exact H1|exact H2|exact H3|exact H4|].
  exact (separate_modes_give_the_joint_mode 0%nat flat_attrs flat_input _ _ _
           flat_model.2 _ _ H1 H2 H3 H4).
Defined.

Lemma separate_encoders_are_run_once_each_witness :
  heap image_model.2 !! 0%nat = Some (ObjVAC image_attrs) /\
  vac_share_encoder image_attrs = Some false /\
  VAC.compute_actor_critic 0%nat image_input image_model.2 =
    (Ok image_output, (VAC.compute_actor_critic 0%nat image_input image_model.2).2) /\
  exists actor_encoder critic_encoder critic_head actor_head
         actor_embedding critic_embedding logit value a c wa wc,
    vac_actor_encoder image_attrs = Some actor_encoder /\
    vac_critic_encoder image_attrs = Some critic_encoder /\
    vac_critic_head image_attrs = Some critic_head /\
    vac_actor_head image_attrs = Some actor_head /\
    (VAC.call actor_encoder image_input image_model.2).1 = Ok actor_embedding /\
    (VAC.call critic_encoder image_input image_model.2).1 = Ok critic_embedding /\
    calls (VAC.compute_actor_critic 0%nat image_input image_model.2).2 =
      calls image_model.2 ++
        [(actor_encoder, image_input); (critic_encoder, image_input);
         (critic_head, critic_embedding); (actor_head, actor_embedding)] /\
    image_output = VDict (<[ "logit" := logit ]> {[ "value" := value ]}) /\
    VAC.compute_actor 0%nat image_input image_model.2 = (Ok a, wa) /\
    VAC.compute_critic 0%nat image_input image_model.2 = (Ok c, wc) /\
    value_getitem a "logit" = Ok logit /\
    value_getitem c "value" = Ok value.
Proof.
  assert (H1 : heap image_model.2 !! 0%nat = Some (ObjVAC image_attrs))
    by (vm_compute; reflexivity).
  assert (H2 : vac_share_encoder image_attrs = Some false) by reflexivity.
  assert (H3 : VAC.compute_actor_critic 0%nat image_input image_model.2 =
                 (Ok image_output,
                  (VAC.compute_actor_critic 0%nat image_input image_model.2).2))
    by (vm_compute; reflexivity).
  split_and!; [exact H1|exact H2|exact H3|].
  exact (separate_encoders_are_run_once_each 0%nat image_attrs image_input image_output
           image_model.2 _ H1 H2 H3).
Defined.

Lemma shared_encoder_failure_stops_every_mode_witness :
  heap flat_model.2 !! 0%nat = Some (ObjVAC flat_attrs) /\
  vac_share_encoder flat_attrs = Some true /\
  vac_encoder flat_attrs = Some 1%nat /\
  heap flat_model.2 !! 1%nat = Some flat_encoder /\
  object_forward flat_encoder narrow_input =
    Err (RuntimeError "mat1 and mat2 shapes cannot be multiplied") /\
  let w' := set_calls (calls flat_model.2 ++ [(1%nat, narrow_input)]) flat_model.2 in
  VAC.compute_actor 0%nat narrow_input flat_model.2 =
    (Err (RuntimeError "mat1 and mat2 shapes cannot be multiplied"), w') /\
  VAC.compute_critic 0%nat narrow_input flat_model.2 =
    (Err (RuntimeError "mat1 and mat2 shapes cannot be multiplied"), w') /\
  VAC.compute_actor_critic 0%nat narrow_input flat_model.2 =
    (Err (RuntimeError "mat1 and mat2 shapes cannot be multiplied"), w').
Proof.
  assert (H1 : heap flat_model.2 !! 0%nat = Some (ObjVAC flat_attrs))
    by (vm_compute; reflexivity).
  assert (H2 : vac_share_encoder flat_attrs = Some true) by reflexivity.
  assert (H3 : vac_encoder flat_attrs = Some 1%nat) by reflexivity.
  assert (H4 : heap flat_model.2 !! 1%nat = Some flat_encoder)
    by (vm_compute; reflexivity).
  assert (H5 : object_forward flat_encoder narrow_input =
                 Err (RuntimeError "mat1 and mat2 shapes cannot be multiplied"))
    by (vm_compute; reflexivity).
  split_and!; [exact H1|exact H2|exact H3|exact H4|exact H5|].
  exact (shared_encoder_failure_stops_every_mode 0%nat 1%nat flat_attrs flat_encoder
           narrow_input _ flat_model.2 H1 H2 H3 H4 H5).
Defined.

Lemma critic_encoder_failure_stops_before_the_heads_witness :
  let w := patched_model narrow_encoder value_head logit_head in
  heap w !! 0%nat = Some (ObjVAC patched_attrs) /\
  vac_share_encoder patched_attrs = Some false /\
  vac_actor_encoder patched_attrs = Some 1%nat /\
  vac_critic_encoder patched_attrs = Some 2%nat /\
  heap w !! 1%nat = Some (ObjDing wide_encoder 0%nat) /\
  heap w !! 2%nat = Some (ObjDing narrow_encoder 1%nat) /\
  object_forward (ObjDing wide_encoder 0%nat) flat_input = Ok (VTensor [4; 64]) /\
  object_forward (ObjDing narrow_encoder 1%nat) flat_input =
    Err (RuntimeError "mat1 and mat2 shapes cannot be multiplied") /\
  VAC.compute_critic 0%nat flat_input w =
    (Err (RuntimeError "mat1 and mat2 shapes cannot be multiplied"),
     set_calls (calls w ++ [(2%nat, flat_input)]) w) /\
  VAC.compute_actor_critic 0%nat flat_input w =
    (Err (RuntimeError "mat1 and mat2 shapes cannot be multiplied"),
     set_calls (calls w ++ [(1%nat, flat_input); (2%nat, flat_input)]) w).
Proof.
  intros w.
  assert (H1 : heap w !! 0%nat = Some (ObjVAC patched_attrs)) by reflexivity.
  assert (H2 : vac_share_encoder patched_attrs = Some false) by reflexivity.
  assert (H3 : vac_actor_encoder patched_attrs = Some 1%nat) by reflexivity.
  assert (H4 : vac_critic_encoder patched_attrs = Some 2%nat) by reflexivity.
  assert (H5 : heap w !! 1%nat = Some (ObjDing wide_encoder 0%nat)) by reflexivity.
  assert (H6 : heap w !! 2%nat = Some (ObjDing narrow_encoder 1%nat)) by reflexivity.
  assert (H7 : object_forward (ObjDing wide_encoder 0%nat) flat_input
               = Ok (VTensor [4; 64]))
    by (vm_compute; reflexivity).
  assert (H8 : object_forward (ObjDing narrow_encoder 1%nat) flat_input =
                 Err (RuntimeError "mat1 and mat2 shapes cannot be multiplied"))
    by (vm_compute; reflexivity).
  split_and!; [exact H1|exact H2|exact H3|exact H4|exact H5|exact H6|exact H7|exact H8|..];
    apply (critic_encoder_failure_stops_before_the_heads 0%nat 1%nat 2%nat patched_attrs
             _ _ flat_input _ _ w H1 H2 H3 H4 H5 H6 H7 H8).
Defined.

Lemma joint_mode_needs_the_logit_entry_witness :
  let w := patched_model wide_encoder value_head value_head in
  heap w !! 0%nat = Some (ObjVAC patched_attrs) /\
  VAC.compute_actor 0%nat flat_input w =
    (Ok (VDict {[ "pred" := VTensor [4] ]}), (VAC.compute_actor 0%nat flat_input w).2) /\
  VAC.compute_critic 0%nat flat_input w =
    (Ok (VDict {[ "value" := VTensor [4] ]}), (VAC.compute_critic 0%nat flat_input w).2) /\
  value_getitem (VDict {[ "pred" := VTensor [4] ]}) "logit" = Err (KeyError "logit") /\
  vac_continuous patched_attrs = Some false /\
  exists w', VAC.compute_actor_critic 0%nat flat_input w = (Err (KeyError "logit"), w').
Proof.
  intros w.
  assert (H1 : heap w !! 0%nat = Some (ObjVAC patched_attrs)) by reflexivity.
  assert (H2 : VAC.compute_actor 0%nat flat_input w =
                 (Ok (VDict {[ "pred" := VTensor [4] ]}),
                  (VAC.compute_actor 0%nat flat_input w).2))
    by (vm_compute; reflexivity).
  assert (H3 : VAC.compute_critic 0%nat flat_input w =
                 (Ok (VDict {[ "value" := VTensor [4] ]}),
                  (VAC.compute_critic 0%nat flat_input w).2))
    by (vm_compute; reflexivity).
  assert (H4 : value_getitem (VDict {[ "pred" := VTensor [4] ]}) "logit"
               = Err (KeyError "logit"))
    by (vm_compute; reflexivity).
  split_and!; [exact H1|exact H2|exact H3|exact H4|..];
    apply (joint_mode_needs_the_logit_entry 0%nat patched_attrs flat_input _ _ _
             w _ _ H1 H2 H3 H4).
Defined.

Lemma critic_needs_the_pred_entry_witness :
  let w := patched_model wide_encoder logit_head logit_head in
  heap w !! 0%nat = Some (ObjVAC patched_attrs) /\
  vac_share_encoder patched_attrs = Some false /\
  vac_critic_encoder patched_attrs = Some 2%nat /\
  vac_critic_head patched_attrs = Some 3%nat /\
  heap w !! 2%nat = Some (ObjDing wide_encoder 1%nat) /\
  heap w !! 3%nat = Some (ObjDing logit_head 2%nat) /\
  object_forward (ObjDing wide_encoder 1%nat) flat_input = Ok (VTensor [4; 64]) /\
  object_forward (ObjDing logit_head 2%nat) (VTensor [4; 64]) =
    Ok (VDict {[ "logit" := VTensor [4; 6] ]}) /\
  ({[ "logit" := VTensor [4; 6] ]} : gmap string Value) !! "pred" = None /\
  VAC.compute_critic 0%nat flat_input w =
    (Err (KeyError "pred"),
     set_calls (calls w ++ [(2%nat, flat_input); (3%nat, VTensor [4; 64])]) w).
Proof.
  intros w.
  assert (H1 : heap w !! 0%nat = Some (ObjVAC patched_attrs)) by reflexivity.
  assert (H2 : vac_share_encoder patched_attrs = Some false) by reflexivity.
  assert (H3 : vac_critic_encoder patched_attrs = Some 2%nat) by reflexivity.
  assert (H4 : vac_critic_head patched_attrs = Some 3%nat) by reflexivity.
  assert (H5 : heap w !! 2%nat = Some (ObjDing wide_encoder 1%nat)) by reflexivity.
  assert (H6 : heap w !! 3%nat = Some (ObjDing logit_head 2%nat)) by reflexivity.
  assert (H7 : object_forward (ObjDing wide_encoder 1%nat) flat_input
               = Ok (VTensor [4; 64]))
    by (vm_compute; reflexivity).
  assert (H8 : object_forward (ObjDing logit_head 2%nat) (VTensor [4; 64]) =
                 Ok (VDict {[ "logit" := VTensor [4; 6] ]}))
    by (vm_compute; reflexivity).
  assert (H9 : ({[ "logit" := VTensor [4; 6] ]} : gmap string Value) !! "pred" = None)
    by (vm_compute; reflexivity).
  split_and!; [exact H1|exact H2|exact H3|exact H4|exact H5|exact H6|exact H7|exact H8|
               exact H9|].
  exact (critic_needs_the_pred_entry 0%nat 2%nat 3%nat patched_attrs false _ _
           flat_input _ _ w H1 H2 H3 H4 H5 H6 H7 H8 H9).
Defined.

Lemma conv_new_needs_a_channel_count_witness :
  (isinstance_int (SInt 64) = true \/ shape_len (SInt 64) = Ok 0) /\
  ConvEncoder.new (SInt 64) [32; 64; 64; 128] (Some ReLU) None world0 =
    (Err (TypeError "'int' object is not subscriptable"),
     conv_world world0 (rng world0) (conv_attrs_head (SInt 64) (Some ReLU))
       (stdout world0)).
Proof.
  assert (H1 : isinstance_int (SInt 64) = true \/ shape_len (SInt 64) = Ok 0)
    by (left; reflexivity).
  split; [exact H1|].
  exact (conv_new_needs_a_channel_count (SInt 64) [32; 64; 64; 128] (Some ReLU) None
           world0 H1).
Defined.

Lemma conv_new_needs_three_hidden_sizes_witness :
  (length [32; 64] < 3)%nat /\
  exists e g,
    ConvEncoder.new (STuple [3; 5; 5]) [32; 64] (Some ReLU) None world0 =
      (Err e, conv_world world0 g (conv_attrs_head (STuple [3; 5; 5]) (Some ReLU))
                (stdout world0)) /\
    (e = IndexError \/ shape_getitem (STuple [3; 5; 5]) 0 = Err e \/
     exists spec g0 g1, nn_init spec g0 = (Err e, g1)).
Proof.
  assert (H1 : (length [32; 64] < 3)%nat) by (cbn; lia).
  split; [exact H1|].
  exact (conv_new_needs_three_hidden_sizes (STuple [3; 5; 5]) [32; 64] (Some ReLU) None
           world0 H1).
Defined.

Lemma conv_new_asserts_equal_res_widths_witness :
  128 ∈ py_slice [32; 64; 64; 128; 256; 512] 3 (-1) /\
  256 ∈ py_slice [32; 64; 64; 128; 256; 512] 3 (-1) /\
  128 ≠ 256 /\
  exists e g,
    ConvEncoder.new (STuple [3; 5; 5]) [32; 64; 64; 128; 256; 512] (Some ReLU) None world0 =
      (Err e, conv_world world0 g (conv_attrs_head (STuple [3; 5; 5]) (Some ReLU))
                (stdout world0)) /\
    (e = AssertionError "Please indicate the same hidden size for res block parts" \/
     shape_getitem (STuple [3; 5; 5]) 0 = Err e \/
     exists spec g0 g1, nn_init spec g0 = (Err e, g1)).
Proof.
  assert (H1 : 128 ∈ py_slice [32; 64; 64; 128; 256; 512] 3 (-1))
    by (apply (list_elem_of_lookup_2 _ 0%nat); reflexivity).
  assert (H2 : 256 ∈ py_slice [32; 64; 64; 128; 256; 512] 3 (-1))
    by (apply (list_elem_of_lookup_2 _ 1%nat); reflexivity).
  assert (H3 : 128 ≠ 256) by lia.
  split_and!; [exact H1|exact H2|exact H3|].
  exact (conv_new_asserts_equal_res_widths (STuple [3; 5; 5]) [32; 64; 64; 128; 256; 512]
           (Some ReLU) None world0 128 256 H1 H2 H3).
Defined.

Lemma conv_new_rejects_no_activation_witness :
  ConvEncoder.new (STuple [3; 5; 5]) [32; 64; 64; 128; 128; 256] (Some ReLU) None world0
    = (Ok 0%nat, deep_encoder.2) /\
  ConvEncoder.new (STuple [3; 5; 5]) [32; 64; 64; 128; 128; 256] None None world0 =
    (Err (TypeError "'NoneType' object is not callable"),
     conv_world world0 4%nat
       {| conv_obs_shape := Some (STuple [3; 5; 5]);
          conv_act := Some None;
          conv_hidden_size_list := Some [4; 4; 4];
          conv_main := Some [ Learned (Conv2d 3 32 1 1) 0%nat; NoModule;
                              Learned (Conv2d 32 64 1 1) 1%nat; NoModule;
                              Learned (Conv2d 64 64 1 1) 2%nat; NoModule;
                              Flatten ];
          conv_mid := None |}
       (flatten_size_prints [1; 3; 5; 5])) /\
  exists c h0 h1 h2 hl fs t0 t1 t2 t3 g test_data,
    deep_encoder.2 =
      conv_world world0 (rng deep_encoder.2)
        {| conv_obs_shape := Some (STuple [3; 5; 5]);
           conv_act := Some (Some ReLU);
           conv_hidden_size_list := Some [4; 4; 4];
           conv_main := Some (conv_stack c h0 h1 h2 ReLU t0 t1 t2);
           conv_mid := Some (Learned (Linear fs hl) t3) |}
        (stdout world0 ++ flatten_size_prints test_data) /\
    nn_init (Linear fs hl) g = (Ok t3, rng deep_encoder.2) /\
    ConvEncoder.new (STuple [3; 5; 5]) [32; 64; 64; 128; 128; 256] None None world0 =
      (Err (TypeError "'NoneType' object is not callable"),
       conv_world world0 g
         {| conv_obs_shape := Some (STuple [3; 5; 5]);
            conv_act := Some None;
            conv_hidden_size_list := Some [4; 4; 4];
            conv_main := Some [ Learned (Conv2d c h0 1 1) t0; NoModule;
                                Learned (Conv2d h0 h1 1 1) t1; NoModule;
                                Learned (Conv2d h1 h2 1 1) t2; NoModule;
                                Flatten ];
            conv_mid := None |}
         (stdout world0 ++ flatten_size_prints test_data)).
Proof.
  assert (Hrun : ConvEncoder.new (STuple [3; 5; 5]) [32; 64; 64; 128; 128; 256]
                   (Some ReLU) None world0 = (Ok 0%nat, deep_encoder.2))
    by (vm_compute; reflexivity).
  split; [exact Hrun|]. split; [vm_compute; reflexivity|].
  exact (proj2 (conv_new_rejects_no_activation (STuple [3; 5; 5])
                  [32; 64; 64; 128; 128; 256] None world0)
           ReLU 0%nat deep_encoder.2 Hrun).
Defined.

Lemma conv_encoder_on_images_witness :
  shape_unpack (STuple [3; 5; 5]) = Ok [3; 5; 5] /\
  ConvEncoder.new (STuple [3; 5; 5]) [32; 64; 64; 128; 128; 256] (Some ReLU) None world0
    = (Ok 0%nat, deep_encoder.2) /\
  exists a h2 hl theta,
    heap deep_encoder.2 !! 0%nat = Some (ObjConvEncoder a) /\
    py_getitem [32; 64; 64; 128; 128; 256] 2 = Ok h2 /\
    py_getitem [32; 64; 64; 128; 128; 256] (-1) = Ok hl /\
    conv_mid a = Some (Learned (Linear (h2 * 5 * 5) hl) theta) /\
    (forall B, 1 <= B ->
       object_forward (ObjConvEncoder a) (VTensor [B; 3; 5; 5]) = Ok (VTensor [B; hl])) /\
    (forall B c', c' ≠ 3 ->
       is_ok (object_forward (ObjConvEncoder a) (VTensor [B; c'; 5; 5])) = false) /\
    (forall B h' w', h2 * h' * w' ≠ h2 * 5 * 5 ->
       is_ok (object_forward (ObjConvEncoder a) (VTensor [B; 3; h'; w'])) = false).
Proof.
  assert (H1 : shape_unpack (STuple [3; 5; 5]) = Ok [3; 5; 5]) by reflexivity.
  assert (H2 : ConvEncoder.new (STuple [3; 5; 5]) [32; 64; 64; 128; 128; 256]
                 (Some ReLU) None world0 = (Ok 0%nat, deep_encoder.2))
    by (vm_compute; reflexivity).
  split; [exact H1|]. split; [exact H2|].
  exact (conv_encoder_on_images (STuple [3; 5; 5]) 3 5 5 [32; 64; 64; 128; 128; 256]
           (Some ReLU) None world0 deep_encoder.2 0%nat H1 H2).
Defined.

Lemma vac_on_images_inherits_encoder_demands_witness :
  shape_len (squeeze (STuple [3; 4; 4])) = Ok 3 /\
  VAC.new (STuple [3; 4; 4]) (STuple [6; 6]) false false [16; 16; 16; 64]
      64 2 64 1 (Some ReLU) None world0 = (Ok 0%nat, image_model.2) /\
  (3 <= length [16; 16; 16; 64])%nat /\
  (exists act, Some ReLU = Some act) /\
  py_len_set (py_slice [16; 16; 16; 64] 3 (-1)) <= 1.
Proof.
  assert (H1 : shape_len (squeeze (STuple [3; 4; 4])) = Ok 3) by reflexivity.
  assert (H2 : VAC.new (STuple [3; 4; 4]) (STuple [6; 6]) false false [16; 16; 16; 64]
                 64 2 64 1 (Some ReLU) None world0 = (Ok 0%nat, image_model.2))
    by (vm_compute; reflexivity).
  split; [exact H1|]. split; [exact H2|].
  exact (vac_on_images_inherits_encoder_demands _ _ _ _ _ _ _ _ _ _ _ _ _ _ H1 H2).
Defined.

Lemma vac_new_module_lists_witness :
  VAC.new (SInt 64) (SInt 64) true false [128; 128; 64] 64 2 64 1 (Some ReLU) None
      world0 = (Ok 0%nat, flat_model.2) /\
  exists attrs actor_encoder critic_encoder actor_head critic_head created,
    heap flat_model.2 = heap world0 ++ created /\
    heap flat_model.2 !! 0%nat = Some (ObjVAC attrs) /\
    vac_actor attrs = Some (ModuleList [actor_encoder; actor_head]) /\
    vac_critic attrs = Some (ModuleList [critic_encoder; critic_head]) /\
    vac_actor_head attrs = Some actor_head /\
    vac_critic_head attrs = Some critic_head /\
    (actor_encoder = critic_encoder /\
     vac_encoder attrs = Some actor_encoder /\
     vac_actor_encoder attrs = None /\ vac_critic_encoder attrs = None) /\
    NoDup [0%nat; actor_encoder; actor_head; critic_head] /\
    (critic_encoder ∉ [0%nat; actor_head; critic_head]) /\
    Forall (fun m => (length (heap world0) <= m)%nat /\ (m < length (heap flat_model.2))%nat)
      [0%nat; actor_encoder; critic_encoder; actor_head; critic_head].
Proof.
  assert (H1 : VAC.new (SInt 64) (SInt 64) true false [128; 128; 64] 64 2 64 1 (Some ReLU) None
      world0 = (Ok 0%nat, flat_model.2))
    by (vm_compute; reflexivity).
  split; [exact H1|].
  exact (vac_new_module_lists (SInt 64) (SInt 64) true false
           [128; 128; 64] 64 2 64 1 (Some ReLU) None
           world0 flat_model.2 0%nat H1).
Defined.

End MoreWitnesses.
